(** * Healthcare data normalisation: the DataProcessor pipeline

    A shallow embedding of [data_processor.py] and [main.py].  A Spark
    DataFrame is a list of rows; a CSV cell is [option string] with [None]
    for SQL NULL.  How a frame is split into partitions when
    [monotonically_increasing_id] runs is not fixed by the program text: it
    is an explicit parameter of the functions that depend on it.  Where
    Spark leaves the surviving row and the order of the result open
    ([dropDuplicates]) the embedding takes the first row and keeps the
    frame order; what is stated about the order of numbering holds for
    every order the deduplication may return.  [orderBy] is a merge
    sort. *)

From Stdlib Require Import ZArith String Ascii Lia.
From stdpp Require Import base decidable option list sorting strings.

Local Open Scope string_scope.
Local Open Scope list_scope.
Local Open Scope nat_scope.

(** ** Cells, nulls and three-valued logic *)

(** The CSV is read without schema inference: every column is a nullable
    string.  [visit_date] alone is a timestamp (microseconds since the
    epoch, in the session time zone). *)
Abbreviation Value := (option string) (only parsing).
Abbreviation Timestamp := Z (only parsing).

(** [col.isNotNull()] *)
Definition isNotNull {A} (v : option A) : bool :=
  match v with Some _ => true | None => false end.

(** Equality of a join condition ([on=[...]], SQL [=]): a NULL on either
    side never matches. *)
Definition sql_eq {A} `{EqDecision A} (a b : option A) : bool :=
  match a, b with
  | Some x, Some y => bool_decide (x = y)
  | _, _ => false
  end.

(** [col(a) != col(b)]: NULL when either side is NULL. *)
Definition sql_ne {A} `{EqDecision A} (a b : option A) : option bool :=
  match a, b with
  | Some x, Some y => Some (negb (bool_decide (x = y)))
  | _, _ => None
  end.

(** [c1 | c2] in Kleene logic. *)
Definition sql_or (a b : option bool) : option bool :=
  match a, b with
  | Some true, _ | _, Some true => Some true
  | Some false, Some false => Some false
  | _, _ => None
  end.

(** [DataFrame.filter(c)] keeps a row only when [c] is true (not when it is
    false or NULL). *)
Definition is_true3 (c : option bool) : bool :=
  match c with Some true => true | _ => false end.

(** ** Relational operators *)

Section Relational.
Context {A : Type}.

(** [dropDuplicates(subset)]: one row per value of the [subset] columns;
    NULLs compare equal here (grouping semantics).  Spark leaves to the
    engine which row of a group survives and in which order the result
    comes; here the first row of a group survives and the frame order is
    kept. *)
Fixpoint dropDuplicates_on {K} `{EqDecision K} (key : A → K) (l : list A)
    : list A :=
  match l with
  | [] => []
  | x :: t => x :: filter (λ y, key y ≠ key x) (dropDuplicates_on key t)
  end.

(** [dropDuplicates()] and [distinct()]: on the whole row.  The rows of a
    group are equal, so only the order of the result is the engine's
    choice. *)
Definition dropDuplicates `{EqDecision A} (l : list A) : list A :=
  dropDuplicates_on id l.

(** [left.join(right, on=..., how="left")]: every left row is kept; it is
    paired with each matching right row, or with NULLs when none
    matches. *)
Definition left_join {R} (on : A → R → bool) (left : list A)
    (right : list R) : list (A * option R) :=
  left ≫= λ l,
    match filter (λ r, on l r = true) right with
    | [] => [(l, None)]
    | ms => (λ r, (l, Some r)) <$> ms
    end.

(** Consecutive partitions of the given sizes; what is left over forms
    the last partition. *)
Fixpoint chunks (sizes : list nat) (l : list A) : list (list A) :=
  match sizes with
  | [] => [l]
  | n :: ns => take n l :: chunks ns (drop n l)
  end.
End Relational.

(** A JVM [long]. *)
Definition wrap64 (x : Z) : Z :=
  ((x + 2 ^ 63) mod 2 ^ 64 - 2 ^ 63)%Z.

(** [monotonically_increasing_id()]: the partition index in the upper bits,
    the position of the row inside its partition in the lower 33 bits. *)
Definition monotonically_increasing_id (p i : nat) : Z :=
  wrap64 (Z.shiftl (Z.of_nat p) 33 + Z.of_nat i).

(** [df.withColumn(id, monotonically_increasing_id() + 1)] on a frame laid
    out as the partitions [parts]. *)
Definition with_id {A B} (mk : Z → A → B) (parts : list (list A)) : list B :=
  mjoin (imap (λ p rows,
    imap (λ i r, mk (wrap64 (monotonically_increasing_id p i + 1)) r) rows)
    parts).

(** ** The source relation

    One row of the flat CSV.  Its 47 columns are grouped by the column lists
    the program selects; every field keeps the name of its column. *)

Record PatientCols := {
  patient_id : Value;
  patient_first_name : Value;
  patient_last_name : Value;
  patient_date_of_birth : Value;
  patient_gender : Value;
  patient_address_line1 : Value;
  patient_address_line2 : Value;
  patient_city : Value;
  patient_state : Value;
  patient_zip : Value;
  patient_phone : Value;
  patient_email : Value
}.

Record InsuranceCols := {
  insurance_id : Value;
  insurance_payer_name : Value;
  insurance_policy_number : Value;
  insurance_group_number : Value;
  insurance_plan_type : Value
}.

Record BillingCols := {
  billing_id : Value;
  billing_total_charge : Value;
  billing_amount_paid : Value;
  billing_date : Value;
  billing_payment_status : Value
}.

Record ProviderCols := {
  doctor_name : Value;
  doctor_title : Value;
  doctor_department : Value
}.

Record LocationCols := {
  clinic_name : Value;
  room_number : Value
}.

Record PrimaryDiagnosisCols := {
  primary_diagnosis_code : Value;
  primary_diagnosis_desc : Value
}.

Record SecondaryDiagnosisCols := {
  secondary_diagnosis_code : Value;
  secondary_diagnosis_desc : Value
}.

Record TreatmentCols := {
  treatment_code : Value;
  treatment_desc : Value
}.

Record PrescriptionCols := {
  prescription_id : Value;
  prescription_drug_name : Value;
  prescription_dosage : Value;
  prescription_frequency : Value;
  prescription_duration_days : Value
}.

Record LabOrderCols := {
  lab_order_id : Value;
  lab_test_code : Value;
  lab_name : Value;
  lab_result_value : Value;
  lab_result_units : Value;
  lab_result_date : Value
}.

(** [visit_date] is the column [__init__] adds:
    [to_timestamp(col("visit_datetime"))], NULL when the text does not
    parse. *)
Record VisitCols := {
  visit_id : Value;
  visit_datetime : Value;
  visit_type : Value;
  visit_date : option Timestamp
}.

Record SourceRecord := {
  patient : PatientCols;
  insurance : InsuranceCols;
  billing : BillingCols;
  provider : ProviderCols;
  location : LocationCols;
  primary_diagnosis : PrimaryDiagnosisCols;
  secondary_diagnosis : SecondaryDiagnosisCols;
  treatment : TreatmentCols;
  prescription : PrescriptionCols;
  lab_order : LabOrderCols;
  visit : VisitCols
}.

(** [self.df] *)
Definition DataFrame := list SourceRecord.

#[global] Instance PatientCols_eq_dec : EqDecision PatientCols.
Proof. solve_decision. Defined.
#[global] Instance InsuranceCols_eq_dec : EqDecision InsuranceCols.
Proof. solve_decision. Defined.
#[global] Instance BillingCols_eq_dec : EqDecision BillingCols.
Proof. solve_decision. Defined.
#[global] Instance ProviderCols_eq_dec : EqDecision ProviderCols.
Proof. solve_decision. Defined.
#[global] Instance LocationCols_eq_dec : EqDecision LocationCols.
Proof. solve_decision. Defined.
#[global] Instance PrimaryDiagnosisCols_eq_dec : EqDecision PrimaryDiagnosisCols.
Proof. solve_decision. Defined.
#[global] Instance SecondaryDiagnosisCols_eq_dec : EqDecision SecondaryDiagnosisCols.
Proof. solve_decision. Defined.
#[global] Instance TreatmentCols_eq_dec : EqDecision TreatmentCols.
Proof. solve_decision. Defined.
#[global] Instance PrescriptionCols_eq_dec : EqDecision PrescriptionCols.
Proof. solve_decision. Defined.
#[global] Instance LabOrderCols_eq_dec : EqDecision LabOrderCols.
Proof. solve_decision. Defined.
#[global] Instance VisitCols_eq_dec : EqDecision VisitCols.
Proof. solve_decision. Defined.
#[global] Instance SourceRecord_eq_dec : EqDecision SourceRecord.
Proof. solve_decision. Defined.

(** ** The produced relations *)

Record DimPatient := {
  dim_patient_cols : PatientCols;
  patient_status : Value
}.

Record DimInsurance := {
  dim_insurance_cols : InsuranceCols;
  dim_insurance_patient_id : Value
}.

Record DimBilling := {
  dim_billing_cols : BillingCols;
  dim_billing_insurance_id : Value
}.

Record DimProvider := {
  provider_id : Z;
  dim_provider_cols : ProviderCols
}.

Record DimLocation := {
  location_id : Z;
  dim_location_cols : LocationCols
}.

Record DimPrimaryDiagnosis := {
  primary_diagnosis_id : Z;
  dim_primary_diagnosis_cols : PrimaryDiagnosisCols
}.

Record DimSecondaryDiagnosis := {
  secondary_diagnosis_id : Z;
  dim_secondary_diagnosis_cols : SecondaryDiagnosisCols
}.

Record DimTreatment := {
  treatment_id : Z;
  dim_treatment_cols : TreatmentCols
}.

Record FactVisit := {
  fact_visit_id : Value;
  fact_patient_id : Value;
  fact_insurance_id : Value;
  fact_billing_id : Value;
  fact_location_id : option Z;
  fact_provider_id : option Z;
  fact_primary_diagnosis_id : option Z;
  fact_secondary_diagnosis_id : option Z;
  fact_treatment_id : option Z;
  fact_prescription_id : Value;
  fact_lab_order_id : Value;
  fact_visit_date : option Timestamp;
  fact_visit_type : Value
}.

#[global] Instance DimProvider_eq_dec : EqDecision DimProvider.
Proof. solve_decision. Defined.
#[global] Instance DimLocation_eq_dec : EqDecision DimLocation.
Proof. solve_decision. Defined.
#[global] Instance FactVisit_eq_dec : EqDecision FactVisit.
Proof. solve_decision. Defined.

(** ** Sort order

    [orderBy(c1, ..., cn)] sorts ascending on the tuple of the named
    columns, NULLs first; strings compare byte-wise. *)

Class Comparator (A : Type) := cmp : A → A → comparison.

Class ComparatorOk (A : Type) `{Comparator A} := {
  cmp_antisym : ∀ a b : A, cmp a b = CompOpp (cmp b a);
  cmp_eq : ∀ a b : A, cmp a b = Eq → a = b;
  cmp_lt_trans : ∀ a b c : A, cmp a b = Lt → cmp b c = Lt → cmp a c = Lt
}.

#[global] Instance string_cmp : Comparator string := String.compare.

#[global] Instance option_cmp {A} `{Comparator A} : Comparator (option A) :=
  λ a b, match a, b with
         | None, None => Eq
         | None, Some _ => Lt
         | Some _, None => Gt
         | Some x, Some y => cmp x y
         end.

#[global] Instance prod_cmp {A B} `{Comparator A, Comparator B}
    : Comparator (A * B) :=
  λ a b, match cmp a.1 b.1 with
         | Eq => cmp a.2 b.2
         | c => c
         end.

(** [a] may stand before [b] in a frame ordered on the columns [f]. *)
Definition le_by {A K} `{Comparator K} (f : A → K) (a b : A) : Prop :=
  cmp (f a) (f b) ≠ Gt.

#[global] Instance le_by_dec {A K} `{Comparator K} (f : A → K) (a b : A)
    : Decision (le_by f a b).
Proof. unfold le_by. solve_decision. Defined.

Definition orderBy {A K} `{Comparator K} (f : A → K) (l : list A) : list A :=
  merge_sort (le_by f) l.

(** ** Timestamps *)

(** Days from 1970-01-01 to the civil date [y]-[m]-[d]. *)
Definition days_from_civil (y m d : Z) : Z :=
  let y' := (if m <=? 2 then y - 1 else y)%Z in
  let era := (y' / 400)%Z in
  let yoe := (y' - era * 400)%Z in
  let mp := ((m + 9) mod 12)%Z in
  let doy := ((153 * mp + 2) / 5 + d - 1)%Z in
  let doe := (yoe * 365 + yoe / 4 - yoe / 100 + doy)%Z in
  (era * 146097 + doe - 719468)%Z.

(** A date text [yyyy-MM-dd] cast to a timestamp: midnight of that day. *)
Definition timestamp_of_date (y m d : Z) : Timestamp :=
  (days_from_civil y m d * 86400 * 1000000)%Z.

Definition timestamp_of (y m d hh mm ss : Z) : Timestamp :=
  (timestamp_of_date y m d + ((hh * 60 + mm) * 60 + ss) * 1000000)%Z.

(** The literal ["2021-12-31"] of [derive_patient_status], compared with a
    timestamp column: Spark casts the text to a timestamp. *)
Definition cutoff : Timestamp := timestamp_of_date 2021 12 31.

(** [col <= literal] on timestamps: NULL when the column is NULL. *)
Definition sql_le (a : option Timestamp) (b : Timestamp) : option bool :=
  match a with
  | Some x => Some (x <=? b)%Z
  | None => None
  end.

(** [when(c, v).otherwise(w)]: [v] when [c] is true, [w] when it is false
    or NULL. *)
Definition when_otherwise {A} (c : option bool) (v w : A) : A :=
  if is_true3 c then v else w.

(** [max] as an aggregate: the greatest non-NULL value of the group, NULL
    when the group has none. *)
Definition spark_max (l : list (option Timestamp)) : option Timestamp :=
  foldr (λ v acc, match v, acc with
                  | Some x, Some y => Some (Z.max x y)
                  | Some x, None => Some x
                  | None, _ => acc
                  end) None l.

(** ** StatusDeriver and the identity dimensions *)

Record PatientStatus := {
  status_patient_id : Value;
  last_visit : option Timestamp;
  derived_status : Value
}.

(** [df.groupBy(key).agg(f(column))]: one row per value of [key] (NULL is a
    group of its own), carrying the aggregate of the group's [column]. *)
Definition groupBy_agg {A K V W} `{EqDecision K}
    (key : A → K) (column : A → V) (agg : list V → W) (l : list A)
    : list (K * W) :=
  (λ k, (k, agg (column <$> filter (λ r, key r = k) l)))
    <$> dropDuplicates (key <$> l).

Definition derive_patient_status (df : DataFrame) : list PatientStatus :=
  let last_visits :=
    groupBy_agg (λ r, patient_id (patient r)) (λ r, visit_date (visit r))
      spark_max df in
  (λ g, {| status_patient_id := g.1;
           last_visit := g.2;
           derived_status :=
             when_otherwise (sql_le g.2 cutoff)
               (Some "Inactive") (Some "Active") |})
    <$> last_visits.

Definition create_dim_patient (df : DataFrame) : list DimPatient :=
  let status_df := derive_patient_status df in
  let patient_df := dropDuplicates_on patient_id (patient <$> df) in
  let result :=
    left_join (λ p s, sql_eq (patient_id p) (status_patient_id s))
      patient_df status_df in
  (λ x, {| dim_patient_cols := x.1;
           patient_status := x.2 ≫= derived_status |}) <$> result.

Definition create_dim_insurance (df : DataFrame) : list DimInsurance :=
  dropDuplicates_on (λ d, insurance_id (dim_insurance_cols d))
    ((λ r, {| dim_insurance_cols := insurance r;
              dim_insurance_patient_id := patient_id (patient r) |}) <$> df).

Definition create_dim_billing (df : DataFrame) : list DimBilling :=
  dropDuplicates_on (λ d, billing_id (dim_billing_cols d))
    ((λ r, {| dim_billing_cols := billing r;
              dim_billing_insurance_id := insurance_id (insurance r) |}) <$> df).

Definition create_dim_prescription (df : DataFrame) : list PrescriptionCols :=
  dropDuplicates_on prescription_id
    (filter (λ c, isNotNull (prescription_id c)) (prescription <$> df)).

Definition create_dim_lab_order (df : DataFrame) : list LabOrderCols :=
  dropDuplicates_on lab_order_id
    (filter (λ c, isNotNull (lab_order_id c)) (lab_order <$> df)).

(** ** The derived dimensions

    Each function first builds the frame of distinct, fully populated
    business keys (the first assignment to [df] in the source) and then
    numbers it.  [layout] gives the sizes of the partitions the engine holds
    that frame in when the identifiers are generated. *)

Definition provider_rows (df : DataFrame) : list ProviderCols :=
  orderBy (λ c, (doctor_title c, doctor_department c))
    (filter (λ c, isNotNull (doctor_name c) && isNotNull (doctor_title c)
                  && isNotNull (doctor_department c))
       (dropDuplicates (provider <$> df))).

Definition create_dim_provider (layout : list nat) (df : DataFrame)
    : list DimProvider :=
  with_id Build_DimProvider (chunks layout (provider_rows df)).

Definition location_rows (df : DataFrame) : list LocationCols :=
  orderBy (λ c, (clinic_name c, room_number c))
    (filter (λ c, isNotNull (clinic_name c) && isNotNull (room_number c))
       (dropDuplicates (location <$> df))).

Definition create_dim_location (layout : list nat) (df : DataFrame)
    : list DimLocation :=
  with_id Build_DimLocation (chunks layout (location_rows df)).

Definition primary_diagnosis_rows (df : DataFrame)
    : list PrimaryDiagnosisCols :=
  filter (λ c, isNotNull (primary_diagnosis_code c)
               && isNotNull (primary_diagnosis_desc c))
    (dropDuplicates (primary_diagnosis <$> df)).

Definition create_dim_primary_diagnosis (layout : list nat) (df : DataFrame)
    : list DimPrimaryDiagnosis :=
  with_id Build_DimPrimaryDiagnosis (chunks layout (primary_diagnosis_rows df)).

Definition secondary_diagnosis_rows (df : DataFrame)
    : list SecondaryDiagnosisCols :=
  filter (λ c, isNotNull (secondary_diagnosis_code c)
               && isNotNull (secondary_diagnosis_desc c))
    (dropDuplicates (secondary_diagnosis <$> df)).

Definition create_dim_secondary_diagnosis (layout : list nat) (df : DataFrame)
    : list DimSecondaryDiagnosis :=
  with_id Build_DimSecondaryDiagnosis
    (chunks layout (secondary_diagnosis_rows df)).

Definition treatment_rows (df : DataFrame) : list TreatmentCols :=
  filter (λ c, isNotNull (treatment_code c) && isNotNull (treatment_desc c))
    (dropDuplicates (treatment <$> df)).

Definition create_dim_treatment (layout : list nat) (df : DataFrame)
    : list DimTreatment :=
  with_id Build_DimTreatment (chunks layout (treatment_rows df)).

(** *** After the deduplication

    The steps between [dropDuplicates()] and the numbering, applied to the
    frame [distinct] as the deduplication returned it, in whatever order
    the engine chose: [filter] then [orderBy] for Provider and Location,
    [filter] alone for the other three. *)






(** ** FactBuilder *)

(** The join conditions [on=[...]] of [create_fact_visit]. *)
Definition on_provider (s : ProviderCols) (d : DimProvider) : bool :=
  sql_eq (doctor_name s) (doctor_name (dim_provider_cols d))
  && sql_eq (doctor_title s) (doctor_title (dim_provider_cols d))
  && sql_eq (doctor_department s) (doctor_department (dim_provider_cols d)).

Definition on_location (s : LocationCols) (d : DimLocation) : bool :=
  sql_eq (clinic_name s) (clinic_name (dim_location_cols d))
  && sql_eq (room_number s) (room_number (dim_location_cols d)).

Definition on_primary_diagnosis (s : PrimaryDiagnosisCols)
    (d : DimPrimaryDiagnosis) : bool :=
  sql_eq (primary_diagnosis_code s)
    (primary_diagnosis_code (dim_primary_diagnosis_cols d))
  && sql_eq (primary_diagnosis_desc s)
       (primary_diagnosis_desc (dim_primary_diagnosis_cols d)).

Definition on_secondary_diagnosis (s : SecondaryDiagnosisCols)
    (d : DimSecondaryDiagnosis) : bool :=
  sql_eq (secondary_diagnosis_code s)
    (secondary_diagnosis_code (dim_secondary_diagnosis_cols d))
  && sql_eq (secondary_diagnosis_desc s)
       (secondary_diagnosis_desc (dim_secondary_diagnosis_cols d)).

Definition on_treatment (s : TreatmentCols) (d : DimTreatment) : bool :=
  sql_eq (treatment_code s) (treatment_code (dim_treatment_cols d))
  && sql_eq (treatment_desc s) (treatment_desc (dim_treatment_cols d)).

(** A row of [fact] after the five joins: the source row and, per
    dimension, the dimension row it met (or NULLs). *)
Definition Joined : Type :=
  SourceRecord * option DimProvider * option DimLocation
  * option DimPrimaryDiagnosis * option DimSecondaryDiagnosis
  * option DimTreatment.

Definition joined_source (x : Joined) : SourceRecord := x.1.1.1.1.1.

(** [fact.select("visit_id", ..., "visit_type")] *)
Definition select_fact (x : Joined) : FactVisit :=
  let '(s, p, l, pd, sd, t) := x in
  {| fact_visit_id := visit_id (visit s);
     fact_patient_id := patient_id (patient s);
     fact_insurance_id := insurance_id (insurance s);
     fact_billing_id := billing_id (billing s);
     fact_location_id := location_id <$> l;
     fact_provider_id := provider_id <$> p;
     fact_primary_diagnosis_id := primary_diagnosis_id <$> pd;
     fact_secondary_diagnosis_id := secondary_diagnosis_id <$> sd;
     fact_treatment_id := treatment_id <$> t;
     fact_prescription_id := prescription_id (prescription s);
     fact_lab_order_id := lab_order_id (lab_order s);
     fact_visit_date := visit_date (visit s);
     fact_visit_type := visit_type (visit s) |}.

Definition join_dimensions (df : DataFrame)
    (dim_provider : list DimProvider) (dim_location : list DimLocation)
    (dim_primary_diag : list DimPrimaryDiagnosis)
    (dim_secondary_diag : list DimSecondaryDiagnosis)
    (dim_treatment : list DimTreatment) : list Joined :=
  let fact := df in
  let fact := left_join (λ s, on_provider (provider s)) fact dim_provider in
  let fact :=
    left_join (λ x, on_location (location x.1)) fact dim_location in
  let fact :=
    left_join (λ x, on_primary_diagnosis (primary_diagnosis x.1.1))
      fact dim_primary_diag in
  let fact :=
    left_join (λ x, on_secondary_diagnosis (secondary_diagnosis x.1.1.1))
      fact dim_secondary_diag in
  left_join (λ x, on_treatment (treatment x.1.1.1.1)) fact dim_treatment.

Definition create_fact_visit (df : DataFrame)
    (dim_provider : list DimProvider) (dim_location : list DimLocation)
    (dim_primary_diag : list DimPrimaryDiagnosis)
    (dim_secondary_diag : list DimSecondaryDiagnosis)
    (dim_treatment : list DimTreatment) : list FactVisit :=
  dropDuplicates_on fact_visit_id
    (select_fact <$> join_dimensions df dim_provider dim_location
                       dim_primary_diag dim_secondary_diag dim_treatment).

(** ** ReconciliationEngine

    Each check prints its counts; here it returns them. *)

Record Report := { total : nat; wrong : nat }.

(** *** Provider *)

(** A row of [joined_fact_w_original]: the fact row, the dimension row met on
    [provider_id] and the source columns met on [visit_id]. *)
Definition ProviderCheck : Type :=
  FactVisit * option DimProvider * option (Value * ProviderCols).

Definition dim_doctor_name (x : ProviderCheck) : Value :=
  x.1.2 ≫= λ d, doctor_name (dim_provider_cols d).
Definition dim_doctor_title (x : ProviderCheck) : Value :=
  x.1.2 ≫= λ d, doctor_title (dim_provider_cols d).
Definition dim_doctor_department (x : ProviderCheck) : Value :=
  x.1.2 ≫= λ d, doctor_department (dim_provider_cols d).
Definition src_doctor_name (x : ProviderCheck) : Value :=
  x.2 ≫= λ s, doctor_name s.2.
Definition src_doctor_title (x : ProviderCheck) : Value :=
  x.2 ≫= λ s, doctor_title s.2.
Definition src_doctor_department (x : ProviderCheck) : Value :=
  x.2 ≫= λ s, doctor_department s.2.

Definition provider_joined (df : DataFrame) (fact_df : list FactVisit)
    (dim_provider : list DimProvider) : list ProviderCheck :=
  let joined_fact_and_dim :=
    left_join (λ f d, sql_eq (fact_provider_id f) (Some (provider_id d)))
      fact_df dim_provider in
  left_join (λ x s, sql_eq (fact_visit_id x.1) s.1) joined_fact_and_dim
    ((λ r, (visit_id (visit r), provider r)) <$> df).

Definition provider_condition (x : ProviderCheck) : option bool :=
  sql_or
    (sql_or (sql_ne (dim_doctor_name x) (src_doctor_name x))
            (sql_ne (dim_doctor_title x) (src_doctor_title x)))
    (sql_ne (dim_doctor_department x) (src_doctor_department x)).

Definition provider_mismatches (df : DataFrame) (fact_df : list FactVisit)
    (dim_provider : list DimProvider) : list ProviderCheck :=
  filter (λ x, is_true3 (provider_condition x))
    (provider_joined df fact_df dim_provider).

Definition verify_fact_join_accuracy (df : DataFrame)
    (fact_df : list FactVisit) (dim_provider : list DimProvider) : Report :=
  {| total := length (provider_joined df fact_df dim_provider);
     wrong := length (provider_mismatches df fact_df dim_provider) |}.

(** *** Diagnoses *)

Definition DiagnosisCheck : Type :=
  FactVisit * option DimPrimaryDiagnosis * option DimSecondaryDiagnosis
  * option (Value * PrimaryDiagnosisCols * SecondaryDiagnosisCols).

Definition dim_primary_code (x : DiagnosisCheck) : Value :=
  x.1.1.2 ≫= λ d, primary_diagnosis_code (dim_primary_diagnosis_cols d).
Definition dim_primary_desc (x : DiagnosisCheck) : Value :=
  x.1.1.2 ≫= λ d, primary_diagnosis_desc (dim_primary_diagnosis_cols d).
Definition dim_secondary_code (x : DiagnosisCheck) : Value :=
  x.1.2 ≫= λ d, secondary_diagnosis_code (dim_secondary_diagnosis_cols d).
Definition dim_secondary_desc (x : DiagnosisCheck) : Value :=
  x.1.2 ≫= λ d, secondary_diagnosis_desc (dim_secondary_diagnosis_cols d).
Definition src_primary_code (x : DiagnosisCheck) : Value :=
  x.2 ≫= λ s, primary_diagnosis_code s.1.2.
Definition src_primary_desc (x : DiagnosisCheck) : Value :=
  x.2 ≫= λ s, primary_diagnosis_desc s.1.2.
Definition src_secondary_code (x : DiagnosisCheck) : Value :=
  x.2 ≫= λ s, secondary_diagnosis_code s.2.
Definition src_secondary_desc (x : DiagnosisCheck) : Value :=
  x.2 ≫= λ s, secondary_diagnosis_desc s.2.

Definition diagnosis_joined (df : DataFrame) (fact_df : list FactVisit)
    (dim_primary : list DimPrimaryDiagnosis)
    (dim_secondary : list DimSecondaryDiagnosis) : list DiagnosisCheck :=
  let fact_w_primary_diagnosis :=
    left_join (λ f d, sql_eq (fact_primary_diagnosis_id f)
                        (Some (primary_diagnosis_id d)))
      fact_df dim_primary in
  let fact_w_dim_diagnosis :=
    left_join (λ x d, sql_eq (fact_secondary_diagnosis_id x.1)
                        (Some (secondary_diagnosis_id d)))
      fact_w_primary_diagnosis dim_secondary in
  left_join (λ x s, sql_eq (fact_visit_id x.1.1) s.1.1) fact_w_dim_diagnosis
    ((λ r, (visit_id (visit r), primary_diagnosis r, secondary_diagnosis r))
       <$> df).

Definition diagnosis_condition (x : DiagnosisCheck) : option bool :=
  sql_or
    (sql_or
       (sql_or (sql_ne (dim_primary_code x) (src_primary_code x))
               (sql_ne (dim_primary_desc x) (src_primary_desc x)))
       (sql_ne (dim_secondary_code x) (src_secondary_code x)))
    (sql_ne (dim_secondary_desc x) (src_secondary_desc x)).

Definition diagnosis_mismatches (df : DataFrame) (fact_df : list FactVisit)
    (dim_primary : list DimPrimaryDiagnosis)
    (dim_secondary : list DimSecondaryDiagnosis) : list DiagnosisCheck :=
  filter (λ x, is_true3 (diagnosis_condition x))
    (diagnosis_joined df fact_df dim_primary dim_secondary).

Definition verify_diagnosis_joins (df : DataFrame) (fact_df : list FactVisit)
    (dim_primary : list DimPrimaryDiagnosis)
    (dim_secondary : list DimSecondaryDiagnosis) : Report :=
  {| total := length (diagnosis_joined df fact_df dim_primary dim_secondary);
     wrong :=
       length (diagnosis_mismatches df fact_df dim_primary dim_secondary) |}.

(** *** Location *)

Definition LocationCheck : Type :=
  FactVisit * option DimLocation * option (Value * LocationCols).

Definition dim_clinic_name (x : LocationCheck) : Value :=
  x.1.2 ≫= λ d, clinic_name (dim_location_cols d).
Definition dim_room_number (x : LocationCheck) : Value :=
  x.1.2 ≫= λ d, room_number (dim_location_cols d).
Definition src_clinic_name (x : LocationCheck) : Value :=
  x.2 ≫= λ s, clinic_name s.2.
Definition src_room_number (x : LocationCheck) : Value :=
  x.2 ≫= λ s, room_number s.2.

Definition location_joined (df : DataFrame) (fact_df : list FactVisit)
    (dim_location : list DimLocation) : list LocationCheck :=
  let joined_fact_and_dim :=
    left_join (λ f d, sql_eq (fact_location_id f) (Some (location_id d)))
      fact_df dim_location in
  left_join (λ x s, sql_eq (fact_visit_id x.1) s.1) joined_fact_and_dim
    ((λ r, (visit_id (visit r), location r)) <$> df).

Definition location_condition (x : LocationCheck) : option bool :=
  sql_or (sql_ne (dim_clinic_name x) (src_clinic_name x))
         (sql_ne (dim_room_number x) (src_room_number x)).

Definition location_mismatches (df : DataFrame) (fact_df : list FactVisit)
    (dim_location : list DimLocation) : list LocationCheck :=
  filter (λ x, is_true3 (location_condition x))
    (location_joined df fact_df dim_location).

Definition verify_location_join_accuracy (df : DataFrame)
    (fact_df : list FactVisit) (dim_location : list DimLocation) : Report :=
  {| total := length (location_joined df fact_df dim_location);
     wrong := length (location_mismatches df fact_df dim_location) |}.

(** *** Treatment *)

Definition TreatmentCheck : Type :=
  FactVisit * option DimTreatment * option (Value * TreatmentCols).

Definition dim_treatment_code (x : TreatmentCheck) : Value :=
  x.1.2 ≫= λ d, treatment_code (dim_treatment_cols d).
Definition dim_treatment_desc (x : TreatmentCheck) : Value :=
  x.1.2 ≫= λ d, treatment_desc (dim_treatment_cols d).
Definition src_treatment_code (x : TreatmentCheck) : Value :=
  x.2 ≫= λ s, treatment_code s.2.
Definition src_treatment_desc (x : TreatmentCheck) : Value :=
  x.2 ≫= λ s, treatment_desc s.2.

Definition treatment_joined (df : DataFrame) (fact_df : list FactVisit)
    (dim_treatment : list DimTreatment) : list TreatmentCheck :=
  let joined_fact_and_dim :=
    left_join (λ f d, sql_eq (fact_treatment_id f) (Some (treatment_id d)))
      fact_df dim_treatment in
  left_join (λ x s, sql_eq (fact_visit_id x.1) s.1) joined_fact_and_dim
    ((λ r, (visit_id (visit r), treatment r)) <$> df).

Definition treatment_condition (x : TreatmentCheck) : option bool :=
  sql_or (sql_ne (dim_treatment_code x) (src_treatment_code x))
         (sql_ne (dim_treatment_desc x) (src_treatment_desc x)).

Definition treatment_mismatches (df : DataFrame) (fact_df : list FactVisit)
    (dim_treatment : list DimTreatment) : list TreatmentCheck :=
  filter (λ x, is_true3 (treatment_condition x))
    (treatment_joined df fact_df dim_treatment).

Definition verify_treatment_join_accuracy (df : DataFrame)
    (fact_df : list FactVisit) (dim_treatment : list DimTreatment) : Report :=
  {| total := length (treatment_joined df fact_df dim_treatment);
     wrong := length (treatment_mismatches df fact_df dim_treatment) |}.

(** *** Completeness *)

Record Completeness := {
  original_visits : nat;
  normalized_visits : nat;
  missing : list Value
}.

(** [a.subtract(b)]: the distinct rows of [a] not in [b]. *)
Definition subtract {A} `{EqDecision A} (a b : list A) : list A :=
  filter (λ x, x ∉ b) (dropDuplicates a).

Definition verify_data_completeness (df : DataFrame)
    (fact_df : list FactVisit) : Completeness :=
  let original := dropDuplicates ((λ r, visit_id (visit r)) <$> df) in
  let normalized := dropDuplicates (fact_visit_id <$> fact_df) in
  {| original_visits := length original;
     normalized_visits := length normalized;
     missing :=
       if decide (length original = length normalized) then []
       else subtract original (fact_visit_id <$> fact_df) |}.

(** ** The whole run ([main.py]) *)

(** What the engine decides in one run: the partition layout of each derived
    dimension's frame when its identifiers are generated.  The source frame
    [df] is what [DataProcessor.__init__] has read. *)
Record Engine := {
  provider_layout : list nat;
  location_layout : list nat;
  primary_diagnosis_layout : list nat;
  secondary_diagnosis_layout : list nat;
  treatment_layout : list nat
}.

Record Warehouse := {
  dim_patient : list DimPatient;
  dim_insurance : list DimInsurance;
  dim_billing : list DimBilling;
  dim_provider : list DimProvider;
  dim_location : list DimLocation;
  dim_primary_diag : list DimPrimaryDiagnosis;
  dim_secondary_diag : list DimSecondaryDiagnosis;
  dim_treatment : list DimTreatment;
  dim_prescription : list PrescriptionCols;
  dim_lab_order : list LabOrderCols;
  fact_visit : list FactVisit;
  provider_check : Report;
  diagnosis_check : Report;
  location_check : Report;
  treatment_check : Report;
  completeness_check : Completeness
}.

Definition main (engine : Engine) (df : DataFrame) : Warehouse :=
  let dim_provider := create_dim_provider (provider_layout engine) df in
  let dim_location := create_dim_location (location_layout engine) df in
  let dim_primary_diag :=
    create_dim_primary_diagnosis (primary_diagnosis_layout engine) df in
  let dim_secondary_diag :=
    create_dim_secondary_diagnosis (secondary_diagnosis_layout engine) df in
  let dim_treatment := create_dim_treatment (treatment_layout engine) df in
  let fact_visit :=
    create_fact_visit df dim_provider dim_location dim_primary_diag
      dim_secondary_diag dim_treatment in
  {| dim_patient := create_dim_patient df;
     dim_insurance := create_dim_insurance df;
     dim_billing := create_dim_billing df;
     dim_provider := dim_provider;
     dim_location := dim_location;
     dim_primary_diag := dim_primary_diag;
     dim_secondary_diag := dim_secondary_diag;
     dim_treatment := dim_treatment;
     dim_prescription := create_dim_prescription df;
     dim_lab_order := create_dim_lab_order df;
     fact_visit := fact_visit;
     provider_check := verify_fact_join_accuracy df fact_visit dim_provider;
     diagnosis_check :=
       verify_diagnosis_joins df fact_visit dim_primary_diag
         dim_secondary_diag;
     location_check := verify_location_join_accuracy df fact_visit dim_location;
     treatment_check :=
       verify_treatment_join_accuracy df fact_visit dim_treatment;
     completeness_check := verify_data_completeness df fact_visit |}.

(** ** Vocabulary of the statements *)

(** What a left join pairs the left row [l] with: a right row that matches
    it, or NULLs when no right row does. *)
Definition met {L R} (on : L → R → bool) (l : L) (right : list R)
    (o : option R) : Prop :=
  match o with
  | Some r => r ∈ right ∧ on l r = true
  | None => ∀ r, r ∈ right → on l r = false
  end.

(** The fact row [f] carries a NULL foreign key for every dimension in which
    the source row [s] meets no row. *)
Definition null_keys_where_unmatched (s : SourceRecord) (f : FactVisit)
    (dp : list DimProvider) (dl : list DimLocation)
    (dpd : list DimPrimaryDiagnosis) (dsd : list DimSecondaryDiagnosis)
    (dt : list DimTreatment) : Prop :=
  (met on_provider (provider s) dp None → fact_provider_id f = None)
  ∧ (met on_location (location s) dl None → fact_location_id f = None)
  ∧ (met on_primary_diagnosis (primary_diagnosis s) dpd None →
     fact_primary_diagnosis_id f = None)
  ∧ (met on_secondary_diagnosis (secondary_diagnosis s) dsd None →
     fact_secondary_diagnosis_id f = None)
  ∧ (met on_treatment (treatment s) dt None → fact_treatment_id f = None).

(** Every source row has its fact row (the one with its [visit_id]), and
    that fact row carries NULL keys wherever the source row is unmatched. *)
Definition retains_with_null_keys (df : DataFrame)
    (dp : list DimProvider) (dl : list DimLocation)
    (dpd : list DimPrimaryDiagnosis) (dsd : list DimSecondaryDiagnosis)
    (dt : list DimTreatment) : Prop :=
  ∀ s, s ∈ df →
    ∃ f, f ∈ create_fact_visit df dp dl dpd dsd dt
         ∧ fact_visit_id f = visit_id (visit s)
         ∧ null_keys_where_unmatched s f dp dl dpd dsd dt.

(** [with_id] on the partitions numbered from [p0] on. *)
Definition with_id_from {A B} (p0 : nat) (mk : Z → A → B)
    (parts : list (list A)) : list B :=
  mjoin (imap (λ p rows,
    imap (λ i r, mk (wrap64 (monotonically_increasing_id (p0 + p) i + 1)) r)
      rows) parts).

(** The identifiers a frame receives: they depend on its layout only. *)
Definition surrogate_keys {A} (parts : list (list A)) : list Z :=
  with_id (λ z _, z) parts.

(** The sizes for which [monotonically_increasing_id] is documented: fewer
    than a billion partitions, fewer than eight billion rows in each. *)
Definition within_limits {A} (parts : list (list A)) : Prop :=
  (Z.of_nat (length parts) ≤ 2 ^ 30)%Z
  ∧ Forall (λ rows, (Z.of_nat (length rows) < 2 ^ 33)%Z) parts.

(** The keys [1, 2, ..., n] in this order. *)
Definition one_to (n : nat) : list Z := seqZ 1 (Z.of_nat n).

(** All [n] rows of a frame laid out as [layout] sit in its first
    partition. *)
Definition single_partition (layout : list nat) (n : nat) : Prop :=
  match layout with
  | [] => True
  | k :: _ => (n ≤ k)%nat
  end.

(** The components of each business key. *)
Definition provider_key (c : ProviderCols) : list Value :=
  [doctor_name c; doctor_title c; doctor_department c].
Definition location_key (c : LocationCols) : list Value :=
  [clinic_name c; room_number c].
Definition primary_diagnosis_key (c : PrimaryDiagnosisCols) : list Value :=
  [primary_diagnosis_code c; primary_diagnosis_desc c].
Definition secondary_diagnosis_key (c : SecondaryDiagnosisCols)
    : list Value :=
  [secondary_diagnosis_code c; secondary_diagnosis_desc c].
Definition treatment_key (c : TreatmentCols) : list Value :=
  [treatment_code c; treatment_desc c].

(** [out] holds exactly one row per distinct tuple of [source] that has no
    NULL component, and no other row. *)
Definition one_row_per_key {A B} `{EqDecision A} (key : B → A)
    (cols : A → list Value) (source : list A) (out : list B) : Prop :=
  NoDup (key <$> out)
  ∧ (∀ k, k ∈ key <$> out ↔ k ∈ source ∧ None ∉ cols k)
  ∧ length out
    = length (dropDuplicates (filter (λ k, None ∉ cols k) source)).

(** The keys are the integers 1 to N, each once (N the number of keys). *)
Definition contiguous_from_one (keys : list Z) : Prop :=
  NoDup keys ∧ ∀ z, z ∈ keys ↔ (1 ≤ z ≤ Z.of_nat (length keys))%Z.

(** What the numbering guarantees for a frame laid out as [layout]: the keys
    grow strictly along the rows (so none repeats), start at 1 or above, and
    are 1, 2, ..., N exactly when all rows sit in the first partition. *)
Definition keys_as_assigned (layout : list nat) (keys : list Z) : Prop :=
  StronglySorted Z.lt keys
  ∧ Forall (λ z, (1 ≤ z)%Z) keys
  ∧ (keys = one_to (length keys) ↔ single_partition layout (length keys)).

(** [m] is the latest visit date recorded for the patient group [pid]. *)
Definition latest_visit (df : DataFrame) (pid : Value) (m : Timestamp)
    : Prop :=
  (∃ r, r ∈ df ∧ patient_id (patient r) = pid
        ∧ visit_date (visit r) = Some m)
  ∧ ∀ r d, r ∈ df → patient_id (patient r) = pid →
           visit_date (visit r) = Some d → (d ≤ m)%Z.

(** [out] has one row per key value of [source], NULL included. *)
Definition keeps_keys {B} (key : B → Value) (source : list Value)
    (out : list B) : Prop :=
  NoDup (key <$> out) ∧ ∀ k, k ∈ key <$> out ↔ k ∈ source.

(** [out] has one row per non-NULL key value of [source] and no row with a
    NULL key. *)
Definition keeps_non_null_keys {B} (key : B → Value) (source : list Value)
    (out : list B) : Prop :=
  NoDup (key <$> out) ∧ ∀ k, k ∈ key <$> out ↔ k ∈ source ∧ k ≠ None.

(** Two cells disagree, a NULL against a value included. *)
Definition differ (a b : Value) : Prop := a ≠ b.

(** Two cells hold different values, neither being NULL. *)
Definition conflict (a b : Value) : Prop :=
  ∃ x y, a = Some x ∧ b = Some y ∧ x ≠ y.

Definition provider_differs (x : ProviderCheck) : Prop :=
  differ (dim_doctor_name x) (src_doctor_name x)
  ∨ differ (dim_doctor_title x) (src_doctor_title x)
  ∨ differ (dim_doctor_department x) (src_doctor_department x).

Definition provider_conflicts (x : ProviderCheck) : Prop :=
  conflict (dim_doctor_name x) (src_doctor_name x)
  ∨ conflict (dim_doctor_title x) (src_doctor_title x)
  ∨ conflict (dim_doctor_department x) (src_doctor_department x).

Definition diagnosis_conflicts (x : DiagnosisCheck) : Prop :=
  conflict (dim_primary_code x) (src_primary_code x)
  ∨ conflict (dim_primary_desc x) (src_primary_desc x)
  ∨ conflict (dim_secondary_code x) (src_secondary_code x)
  ∨ conflict (dim_secondary_desc x) (src_secondary_desc x).

Definition location_conflicts (x : LocationCheck) : Prop :=
  conflict (dim_clinic_name x) (src_clinic_name x)
  ∨ conflict (dim_room_number x) (src_room_number x).

Definition treatment_conflicts (x : TreatmentCheck) : Prop :=
  conflict (dim_treatment_code x) (src_treatment_code x)
  ∨ conflict (dim_treatment_desc x) (src_treatment_desc x).

(** The provider check counts every checked row whose two paths differ in
    some compared column. *)
Definition provider_check_reports_differences (df : DataFrame)
    (fact_df : list FactVisit) (dim_provider : list DimProvider) : Prop :=
  ∀ x, x ∈ provider_joined df fact_df dim_provider →
       provider_differs x →
       x ∈ provider_mismatches df fact_df dim_provider.

(** [dim] after the business key of the row numbered [k] was overwritten
    with [c] (a stale or corrupted dimension row). *)
Definition overwrite {D C} (id : D → Z) (mk : Z → C → D) (k : Z) (c : C)
    (dim : list D) : list D :=
  (λ d, if decide (id d = k) then mk k c else d) <$> dim.

(** The new business key [c] conflicts with the old one [c0] in some
    column. *)
Definition provider_key_conflicts (c c0 : ProviderCols) : Prop :=
  conflict (doctor_name c) (doctor_name c0)
  ∨ conflict (doctor_title c) (doctor_title c0)
  ∨ conflict (doctor_department c) (doctor_department c0).

Definition location_key_conflicts (c c0 : LocationCols) : Prop :=
  conflict (clinic_name c) (clinic_name c0)
  ∨ conflict (room_number c) (room_number c0).

Definition treatment_key_conflicts (c c0 : TreatmentCols) : Prop :=
  conflict (treatment_code c) (treatment_code c0)
  ∨ conflict (treatment_desc c) (treatment_desc c0).

Definition primary_key_conflicts (c c0 : PrimaryDiagnosisCols) : Prop :=
  conflict (primary_diagnosis_code c) (primary_diagnosis_code c0)
  ∨ conflict (primary_diagnosis_desc c) (primary_diagnosis_desc c0).

Definition secondary_key_conflicts (c c0 : SecondaryDiagnosisCols) : Prop :=
  conflict (secondary_diagnosis_code c) (secondary_diagnosis_code c0)
  ∨ conflict (secondary_diagnosis_desc c) (secondary_diagnosis_desc c0).

(** Every visit of the source has its own, non-NULL [visit_id]. *)
Definition visits_identified (df : DataFrame) : Prop :=
  NoDup ((λ r, visit_id (visit r)) <$> df)
  ∧ ∀ r, r ∈ df → visit_id (visit r) ≠ None.

(** The one row of [l] whose [key] is [k], if any. *)
Definition the_match {A K} `{EqDecision K} (key : A → option K)
    (k : option K) (l : list A) : option A :=
  head (filter (λ a, sql_eq k (key a) = true) l).



(** Strictly ascending on the columns [f]. *)
Definition lt_by {A K} `{Comparator K} (f : A → K) (a b : A) : Prop :=
  cmp (f a) (f b) = Lt.




(** *** Vocabulary of the further properties *)

(** The fact row [f] copies the visit's own columns and the pre-existing
    identifiers of the source row [s]. *)
Definition copies_visit (s : SourceRecord) (f : FactVisit) : Prop :=
  fact_visit_id f = visit_id (visit s)
  ∧ fact_patient_id f = patient_id (patient s)
  ∧ fact_insurance_id f = insurance_id (insurance s)
  ∧ fact_billing_id f = billing_id (billing s)
  ∧ fact_prescription_id f = prescription_id (prescription s)
  ∧ fact_lab_order_id f = lab_order_id (lab_order s)
  ∧ fact_visit_date f = visit_date (visit s)
  ∧ fact_visit_type f = visit_type (visit s).

(** The foreign key [fk] is what the business key [c] resolves to in [dim]:
    NULL when [c] has a NULL component, and otherwise the identifier of a
    row of [dim] that carries exactly [c]. *)
Definition resolved {D C} (id : D → Z) (cols : D → C)
    (key : C → list Value) (dim : list D) (c : C) (fk : option Z) : Prop :=
  match fk with
  | None => (None ∈ key c)
  | Some i => (None ∉ key c) ∧ ∃ d, d ∈ dim ∧ id d = i ∧ cols d = c
  end.

(** The run stays within the sizes [monotonically_increasing_id] is
    documented for. *)
Definition engine_within_limits (engine : Engine) (df : DataFrame) : Prop :=
  (Z.of_nat (length df) < 2 ^ 33)%Z
  ∧ (Z.of_nat (length (provider_layout engine)) < 2 ^ 30)%Z
  ∧ (Z.of_nat (length (location_layout engine)) < 2 ^ 30)%Z
  ∧ (Z.of_nat (length (primary_diagnosis_layout engine)) < 2 ^ 30)%Z
  ∧ (Z.of_nat (length (secondary_diagnosis_layout engine)) < 2 ^ 30)%Z
  ∧ (Z.of_nat (length (treatment_layout engine)) < 2 ^ 30)%Z.

(** The foreign key [k] is the identifier of a row of [dim]. *)
Definition references {D} (id : D → Z) (dim : list D) (k : option Z) : Prop :=
  ∃ d, d ∈ dim ∧ k = Some (id d).

(** [v] is the visit id, not NULL, of a row of the source. *)
Definition names_visit (df : DataFrame) (v : Value) : Prop :=
  v ≠ None ∧ ∃ r, r ∈ df ∧ visit_id (visit r) = v.

(** The patient group [pid] has a dated visit, and none later than the
    instant 2021-12-31 00:00:00, the midnight that starts the day:
    1640908800000000 microseconds after 1970-01-01 00:00:00. *)
Definition lapsed (df : DataFrame) (pid : Value) : Prop :=
  (∃ r, r ∈ df ∧ patient_id (patient r) = pid
        ∧ is_Some (visit_date (visit r)))
  ∧ ∀ r d, r ∈ df → patient_id (patient r) = pid →
           visit_date (visit r) = Some d → (d ≤ 1640908800000000)%Z.

(** The business columns read back from [dim] through the foreign key
    [fk]: those of the row that [fk] identifies, if any. *)
Definition recover {D C} (id : D → Z) (cols : D → C) (dim : list D)
    (fk : option Z) : option C :=
  cols <$> the_match (λ d, Some (id d)) fk dim.

(** The business key [c] when none of its components is NULL. *)
Definition populated {C} (key : C → list Value) (c : C) : option C :=
  if decide (None ∈ key c) then None else Some c.

(** ** Sample data *)

Definition no_patient : PatientCols :=
  {| patient_id := None; patient_first_name := None;
     patient_last_name := None; patient_date_of_birth := None;
     patient_gender := None; patient_address_line1 := None;
     patient_address_line2 := None; patient_city := None;
     patient_state := None; patient_zip := None; patient_phone := None;
     patient_email := None |}.

Definition patient_of (id city : string) : PatientCols :=
  {| patient_id := Some id; patient_first_name := None;
     patient_last_name := None; patient_date_of_birth := None;
     patient_gender := None; patient_address_line1 := None;
     patient_address_line2 := None; patient_city := Some city;
     patient_state := None; patient_zip := None; patient_phone := None;
     patient_email := None |}.

Definition no_insurance : InsuranceCols :=
  {| insurance_id := None; insurance_payer_name := None;
     insurance_policy_number := None; insurance_group_number := None;
     insurance_plan_type := None |}.

Definition no_billing : BillingCols :=
  {| billing_id := None; billing_total_charge := None;
     billing_amount_paid := None; billing_date := None;
     billing_payment_status := None |}.

Definition no_prescription : PrescriptionCols :=
  {| prescription_id := None; prescription_drug_name := None;
     prescription_dosage := None; prescription_frequency := None;
     prescription_duration_days := None |}.

Definition no_lab_order : LabOrderCols :=
  {| lab_order_id := None; lab_test_code := None; lab_name := None;
     lab_result_value := None; lab_result_units := None;
     lab_result_date := None |}.

Definition no_diagnosis1 : PrimaryDiagnosisCols :=
  {| primary_diagnosis_code := None; primary_diagnosis_desc := None |}.
Definition no_diagnosis2 : SecondaryDiagnosisCols :=
  {| secondary_diagnosis_code := None; secondary_diagnosis_desc := None |}.
Definition no_treatment : TreatmentCols :=
  {| treatment_code := None; treatment_desc := None |}.
Definition no_location : LocationCols :=
  {| clinic_name := None; room_number := None |}.
Definition no_provider : ProviderCols :=
  {| doctor_name := None; doctor_title := None; doctor_department := None |}.

(** A visit row with the given visit id, patient, doctor, room and visit
    date; every other column is NULL. *)
Definition visit_row (vid : Value) (p : PatientCols) (doc : ProviderCols)
    (loc : LocationCols) (date : option Timestamp) : SourceRecord :=
  {| patient := p; insurance := no_insurance; billing := no_billing;
     provider := doc; location := loc;
     primary_diagnosis := no_diagnosis1;
     secondary_diagnosis := no_diagnosis2;
     treatment := no_treatment; prescription := no_prescription;
     lab_order := no_lab_order;
     visit := {| visit_id := vid; visit_datetime := None;
                 visit_type := None; visit_date := date |} |}.

Definition doctor (n t d : string) : ProviderCols :=
  {| doctor_name := Some n; doctor_title := Some t;
     doctor_department := Some d |}.

Definition room (c r : string) : LocationCols :=
  {| clinic_name := Some c; room_number := Some r |}.

(** Two source rows share the visit id V1: one names a doctor and no room,
    the other a room and no doctor. *)
Definition shared_visit : DataFrame :=
  [ visit_row (Some "V1") (patient_of "P1" "Oslo")
      (doctor "Ann" "MD" "Cardiology") no_location None;
    visit_row (Some "V1") (patient_of "P1" "Oslo")
      no_provider (room "North" "101") None ].

(** Two visits; the second has no doctor recorded. *)
Definition visit1 : SourceRecord :=
  visit_row (Some "V1") (patient_of "P1" "Oslo")
    (doctor "Ann" "MD" "Cardiology") (room "North" "101")
    (Some (timestamp_of_date 2021 12 31)).

Definition visit2 : SourceRecord :=
  visit_row (Some "V2") (patient_of "P2" "Bergen")
    no_provider (room "North" "102")
    (Some (timestamp_of_date 2022 1 1)).

Definition two_visits : DataFrame := [visit1; visit2].

(** One patient, one visit, no readable visit date. *)
Definition undated_visit : DataFrame :=
  [ visit_row (Some "V9") (patient_of "P9" "Oslo")
      (doctor "Ann" "MD" "Cardiology") (room "North" "101") None ].

(** One patient, one visit, on the morning of the cutoff day. *)
Definition morning_visit : DataFrame :=
  [ visit_row (Some "V8") (patient_of "P8" "Oslo")
      (doctor "Ann" "MD" "Cardiology") (room "North" "101")
      (Some (timestamp_of 2021 12 31 8 30 0)) ].

(** A visit without patient, insurance, billing, prescription or lab
    identifiers. *)
Definition anonymous_visit : DataFrame :=
  [ visit_row (Some "V7") no_patient (doctor "Ann" "MD" "Cardiology")
      (room "North" "101") None ].

(** A visit whose doctor is named but has no title recorded. *)
Definition untitled_doctor : DataFrame :=
  [ visit_row (Some "V5") (patient_of "P5" "Oslo")
      {| doctor_name := Some "Ann"; doctor_title := None;
         doctor_department := Some "Cardiology" |}
      (room "North" "101") None ].

(** The fact row of [untitled_doctor]: no provider key. *)
Definition untitled_doctor_fact : FactVisit :=
  {| fact_visit_id := Some "V5"; fact_patient_id := Some "P5";
     fact_insurance_id := None; fact_billing_id := None;
     fact_location_id := Some 1%Z; fact_provider_id := None;
     fact_primary_diagnosis_id := None; fact_secondary_diagnosis_id := None;
     fact_treatment_id := None; fact_prescription_id := None;
     fact_lab_order_id := None; fact_visit_date := None;
     fact_visit_type := None |}.

(** Every frame in one partition, and the Location frame cut after its first
    row. *)
Definition one_partition : Engine :=
  {| provider_layout := []; location_layout := [];
     primary_diagnosis_layout := []; secondary_diagnosis_layout := [];
     treatment_layout := [] |}.

Definition split_location : Engine :=
  {| provider_layout := []; location_layout := [1];
     primary_diagnosis_layout := []; secondary_diagnosis_layout := [];
     treatment_layout := [] |}.

(** The Provider dimension of [two_visits], its only row, and that row's
    business key once the doctor was renamed. *)
Definition two_visits_providers : list DimProvider :=
  create_dim_provider [] two_visits.

Definition provider_ann : DimProvider :=
  {| provider_id := 1; dim_provider_cols := doctor "Ann" "MD" "Cardiology" |}.

Definition renamed_doctor : ProviderCols := doctor "Bob" "MD" "Cardiology".






(** The fact row of the first of the [two_visits], all frames in one
    partition. *)
Definition visit1_fact : FactVisit :=
  {| fact_visit_id := Some "V1"; fact_patient_id := Some "P1";
     fact_insurance_id := None; fact_billing_id := None;
     fact_location_id := Some 1%Z; fact_provider_id := Some 1%Z;
     fact_primary_diagnosis_id := None; fact_secondary_diagnosis_id := None;
     fact_treatment_id := None; fact_prescription_id := None;
     fact_lab_order_id := None;
     fact_visit_date := Some (timestamp_of_date 2021 12 31);
     fact_visit_type := None |}.

(** The Provider dimension of [two_visits] after its doctor was renamed, and
    the row the provider check then reports. *)
Definition stale_providers : list DimProvider :=
  overwrite provider_id Build_DimProvider 1 renamed_doctor
    two_visits_providers.

Definition stale_provider_row : ProviderCheck :=
  (visit1_fact,
   Some {| provider_id := 1; dim_provider_cols := renamed_doctor |},
   Some (Some "V1", doctor "Ann" "MD" "Cardiology")).

(** The Patient row of the first of [two_visits]. *)
Definition patient1_row : DimPatient :=
  {| dim_patient_cols := patient_of "P1" "Oslo";
     patient_status := Some "Inactive" |}.

(** The two Location rows of [two_visits], numbered in two partitions. *)
Definition room_101 : DimLocation :=
  {| location_id := 1; dim_location_cols := room "North" "101" |}.

Definition room_102 : DimLocation :=
  {| location_id := 8589934593; dim_location_cols := room "North" "102" |}.

(** * Verification *)

(** ** Deduplication *)

Section DropDuplicates.
Context {A K : Type} `{EqDecision K} (key : A → K).
Implicit Types (l : list A) (x : A).

Lemma dropDuplicates_on_elem_of l x :
  x ∈ dropDuplicates_on key l → x ∈ l.
Proof.
  revert x. induction l as [|a l IH]; simpl; intros x Hx; [done|].
  apply elem_of_cons in Hx as [->|Hx]; [left|right].
  apply list_elem_of_filter in Hx as [_ Hx]. by apply IH.
Qed.

Lemma fmap_dropDuplicates_on l :
  key <$> dropDuplicates_on key l = dropDuplicates (key <$> l).
Proof.
  unfold dropDuplicates.
  induction l as [|a l IH]; [done|].
  rewrite fmap_cons. simpl. f_equal.
  rewrite <- IH. clear IH.
  induction (dropDuplicates_on key l) as [|b m IHm]; [done|].
  rewrite !filter_cons. simpl. rewrite !filter_cons.
  destruct (decide (key b ≠ key a)); simpl; by rewrite IHm.
Qed.

Lemma dropDuplicates_on_keys l (k : K) :
  k ∈ key <$> dropDuplicates_on key l ↔ k ∈ key <$> l.
Proof.
  induction l as [|a l IH]; simpl; [done|].
  rewrite !elem_of_cons, <- IH, !list_elem_of_fmap.
  split.
  - intros [->|(y & -> & Hy)]; [by left|].
    apply list_elem_of_filter in Hy as [_ Hy]. right. eauto.
  - intros [->|(y & -> & Hy)]; [by left|].
    destruct (decide (key y = key a)) as [->|Hne]; [by left|].
    right. exists y. split; [done|]. by apply list_elem_of_filter.
Qed.

Lemma NoDup_fmap_filter (P : A → Prop) `{∀ x, Decision (P x)} l :
  NoDup (key <$> l) → NoDup (key <$> filter P l).
Proof.
  induction l as [|a l IH]; [done|].
  rewrite fmap_cons, NoDup_cons, filter_cons. intros [Hn Hnd].
  destruct (decide (P a)); [|by apply IH].
  rewrite fmap_cons, NoDup_cons. split; [|by apply IH].
  rewrite list_elem_of_fmap. intros (y & Hy & Hin).
  apply list_elem_of_filter in Hin as [_ Hin].
  apply Hn. rewrite Hy. by apply list_elem_of_fmap_2.
Qed.

Lemma dropDuplicates_on_NoDup l : NoDup (key <$> dropDuplicates_on key l).
Proof.
  induction l as [|a l IH]; simpl; [constructor|].
  apply NoDup_cons. split.
  - rewrite list_elem_of_fmap. intros (y & Hy & Hin).
    apply list_elem_of_filter in Hin as [Hne _]. by apply Hne.
  - by apply NoDup_fmap_filter.
Qed.

Lemma dropDuplicates_on_sublist l : dropDuplicates_on key l `sublist_of` l.
Proof.
  induction l as [|a l IH]; simpl; [done|].
  apply sublist_skip. etrans; [apply sublist_filter|done].
Qed.

Lemma dropDuplicates_on_id l :
  NoDup (key <$> l) → dropDuplicates_on key l = l.
Proof.
  induction l as [|a l IH]; simpl; [done|].
  rewrite NoDup_cons. intros [Hnotin Hnd]. f_equal.
  rewrite IH by done.
  clear IH Hnd. induction l as [|b l IHl]; [done|].
  rewrite filter_cons. simpl in Hnotin. rewrite not_elem_of_cons in Hnotin.
  destruct Hnotin as [Hne Hnotin].
  rewrite decide_True by congruence. f_equal. by apply IHl.
Qed.

(** The surviving row of a key is the first source row with this key. *)
Lemma dropDuplicates_on_first l1 x l2 :
  key x ∉ key <$> l1 → x ∈ dropDuplicates_on key (l1 ++ x :: l2).
Proof.
  induction l1 as [|a l1 IH]; simpl; intros Hn; [left|].
  rewrite not_elem_of_cons in Hn. destruct Hn as [Hne Hn].
  right. apply list_elem_of_filter. split; [done|]. by apply IH.
Qed.
End DropDuplicates.

(** ** Left joins *)

Section LeftJoin.
Context {L R : Type} (on : L → R → bool).
Implicit Types (left : list L) (right : list R).

Lemma filter_nil_iff right (l : L) :
  filter (λ r, on l r = true) right = [] ↔ ∀ r, r ∈ right → on l r = false.
Proof.
  split.
  - intros Hnil r Hr. destruct (on l r) eqn:E; [|done].
    exfalso. eapply filter_nil_not_elem_of; [exact Hnil| |exact Hr]. done.
  - intros Hall. induction right as [|r right IH]; [done|].
    rewrite filter_cons_False.
    + apply IH. intros r' Hr'. apply Hall. by right.
    + rewrite Hall; [done|by left].
Qed.

Lemma elem_of_left_join left right (x : L * option R) :
  x ∈ left_join on left right ↔ x.1 ∈ left ∧ met on x.1 right x.2.
Proof.
  unfold left_join. rewrite list_elem_of_bind. split.
  - intros (l & Hx & Hl).
    destruct (filter (λ r, on l r = true) right) as [|m ms] eqn:E.
    + apply list_elem_of_singleton in Hx as ->. simpl.
      split; [done|]. by apply filter_nil_iff.
    + apply list_elem_of_fmap in Hx as (r & -> & Hr). simpl.
      split; [done|]. rewrite <- E in Hr.
      apply list_elem_of_filter in Hr as [? ?]. done.
  - destruct x as [l o]. simpl. intros [Hl Hmet]. exists l.
    split; [|done]. destruct o as [r|]; simpl in Hmet.
    + destruct Hmet as [Hr Hon].
      assert (r ∈ filter (λ r, on l r = true) right) as Hin
        by by apply list_elem_of_filter.
      destruct (filter (λ r, on l r = true) right) as [|m ms];
        [by apply elem_of_nil in Hin|].
      exact (list_elem_of_fmap_2 (λ r, (l, Some r)) _ _ Hin).
    + apply filter_nil_iff in Hmet. rewrite Hmet. by left.
Qed.

(** An outer join keeps every left row. *)
Lemma left_join_keeps left right (l : L) :
  l ∈ left → ∃ o, (l, o) ∈ left_join on left right.
Proof.
  intros Hl.
  destruct (filter (λ r, on l r = true) right) as [|m ms] eqn:E.
  - exists None. apply elem_of_left_join. split; [done|]. simpl.
    by apply filter_nil_iff.
  - exists (Some m). apply elem_of_left_join. split; [done|]. simpl.
    assert (m ∈ filter (λ r, on l r = true) right) as Hin
      by (rewrite E; left).
    by apply list_elem_of_filter in Hin as [? ?].
Qed.

Lemma fst_left_join left right (l : L) :
  l ∈ fst <$> left_join on left right ↔ l ∈ left.
Proof.
  rewrite list_elem_of_fmap. split.
  - intros (x & -> & Hx). by apply elem_of_left_join in Hx as [? _].
  - intros Hl. destruct (left_join_keeps left right l Hl) as [o Ho].
    by exists (l, o).
Qed.
End LeftJoin.

(** ** FactBuilder *)

Lemma dropDuplicates_NoDup {A} `{EqDecision A} (l : list A) :
  NoDup (dropDuplicates l).
Proof.
  unfold dropDuplicates.
  rewrite <- (list_fmap_id (dropDuplicates_on id l)).
  apply dropDuplicates_on_NoDup.
Qed.

Lemma elem_of_dropDuplicates {A} `{EqDecision A} (l : list A) (x : A) :
  x ∈ dropDuplicates l ↔ x ∈ l.
Proof.
  unfold dropDuplicates.
  pose proof (dropDuplicates_on_keys id l x) as Hk.
  by rewrite !list_fmap_id in Hk.
Qed.

(** The number of distinct values depends on the set of values only. *)
Lemma length_dropDuplicates_ext {A} `{EqDecision A} (l1 l2 : list A) :
  (∀ x, x ∈ l1 ↔ x ∈ l2) →
  length (dropDuplicates l1) = length (dropDuplicates l2).
Proof.
  intros Hext. apply Permutation_length, NoDup_Permutation.
  - apply dropDuplicates_NoDup.
  - apply dropDuplicates_NoDup.
  - intros x. by rewrite !elem_of_dropDuplicates.
Qed.

Lemma elem_of_join_dimensions df dp dl dpd dsd dt s p l pd sd t :
  (s, p, l, pd, sd, t) ∈ join_dimensions df dp dl dpd dsd dt ↔
  s ∈ df
  ∧ met on_provider (provider s) dp p
  ∧ met on_location (location s) dl l
  ∧ met on_primary_diagnosis (primary_diagnosis s) dpd pd
  ∧ met on_secondary_diagnosis (secondary_diagnosis s) dsd sd
  ∧ met on_treatment (treatment s) dt t.
Proof.
  unfold join_dimensions. rewrite !elem_of_left_join. simpl.
  unfold met. tauto.
Qed.

(** No join drops a source row. *)
Lemma join_dimensions_keeps df dp dl dpd dsd dt s :
  s ∈ df →
  ∃ x, x ∈ join_dimensions df dp dl dpd dsd dt ∧ joined_source x = s.
Proof.
  intros Hs. unfold join_dimensions.
  destruct (left_join_keeps (λ s, on_provider (provider s)) df dp s Hs)
    as [p Hp].
  destruct (left_join_keeps (λ x, on_location (location x.1)) _ dl _ Hp)
    as [l Hl].
  destruct (left_join_keeps
    (λ x, on_primary_diagnosis (primary_diagnosis x.1.1)) _ dpd _ Hl)
    as [pd Hpd].
  destruct (left_join_keeps
    (λ x, on_secondary_diagnosis (secondary_diagnosis x.1.1.1)) _ dsd _ Hpd)
    as [sd Hsd].
  destruct (left_join_keeps
    (λ x, on_treatment (treatment x.1.1.1.1)) _ dt _ Hsd) as [t Ht].
  by exists (s, p, l, pd, sd, t).
Qed.

Lemma join_dimensions_source df dp dl dpd dsd dt x :
  x ∈ join_dimensions df dp dl dpd dsd dt → joined_source x ∈ df.
Proof.
  destruct x as [[[[[s p] l] pd] sd] t].
  rewrite elem_of_join_dimensions. by intros [? _].
Qed.

Lemma select_fact_visit_id x :
  fact_visit_id (select_fact x) = visit_id (visit (joined_source x)).
Proof. by destruct x as [[[[[s p] l] pd] sd] t]. Qed.

Lemma fact_visit_ids df dp dl dpd dsd dt (v : Value) :
  v ∈ fact_visit_id <$> create_fact_visit df dp dl dpd dsd dt
  ↔ v ∈ (λ r, visit_id (visit r)) <$> df.
Proof.
  unfold create_fact_visit. rewrite dropDuplicates_on_keys.
  rewrite !list_elem_of_fmap. split.
  - intros (f & -> & Hf). apply list_elem_of_fmap in Hf as (x & -> & Hx).
    exists (joined_source x). split; [apply select_fact_visit_id|].
    by apply join_dimensions_source in Hx.
  - intros (s & -> & Hs).
    destruct (join_dimensions_keeps df dp dl dpd dsd dt s Hs)
      as (x & Hx & <-).
    exists (select_fact x). split; [by rewrite select_fact_visit_id|].
    by apply list_elem_of_fmap_2.
Qed.

(** C1: whatever the dimension relations, the fact relation holds at most
    one row per [visit_id], its visit ids are exactly the visit ids of the
    source, its row count is the number of distinct source visit ids, and
    the completeness check reports equal counts and nothing missing. *)
Theorem fact_visit_unique_and_complete df dp dl dpd dsd dt :
  let fact := create_fact_visit df dp dl dpd dsd dt in
  let source_ids := (λ r, visit_id (visit r)) <$> df in
  NoDup (fact_visit_id <$> fact)
  ∧ (∀ v, v ∈ fact_visit_id <$> fact ↔ v ∈ source_ids)
  ∧ length fact = length (dropDuplicates source_ids)
  ∧ original_visits (verify_data_completeness df fact)
    = normalized_visits (verify_data_completeness df fact)
  ∧ missing (verify_data_completeness df fact) = [].
Proof.
  intros fact source_ids.
  assert (NoDup (fact_visit_id <$> fact)) as Hnd
    by apply dropDuplicates_on_NoDup.
  assert (∀ v, v ∈ fact_visit_id <$> fact ↔ v ∈ source_ids) as Hids
    by apply fact_visit_ids.
  assert (length (dropDuplicates source_ids)
          = length (dropDuplicates (fact_visit_id <$> fact))) as Hlen
    by (apply length_dropDuplicates_ext; intros v; by rewrite Hids).
  split; [done|]. split; [done|]. split.
  - rewrite Hlen. unfold dropDuplicates.
    rewrite dropDuplicates_on_id by by rewrite list_fmap_id.
    by rewrite length_fmap.
  - unfold verify_data_completeness. simpl. fold source_ids.
    split; [done|]. by rewrite decide_True.
Qed.

Lemma met_None_inv {L R} (on : L → R → bool) (l : L) right (o : option R) :
  met on l right None → met on l right o → o = None.
Proof.
  intros Hnone Ho. destruct o as [r|]; [|done].
  destruct Ho as [Hr Hon]. rewrite (Hnone r Hr) in Hon. done.
Qed.

Lemma shared_visit_fact :
  create_fact_visit shared_visit
    (create_dim_provider [] shared_visit)
    (create_dim_location [] shared_visit)
    (create_dim_primary_diagnosis [] shared_visit)
    (create_dim_secondary_diagnosis [] shared_visit)
    (create_dim_treatment [] shared_visit)
  = [ {| fact_visit_id := Some "V1"; fact_patient_id := Some "P1";
         fact_insurance_id := None; fact_billing_id := None;
         fact_location_id := None; fact_provider_id := Some 1%Z;
         fact_primary_diagnosis_id := None;
         fact_secondary_diagnosis_id := None; fact_treatment_id := None;
         fact_prescription_id := None; fact_lab_order_id := None;
         fact_visit_date := None; fact_visit_type := None |} ].
Proof. vm_compute. reflexivity. Qed.

(** C2, as stated, fails when two source rows share a [visit_id]: the one
    fact row of that visit carries the provider key of the first row, while
    the second row has no doctor and meets no provider.  (Had the
    deduplication kept the second row instead, its location key would
    contradict the first row, which has no room.) *)
Lemma shared_visit_keeps_foreign_key :
  ¬ retains_with_null_keys shared_visit
      (create_dim_provider [] shared_visit)
      (create_dim_location [] shared_visit)
      (create_dim_primary_diagnosis [] shared_visit)
      (create_dim_secondary_diagnosis [] shared_visit)
      (create_dim_treatment [] shared_visit).
Proof.
  intros Hall.
  destruct (Hall (visit_row (Some "V1") (patient_of "P1" "Oslo")
                    no_provider (room "North" "101") None))
    as (f & Hf & _ & Hnull & _).
  { right. left. }
  rewrite shared_visit_fact in Hf. apply list_elem_of_singleton in Hf as ->.
  assert (Some 1%Z = @None Z) as Habs; [|done].
  apply Hnull. intros d Hd. vm_compute in Hd.
  apply list_elem_of_singleton in Hd as ->. reflexivity.
Qed.

(** C2 (amended): every source row has a fact row with its [visit_id],
    never dropped by a join; when no other source row shares that
    [visit_id], the fact row carries a NULL foreign key for every dimension
    in which the source row meets no row. *)
Theorem fact_keeps_unmatched_rows df dp dl dpd dsd dt s :
  s ∈ df →
  ∃ f, f ∈ create_fact_visit df dp dl dpd dsd dt
       ∧ fact_visit_id f = visit_id (visit s)
       ∧ ((∀ s', s' ∈ df → visit_id (visit s') = visit_id (visit s) → s' = s)
          → null_keys_where_unmatched s f dp dl dpd dsd dt).
Proof.
  intros Hs.
  assert (visit_id (visit s)
            ∈ fact_visit_id <$> create_fact_visit df dp dl dpd dsd dt) as Hv.
  { apply fact_visit_ids.
    by apply (list_elem_of_fmap_2 (λ r, visit_id (visit r))). }
  apply list_elem_of_fmap in Hv as (f & Hvid & Hf).
  exists f. split; [done|]. split; [done|]. intros Honly.
  apply dropDuplicates_on_elem_of, list_elem_of_fmap in Hf as (x & -> & Hx).
  destruct x as [[[[[s' p] l] pd] sd] t].
  apply elem_of_join_dimensions in Hx as (Hs' & Hp & Hl & Hpd & Hsd & Ht).
  simpl in Hvid. apply Honly in Hs' as ->; [|done].
  unfold null_keys_where_unmatched. simpl.
  repeat split; intros Hnone.
  - by rewrite (met_None_inv _ _ _ _ Hnone Hp).
  - by rewrite (met_None_inv _ _ _ _ Hnone Hl).
  - by rewrite (met_None_inv _ _ _ _ Hnone Hpd).
  - by rewrite (met_None_inv _ _ _ _ Hnone Hsd).
  - by rewrite (met_None_inv _ _ _ _ Hnone Ht).
Qed.

Lemma fact_keeps_unmatched_rows_witness :
  visit2 ∈ two_visits
  ∧ ∃ f, f ∈ create_fact_visit two_visits
               (create_dim_provider [] two_visits) [] [] [] []
         ∧ fact_visit_id f = visit_id (visit visit2)
         ∧ ((∀ s', s' ∈ two_visits →
               visit_id (visit s') = visit_id (visit visit2) → s' = visit2)
            → null_keys_where_unmatched visit2 f
                (create_dim_provider [] two_visits) [] [] [] []).
Proof.
  assert (visit2 ∈ two_visits) as Hin by (right; left).
  split; [exact Hin|].
  exact (fact_keeps_unmatched_rows two_visits
           (create_dim_provider [] two_visits) [] [] [] [] visit2 Hin).
Defined.

(** ** Numbering *)

Ltac pow2 :=
  change (2 ^ 30)%Z with 1073741824%Z in *;
  change (2 ^ 33)%Z with 8589934592%Z in *;
  change (2 ^ 63)%Z with 9223372036854775808%Z in *;
  change (2 ^ 64)%Z with 18446744073709551616%Z in *.

Lemma wrap64_small (x : Z) :
  (- 2 ^ 63 ≤ x < 2 ^ 63)%Z → wrap64 x = x.
Proof.
  intros Hx. unfold wrap64. pow2.
  rewrite Z.mod_small by lia. lia.
Qed.

Lemma surrogate_key_value (p i : nat) :
  (Z.of_nat p < 2 ^ 30)%Z → (Z.of_nat i + 1 < 2 ^ 33)%Z →
  wrap64 (monotonically_increasing_id p i + 1)
  = (Z.of_nat p * 2 ^ 33 + Z.of_nat i + 1)%Z.
Proof.
  intros Hp Hi. unfold monotonically_increasing_id.
  rewrite Z.shiftl_mul_pow2 by lia.
  rewrite (wrap64_small (_ + Z.of_nat i)) by (pow2; lia).
  apply wrap64_small. pow2. lia.
Qed.

Section Numbering.
Context {A B : Type} (mk : Z → A → B).
Implicit Types (parts : list (list A)) (rows : list A).

Lemma with_id_from_0 parts : with_id mk parts = with_id_from 0 mk parts.
Proof. reflexivity. Qed.

Lemma with_id_from_cons p0 rows parts :
  with_id_from p0 mk (rows :: parts)
  = imap (λ i r, mk (wrap64 (monotonically_increasing_id p0 i + 1)) r) rows
    ++ with_id_from (S p0) mk parts.
Proof.
  unfold with_id_from. rewrite imap_cons. simpl.
  rewrite Nat.add_0_r. f_equal. f_equal.
  apply imap_ext. intros p ps _. simpl.
  by replace (p0 + S p) with (S (p0 + p)) by lia.
Qed.

End Numbering.

Lemma fmap_with_id_from {A B C} (mk : Z → A → B) (g : B → C) p0
    (parts : list (list A)) :
  g <$> with_id_from p0 mk parts = with_id_from p0 (λ z a, g (mk z a)) parts.
Proof.
  revert p0. induction parts as [|rows parts IH]; intros p0; [done|].
  rewrite !with_id_from_cons, fmap_app, IH. f_equal.
  rewrite fmap_imap. reflexivity.
Qed.

(** Numbering neither adds, drops nor reorders rows. *)
Lemma with_id_from_rows {A} p0 (parts : list (list A)) :
  with_id_from p0 (λ _ a, a) parts = mjoin parts.
Proof.
  revert p0. induction parts as [|rows parts IH]; intros p0; [done|].
  rewrite with_id_from_cons, IH. f_equal.
  change (imap _ rows) with (imap (const (@id A)) rows).
  by rewrite imap_const, list_fmap_id.
Qed.

Lemma join_chunks {A} (layout : list nat) (l : list A) :
  mjoin (chunks layout l) = l.
Proof.
  revert l. induction layout as [|n ns IH]; intros l; simpl.
  - apply app_nil_r.
  - by rewrite IH, take_drop.
Qed.

Lemma length_chunks {A} (layout : list nat) (l : list A) :
  length (chunks layout l) = S (length layout).
Proof.
  revert l. induction layout as [|n ns IH]; intros l; simpl; [done|].
  by rewrite IH.
Qed.

Lemma chunks_sizes {A} (layout : list nat) (l : list A) :
  Forall (λ rows, length rows ≤ length l) (chunks layout l).
Proof.
  revert l. induction layout as [|n ns IH]; intros l; simpl.
  - by constructor.
  - constructor; [rewrite length_take; lia|].
    eapply Forall_impl; [apply IH|]. simpl. intros rows.
    rewrite length_drop. lia.
Qed.

Lemma chunks_within_limits {A} (layout : list nat) (l : list A) :
  (Z.of_nat (length layout) < 2 ^ 30)%Z →
  (Z.of_nat (length l) < 2 ^ 33)%Z →
  within_limits (chunks layout l).
Proof.
  intros Hp Hn. split.
  - rewrite length_chunks. pow2. lia.
  - eapply Forall_impl; [apply chunks_sizes|]. simpl. intros rows. lia.
Qed.

(** *** The identifiers of a frame within the documented sizes *)

Lemma chunk_keys {A} (p : nat) (rows : list A) :
  (Z.of_nat p < 2 ^ 30)%Z → (Z.of_nat (length rows) < 2 ^ 33)%Z →
  imap (λ i _, wrap64 (monotonically_increasing_id p i + 1)) rows
  = seqZ (Z.of_nat p * 2 ^ 33 + 1) (Z.of_nat (length rows)).
Proof.
  intros Hp Hn. apply list_eq. intros i. rewrite list_lookup_imap.
  destruct (rows !! i) as [r|] eqn:E; simpl.
  - apply lookup_lt_Some in E.
    rewrite lookup_seqZ_lt by lia.
    rewrite surrogate_key_value by lia. f_equal. lia.
  - apply lookup_ge_None in E. by rewrite lookup_seqZ_ge by lia.
Qed.

Lemma StronglySorted_seqZ (m n : Z) : StronglySorted Z.lt (seqZ m n).
Proof.
  destruct (decide (n ≤ 0)%Z) as [Hn|Hn].
  { rewrite seqZ_nil by done. constructor. }
  rewrite <- (Z2Nat.id n) by lia.
  induction (Z.to_nat n) as [|k IH]; [constructor|].
  rewrite seqZ_S. apply StronglySorted_app_2; [|done|repeat constructor].
  intros x y Hx Hy. apply elem_of_seqZ in Hx.
  apply list_elem_of_singleton in Hy. lia.
Qed.

Lemma StronglySorted_lt_NoDup (l : list Z) : StronglySorted Z.lt l → NoDup l.
Proof.
  induction 1 as [|x l _ IH Hall]; constructor; [|done].
  intros Hin. rewrite Forall_forall in Hall. specialize (Hall x Hin). lia.
Qed.

Lemma keys_from_sorted {A} (p0 : nat) (parts : list (list A)) :
  (Z.of_nat (p0 + length parts) ≤ 2 ^ 30)%Z →
  Forall (λ rows, (Z.of_nat (length rows) < 2 ^ 33)%Z) parts →
  StronglySorted Z.lt (with_id_from p0 (λ z _, z) parts)
  ∧ Forall (λ z, (Z.of_nat p0 * 2 ^ 33 + 1 ≤ z)%Z)
      (with_id_from p0 (λ z _, z) parts).
Proof.
  revert p0. induction parts as [|rows parts IH]; intros p0 Hp Hsz.
  { split; constructor. }
  apply Forall_cons in Hsz as [Hrows Hsz]. simpl in Hp.
  destruct (IH (S p0)) as [IHs IHb]; [lia|done|].
  rewrite with_id_from_cons, chunk_keys by lia.
  rewrite Forall_forall in IHb. split.
  - apply StronglySorted_app_2; [|apply StronglySorted_seqZ|done].
    intros x y Hx Hy. apply elem_of_seqZ in Hx. apply IHb in Hy.
    pow2. lia.
  - apply Forall_forall. intros z Hz.
    apply elem_of_app in Hz as [Hz|Hz].
    + apply elem_of_seqZ in Hz. lia.
    + apply IHb in Hz. pow2. lia.
Qed.

Lemma surrogate_keys_sorted {A} (parts : list (list A)) :
  within_limits parts →
  StronglySorted Z.lt (surrogate_keys parts)
  ∧ Forall (λ z, (1 ≤ z)%Z) (surrogate_keys parts).
Proof.
  intros [Hp Hsz]. unfold surrogate_keys. rewrite with_id_from_0.
  destruct (keys_from_sorted 0 parts) as [Hs Hb]; [lia|done|].
  split; [done|]. eapply Forall_impl; [exact Hb|]. simpl. lia.
Qed.

Lemma length_with_id_from {A B} (mk : Z → A → B) p0 (parts : list (list A)) :
  length (with_id_from p0 mk parts) = length (mjoin parts).
Proof.
  rewrite <- (with_id_from_rows p0 parts).
  rewrite <- (length_fmap (λ _, tt) (with_id_from p0 mk parts)).
  rewrite <- (length_fmap (λ _, tt) (with_id_from p0 (λ _ a, a) parts)).
  by rewrite !fmap_with_id_from.
Qed.

Lemma with_id_from_empty {A B} (mk : Z → A → B) p0 (parts : list (list A)) :
  mjoin parts = [] → with_id_from p0 mk parts = [].
Proof.
  intros Hnil. apply length_zero_iff_nil.
  by rewrite length_with_id_from, Hnil.
Qed.

(** In one partition the identifiers are 1, 2, ..., n; a row in any later
    partition receives an identifier above [2 ^ 33]. *)
Lemma surrogate_keys_single {A} (layout : list nat) (l : list A) :
  (Z.of_nat (length layout) < 2 ^ 30)%Z →
  (Z.of_nat (length l) < 2 ^ 33)%Z →
  surrogate_keys (chunks layout l) = one_to (length l)
  ↔ single_partition layout (length l).
Proof.
  intros Hp Hn. unfold surrogate_keys, one_to. rewrite with_id_from_0.
  destruct layout as [|k rest]; simpl.
  - rewrite with_id_from_cons, chunk_keys by (pow2; lia).
    simpl. by rewrite app_nil_r.
  - assert (Z.of_nat (length (take k l)) < 2 ^ 33)%Z as Htake
      by (rewrite length_take; lia).
    rewrite with_id_from_cons, chunk_keys by (pow2; simpl in *; lia).
    simpl. split.
    + intros Heq. destruct (decide (length l ≤ k)) as [|Hgt]; [done|].
      exfalso.
      assert (length (with_id_from 1 (λ z (_ : A), z) (chunks rest (drop k l)))
              = length l - k) as Hlen
        by by rewrite length_with_id_from, join_chunks, length_drop.
      destruct (with_id_from 1 (λ z (_ : A), z) (chunks rest (drop k l)))
        as [|z zs] eqn:E; [simpl in Hlen; lia|].
      assert (Z.of_nat 1 * 2 ^ 33 + 1 ≤ z)%Z as Hz.
      { destruct (keys_from_sorted 1 (chunks rest (drop k l))) as [_ Hb].
        - rewrite length_chunks. simpl in Hp. pow2. lia.
        - eapply Forall_impl; [apply chunks_sizes|]. simpl. intros rows.
          rewrite length_drop. lia.
        - rewrite E in Hb. by apply Forall_cons in Hb as [? _]. }
      assert (z ∈ seqZ 1 (Z.of_nat (length l))) as Hin.
      { rewrite <- Heq. apply elem_of_app. right. left. }
      apply elem_of_seqZ in Hin. pow2. lia.
    + intros Hle. rewrite take_ge, drop_ge by done.
      rewrite with_id_from_empty by apply join_chunks.
      by rewrite app_nil_r.
Qed.

(** ** Derived dimensions *)

Lemma isNotNull_true {A} (v : option A) : isNotNull v = true ↔ v ≠ None.
Proof. destruct v; simpl; split; congruence. Qed.

Lemma orderBy_Permutation {A K} `{Comparator K} (f : A → K) (l : list A) :
  orderBy f l ≡ₚ l.
Proof. apply merge_sort_Permutation. Qed.

Lemma distinct_populated {A} `{EqDecision A} (cols : A → list Value)
    (P : A → Prop) `{∀ a, Decision (P a)} (src rows : list A) :
  (∀ a, P a ↔ None ∉ cols a) →
  rows ≡ₚ filter P (dropDuplicates src) →
  one_row_per_key id cols src rows.
Proof.
  intros HP Hperm. unfold one_row_per_key. rewrite list_fmap_id.
  assert (NoDup rows) as Hnd.
  { rewrite Hperm. apply NoDup_filter, dropDuplicates_NoDup. }
  assert (∀ k, k ∈ rows ↔ k ∈ src ∧ None ∉ cols k) as Hin.
  { intros k. rewrite Hperm, list_elem_of_filter, elem_of_dropDuplicates, HP.
    tauto. }
  split; [done|]. split; [done|].
  apply Permutation_length, NoDup_Permutation;
    [done|apply dropDuplicates_NoDup|].
  intros k. rewrite Hin, elem_of_dropDuplicates, list_elem_of_filter. tauto.
Qed.

Lemma one_row_per_key_fmap {A B} `{EqDecision A} (key : B → A)
    (cols : A → list Value) (src : list A) (out : list B) :
  one_row_per_key id cols src (key <$> out) →
  one_row_per_key key cols src out.
Proof.
  unfold one_row_per_key. by rewrite list_fmap_id, length_fmap.
Qed.

Lemma dim_provider_rows layout df :
  dim_provider_cols <$> create_dim_provider layout df = provider_rows df.
Proof.
  unfold create_dim_provider.
  rewrite with_id_from_0, fmap_with_id_from. simpl.
  by rewrite with_id_from_rows, join_chunks.
Qed.

Lemma dim_location_rows layout df :
  dim_location_cols <$> create_dim_location layout df = location_rows df.
Proof.
  unfold create_dim_location.
  rewrite with_id_from_0, fmap_with_id_from. simpl.
  by rewrite with_id_from_rows, join_chunks.
Qed.

Lemma dim_primary_diagnosis_rows layout df :
  dim_primary_diagnosis_cols <$> create_dim_primary_diagnosis layout df
  = primary_diagnosis_rows df.
Proof.
  unfold create_dim_primary_diagnosis.
  rewrite with_id_from_0, fmap_with_id_from. simpl.
  by rewrite with_id_from_rows, join_chunks.
Qed.

Lemma dim_secondary_diagnosis_rows layout df :
  dim_secondary_diagnosis_cols <$> create_dim_secondary_diagnosis layout df
  = secondary_diagnosis_rows df.
Proof.
  unfold create_dim_secondary_diagnosis.
  rewrite with_id_from_0, fmap_with_id_from. simpl.
  by rewrite with_id_from_rows, join_chunks.
Qed.

Lemma dim_treatment_rows layout df :
  dim_treatment_cols <$> create_dim_treatment layout df = treatment_rows df.
Proof.
  unfold create_dim_treatment.
  rewrite with_id_from_0, fmap_with_id_from. simpl.
  by rewrite with_id_from_rows, join_chunks.
Qed.

Lemma provider_rows_spec df :
  one_row_per_key id provider_key (provider <$> df) (provider_rows df).
Proof.
  eapply distinct_populated; [|apply orderBy_Permutation].
  intros c. unfold provider_key.
  rewrite !andb_True, !Is_true_true, !isNotNull_true, !not_elem_of_cons.
  split; [intros [[? ?] ?]|intros (? & ? & ? & _)];
    repeat split; try congruence. apply not_elem_of_nil.
Qed.

Lemma location_rows_spec df :
  one_row_per_key id location_key (location <$> df) (location_rows df).
Proof.
  eapply distinct_populated; [|apply orderBy_Permutation].
  intros c. unfold location_key.
  rewrite !andb_True, !Is_true_true, !isNotNull_true, !not_elem_of_cons.
  split; [intros [? ?]|intros (? & ? & _)];
    repeat split; try congruence. apply not_elem_of_nil.
Qed.

Lemma primary_diagnosis_rows_spec df :
  one_row_per_key id primary_diagnosis_key (primary_diagnosis <$> df)
    (primary_diagnosis_rows df).
Proof.
  eapply distinct_populated;
    [|unfold primary_diagnosis_rows, secondary_diagnosis_rows,
        treatment_rows; reflexivity].
  intros c. unfold primary_diagnosis_key.
  rewrite !andb_True, !Is_true_true, !isNotNull_true, !not_elem_of_cons.
  split; [intros [? ?]|intros (? & ? & _)];
    repeat split; try congruence. apply not_elem_of_nil.
Qed.

Lemma secondary_diagnosis_rows_spec df :
  one_row_per_key id secondary_diagnosis_key (secondary_diagnosis <$> df)
    (secondary_diagnosis_rows df).
Proof.
  eapply distinct_populated;
    [|unfold primary_diagnosis_rows, secondary_diagnosis_rows,
        treatment_rows; reflexivity].
  intros c. unfold secondary_diagnosis_key.
  rewrite !andb_True, !Is_true_true, !isNotNull_true, !not_elem_of_cons.
  split; [intros [? ?]|intros (? & ? & _)];
    repeat split; try congruence. apply not_elem_of_nil.
Qed.

Lemma treatment_rows_spec df :
  one_row_per_key id treatment_key (treatment <$> df) (treatment_rows df).
Proof.
  eapply distinct_populated;
    [|unfold primary_diagnosis_rows, secondary_diagnosis_rows,
        treatment_rows; reflexivity].
  intros c. unfold treatment_key.
  rewrite !andb_True, !Is_true_true, !isNotNull_true, !not_elem_of_cons.
  split; [intros [? ?]|intros (? & ? & _)];
    repeat split; try congruence. apply not_elem_of_nil.
Qed.

(** C5: each derived dimension holds exactly one row per distinct
    business-key tuple of the source that has no NULL component; a tuple
    with a NULL component never enters it, so never receives a key. *)
Theorem derived_dimensions_one_row_per_key layout df :
  one_row_per_key dim_provider_cols provider_key (provider <$> df)
    (create_dim_provider layout df)
  ∧ one_row_per_key dim_location_cols location_key (location <$> df)
      (create_dim_location layout df)
  ∧ one_row_per_key dim_primary_diagnosis_cols primary_diagnosis_key
      (primary_diagnosis <$> df) (create_dim_primary_diagnosis layout df)
  ∧ one_row_per_key dim_secondary_diagnosis_cols secondary_diagnosis_key
      (secondary_diagnosis <$> df) (create_dim_secondary_diagnosis layout df)
  ∧ one_row_per_key dim_treatment_cols treatment_key (treatment <$> df)
      (create_dim_treatment layout df).
Proof.
  split; [|split; [|split; [|split]]]; apply one_row_per_key_fmap.
  - rewrite dim_provider_rows. apply provider_rows_spec.
  - rewrite dim_location_rows. apply location_rows_spec.
  - rewrite dim_primary_diagnosis_rows. apply primary_diagnosis_rows_spec.
  - rewrite dim_secondary_diagnosis_rows. apply secondary_diagnosis_rows_spec.
  - rewrite dim_treatment_rows. apply treatment_rows_spec.
Qed.

(** ** Surrogate keys *)

Lemma length_surrogate_keys {A} (parts : list (list A)) :
  length (surrogate_keys parts) = length (mjoin parts).
Proof. unfold surrogate_keys. rewrite with_id_from_0. apply length_with_id_from. Qed.

Lemma keys_as_assigned_chunks {A} (layout : list nat) (rows : list A) :
  (Z.of_nat (length layout) < 2 ^ 30)%Z →
  (Z.of_nat (length rows) < 2 ^ 33)%Z →
  keys_as_assigned layout (surrogate_keys (chunks layout rows)).
Proof.
  intros Hp Hn. unfold keys_as_assigned.
  destruct (surrogate_keys_sorted (chunks layout rows)) as [Hs Hb];
    [by apply chunks_within_limits|].
  split; [done|]. split; [done|].
  rewrite length_surrogate_keys, join_chunks.
  by apply surrogate_keys_single.
Qed.

Lemma one_to_contiguous (n : nat) : contiguous_from_one (one_to n).
Proof.
  unfold contiguous_from_one, one_to. split; [apply NoDup_seqZ|].
  intros z. rewrite elem_of_seqZ, length_seqZ. lia.
Qed.

Lemma length_dropDuplicates_le {A} `{EqDecision A} (l : list A) :
  length (dropDuplicates l) ≤ length l.
Proof. apply sublist_length, dropDuplicates_on_sublist. Qed.

Lemma length_provider_rows df : length (provider_rows df) ≤ length df.
Proof.
  unfold provider_rows. rewrite orderBy_Permutation.
  etrans; [apply length_filter|]. etrans; [apply length_dropDuplicates_le|].
  by rewrite length_fmap.
Qed.

Lemma length_location_rows df : length (location_rows df) ≤ length df.
Proof.
  unfold location_rows. rewrite orderBy_Permutation.
  etrans; [apply length_filter|]. etrans; [apply length_dropDuplicates_le|].
  by rewrite length_fmap.
Qed.

Lemma length_primary_diagnosis_rows df :
  length (primary_diagnosis_rows df) ≤ length df.
Proof.
  unfold primary_diagnosis_rows.
  etrans; [apply length_filter|]. etrans; [apply length_dropDuplicates_le|].
  by rewrite length_fmap.
Qed.

Lemma length_secondary_diagnosis_rows df :
  length (secondary_diagnosis_rows df) ≤ length df.
Proof.
  unfold secondary_diagnosis_rows.
  etrans; [apply length_filter|]. etrans; [apply length_dropDuplicates_le|].
  by rewrite length_fmap.
Qed.

Lemma length_treatment_rows df : length (treatment_rows df) ≤ length df.
Proof.
  unfold treatment_rows.
  etrans; [apply length_filter|]. etrans; [apply length_dropDuplicates_le|].
  by rewrite length_fmap.
Qed.

Lemma dim_provider_keys layout df :
  provider_id <$> create_dim_provider layout df
  = surrogate_keys (chunks layout (provider_rows df)).
Proof.
  unfold create_dim_provider, surrogate_keys.
  by rewrite !with_id_from_0, fmap_with_id_from.
Qed.

Lemma dim_location_keys layout df :
  location_id <$> create_dim_location layout df
  = surrogate_keys (chunks layout (location_rows df)).
Proof.
  unfold create_dim_location, surrogate_keys.
  by rewrite !with_id_from_0, fmap_with_id_from.
Qed.

Lemma dim_primary_diagnosis_keys layout df :
  primary_diagnosis_id <$> create_dim_primary_diagnosis layout df
  = surrogate_keys (chunks layout (primary_diagnosis_rows df)).
Proof.
  unfold create_dim_primary_diagnosis, surrogate_keys.
  by rewrite !with_id_from_0, fmap_with_id_from.
Qed.

Lemma dim_secondary_diagnosis_keys layout df :
  secondary_diagnosis_id <$> create_dim_secondary_diagnosis layout df
  = surrogate_keys (chunks layout (secondary_diagnosis_rows df)).
Proof.
  unfold create_dim_secondary_diagnosis, surrogate_keys.
  by rewrite !with_id_from_0, fmap_with_id_from.
Qed.

Lemma dim_treatment_keys layout df :
  treatment_id <$> create_dim_treatment layout df
  = surrogate_keys (chunks layout (treatment_rows df)).
Proof.
  unfold create_dim_treatment, surrogate_keys.
  by rewrite !with_id_from_0, fmap_with_id_from.
Qed.

Lemma split_location_keys :
  location_id <$> create_dim_location [1] two_visits = [1; 8589934593]%Z.
Proof. vm_compute. reflexivity. Qed.

(** C3, as stated, fails as soon as the engine holds the frame in more than
    one partition: two rooms, one per partition, receive the keys 1 and
    [2 ^ 33 + 1]; the key 2 is never assigned. *)
Lemma split_frame_keys_not_contiguous :
  ¬ contiguous_from_one (location_id <$> create_dim_location [1] two_visits).
Proof.
  rewrite split_location_keys. intros [_ Hall].
  assert (2 ∈ [1; 8589934593])%Z as Hin by (apply Hall; simpl; lia).
  apply elem_of_cons in Hin as [Hin|Hin]; [done|].
  apply list_elem_of_singleton in Hin. done.
Qed.

(** C3 (amended): within the sizes [monotonically_increasing_id] is
    documented for, the surrogate keys of every derived dimension are
    pairwise distinct, at least 1 and strictly increasing in row order; they
    are exactly 1, 2, ..., N in row order if and only if all rows of the
    frame sit in its first partition. *)
Theorem surrogate_keys_as_assigned layout df :
  (Z.of_nat (length layout) < 2 ^ 30)%Z →
  (Z.of_nat (length df) < 2 ^ 33)%Z →
  keys_as_assigned layout (provider_id <$> create_dim_provider layout df)
  ∧ keys_as_assigned layout (location_id <$> create_dim_location layout df)
  ∧ keys_as_assigned layout
      (primary_diagnosis_id <$> create_dim_primary_diagnosis layout df)
  ∧ keys_as_assigned layout
      (secondary_diagnosis_id <$> create_dim_secondary_diagnosis layout df)
  ∧ keys_as_assigned layout (treatment_id <$> create_dim_treatment layout df).
Proof.
  intros Hp Hn.
  rewrite dim_provider_keys, dim_location_keys, dim_primary_diagnosis_keys,
    dim_secondary_diagnosis_keys, dim_treatment_keys.
  pose proof (length_provider_rows df).
  pose proof (length_location_rows df).
  pose proof (length_primary_diagnosis_rows df).
  pose proof (length_secondary_diagnosis_rows df).
  pose proof (length_treatment_rows df).
  split; [|split; [|split; [|split]]];
    apply keys_as_assigned_chunks; lia.
Qed.

Lemma surrogate_keys_as_assigned_witness :
  (Z.of_nat (length [1]) < 2 ^ 30)%Z
  ∧ (Z.of_nat (length two_visits) < 2 ^ 33)%Z
  ∧ keys_as_assigned [1]
      (location_id <$> create_dim_location [1] two_visits).
Proof.
  assert (Z.of_nat (length [1]) < 2 ^ 30)%Z as Hp by (vm_compute; reflexivity).
  assert (Z.of_nat (length two_visits) < 2 ^ 33)%Z as Hn
    by (vm_compute; reflexivity).
  split; [exact Hp|]. split; [exact Hn|].
  exact (proj1 (proj2 (surrogate_keys_as_assigned [1] two_visits Hp Hn))).
Defined.

(** ** StatusDeriver *)

Lemma spark_max_None (l : list (option Timestamp)) :
  spark_max l = None ↔ ∀ v, v ∈ l → v = None.
Proof.
  induction l as [|v l IH]; simpl.
  - split; [intros _ v Hv; by apply elem_of_nil in Hv|done].
  - fold (spark_max l). destruct v as [x|].
    + split; [by destruct (spark_max l)|].
      intros Hall. specialize (Hall (Some x)). discriminate Hall. by left.
    + rewrite IH. split.
      * intros Hall v Hv. apply elem_of_cons in Hv as [->|Hv]; auto.
      * intros Hall v Hv. apply Hall. by right.
Qed.

Lemma spark_max_Some (l : list (option Timestamp)) (m : Timestamp) :
  spark_max l = Some m →
  Some m ∈ l ∧ ∀ d, Some d ∈ l → (d ≤ m)%Z.
Proof.
  revert m. induction l as [|v l IH]; simpl; intros m Hm; [done|].
  fold (spark_max l) in Hm. destruct v as [x|].
  - destruct (spark_max l) as [y|] eqn:E.
    + destruct (IH y eq_refl) as [Hy Hle]. injection Hm as <-. split.
      * destruct (Z.max_spec x y) as [[_ ->]|[_ ->]]; [by right|by left].
      * intros d Hd. apply elem_of_cons in Hd as [[= ->]|Hd]; [lia|].
        apply Hle in Hd. lia.
    + injection Hm as <-. split; [by left|].
      intros d Hd. apply elem_of_cons in Hd as [[= ->]|Hd]; [lia|].
      pose proof (proj1 (spark_max_None l) E _ Hd). done.
  - destruct (IH m Hm) as [Hin Hle]. split; [by right|].
    intros d Hd. apply elem_of_cons in Hd as [?|Hd]; [done|]. by apply Hle.
Qed.

Section GroupBy.
Context {A K V W : Type} `{EqDecision K}.
Context (key : A → K) (column : A → V) (agg : list V → W).

Lemma elem_of_groupBy_agg (l : list A) (x : K * W) :
  x ∈ groupBy_agg key column agg l ↔
  x.1 ∈ key <$> l
  ∧ x.2 = agg (column <$> filter (λ r, key r = x.1) l).
Proof.
  unfold groupBy_agg. rewrite list_elem_of_fmap. split.
  - intros (k & -> & Hk). rewrite elem_of_dropDuplicates in Hk. done.
  - destruct x as [k w]. simpl. intros [Hk ->]. exists k.
    split; [done|]. by apply elem_of_dropDuplicates.
Qed.

(** One row per group. *)
Lemma groupBy_agg_NoDup (l : list A) :
  NoDup (fst <$> groupBy_agg key column agg l).
Proof.
  unfold groupBy_agg. rewrite <- list_fmap_compose.
  rewrite (list_fmap_ext _ id _ (λ _ _ _, eq_refl)), list_fmap_id.
  apply dropDuplicates_NoDup.
Qed.
End GroupBy.

(** Rows of a frame with pairwise distinct keys are told apart by their
    key. *)
Lemma NoDup_fmap_eq {A K} (f : A → K) (l : list A) (x y : A) :
  NoDup (f <$> l) → x ∈ l → y ∈ l → f x = f y → x = y.
Proof.
  induction l as [|a l IH]; [by intros _ ?%elem_of_nil|].
  rewrite fmap_cons, NoDup_cons, !elem_of_cons.
  intros [Hn Hnd] [->|Hx] [->|Hy] Heq; [done| | |by apply IH].
  - exfalso. apply Hn. rewrite Heq. by apply list_elem_of_fmap_2.
  - exfalso. apply Hn. rewrite <- Heq. by apply list_elem_of_fmap_2.
Qed.

Lemma elem_of_derive_patient_status df (row : PatientStatus) :
  row ∈ derive_patient_status df ↔
  status_patient_id row ∈ (λ r, patient_id (patient r)) <$> df
  ∧ last_visit row
    = spark_max ((λ r, visit_date (visit r))
        <$> filter (λ r, patient_id (patient r) = status_patient_id row) df)
  ∧ derived_status row
    = when_otherwise (sql_le (last_visit row) cutoff)
        (Some "Inactive") (Some "Active").
Proof.
  unfold derive_patient_status. rewrite list_elem_of_fmap. split.
  - intros (g & -> & Hg). apply elem_of_groupBy_agg in Hg as [Hk Hagg].
    simpl. by rewrite Hagg.
  - destruct row as [pid lv st]. simpl. intros (Hk & Hlv & Hst).
    exists (pid, lv). split; [by rewrite Hst|].
    apply elem_of_groupBy_agg. by rewrite Hlv.
Qed.

Lemma derive_patient_status_NoDup df :
  NoDup (status_patient_id <$> derive_patient_status df).
Proof.
  unfold derive_patient_status. rewrite <- list_fmap_compose.
  apply (groupBy_agg_NoDup (λ r, patient_id (patient r))
           (λ r, visit_date (visit r)) spark_max df).
Qed.

(** The status row of a group with a dated visit. *)
Lemma dated_group_status df (row : PatientStatus) :
  row ∈ derive_patient_status df →
  (∃ r, r ∈ df ∧ patient_id (patient r) = status_patient_id row
        ∧ is_Some (visit_date (visit r))) →
  ∃ m, latest_visit df (status_patient_id row) m
       ∧ last_visit row = Some m
       ∧ derived_status row
         = Some (if decide (m ≤ cutoff)%Z then "Inactive" else "Active").
Proof.
  intros Hrow (r & Hr & Hpid & [d Hd]).
  apply elem_of_derive_patient_status in Hrow as (_ & Hlv & Hst).
  set (dates := (λ r, visit_date (visit r))
         <$> filter (λ r, patient_id (patient r) = status_patient_id row) df)
    in *.
  assert (∀ v, v ∈ dates ↔ ∃ r, r ∈ df
            ∧ patient_id (patient r) = status_patient_id row
            ∧ visit_date (visit r) = v) as Hdates.
  { intros v. unfold dates. rewrite list_elem_of_fmap. split.
    - intros (r' & -> & Hr'). apply list_elem_of_filter in Hr' as [? ?].
      by exists r'.
    - intros (r' & ? & ? & <-). exists r'. split; [done|].
      by apply list_elem_of_filter. }
  destruct (spark_max dates) as [m|] eqn:E.
  - exists m. apply spark_max_Some in E as [Hin Hle].
    split; [|split; [done|]].
    + split; [by apply Hdates|].
      intros r' d' ? ? ?. apply Hle, Hdates. by exists r'.
    + rewrite Hst, Hlv. unfold when_otherwise, sql_le, is_true3.
      destruct (decide (m ≤ cutoff)%Z) as [Hle'|Hgt].
      * by rewrite (proj2 (Z.leb_le _ _) Hle').
      * by rewrite (proj2 (Z.leb_gt _ _)) by lia.
  - exfalso.
    assert (Some d ∈ dates) as Hin by (apply Hdates; by exists r).
    pose proof (proj1 (spark_max_None dates) E _ Hin). done.
Qed.

(** The literal of the comparison is the midnight that starts 2021-12-31,
    in microseconds since 1970-01-01. *)
Lemma cutoff_instant :
  cutoff = 1640908800000000%Z
  ∧ cutoff = timestamp_of 2021 12 31 0 0 0.
Proof. split; vm_compute; reflexivity. Qed.

(** The boundary: a patient whose only visit is dated 2021-12-31 at
    midnight is "Inactive", one whose visit is dated 2022-01-01 is
    "Active". *)
Example status_at_the_boundary :
  (λ row, (status_patient_id row, derived_status row))
    <$> derive_patient_status two_visits
  = [ (Some "P1", Some "Inactive"); (Some "P2", Some "Active") ].
Proof. vm_compute. reflexivity. Qed.

(** C6: the code compares the latest visit with the instant 2021-12-31
    00:00:00, not with the day: a patient whose only visit is on 2021-12-31
    at 08:30 has this instant as [last_visit], 30600 seconds after the
    literal, and is labelled "Active", in the status relation as in the
    Patient dimension. *)
Theorem cutoff_day_visit_is_active :
  derive_patient_status morning_visit
  = [ {| status_patient_id := Some "P8";
         last_visit := Some (1640908800000000 + 30600 * 1000000)%Z;
         derived_status := Some "Active" |} ]
  ∧ (λ d, (patient_id (dim_patient_cols d), patient_status d))
      <$> create_dim_patient morning_visit
    = [ (Some "P8", Some "Active") ].
Proof. split; vm_compute; reflexivity. Qed.

(** A group without any dated visit has a NULL [last_visit]; the comparison
    with the cutoff is NULL and the [otherwise] branch labels the group
    "Active". *)
Lemma undated_group_status df (row : PatientStatus) :
  row ∈ derive_patient_status df →
  (∀ r, r ∈ df → patient_id (patient r) = status_patient_id row →
        visit_date (visit r) = None) →
  last_visit row = None ∧ derived_status row = Some "Active".
Proof.
  intros Hrow Hnone.
  apply elem_of_derive_patient_status in Hrow as (_ & Hlv & Hst).
  assert (last_visit row = None) as Hl.
  { rewrite Hlv. apply spark_max_None. intros v Hv.
    apply list_elem_of_fmap in Hv as (r & -> & Hr).
    apply list_elem_of_filter in Hr as [? ?]. by apply Hnone. }
  split; [done|]. by rewrite Hst, Hl.
Qed.

(** C7: the code labels a patient without any dated visit "Active", in the
    status relation as in the Patient dimension. *)
Theorem undated_patient_is_active :
  derive_patient_status undated_visit
  = [ {| status_patient_id := Some "P9"; last_visit := None;
         derived_status := Some "Active" |} ]
  ∧ (λ d, (patient_id (dim_patient_cols d), patient_status d))
      <$> create_dim_patient undated_visit
    = [ (Some "P9", Some "Active") ].
Proof. split; vm_compute; reflexivity. Qed.

(** ** Joins that meet at most one row *)

Lemma filter_at_most_one {A} (P : A → Prop) `{∀ x, Decision (P x)}
    (l : list A) :
  NoDup l →
  (∀ x y, x ∈ l → y ∈ l → P x → P y → x = y) →
  length (filter P l) ≤ 1.
Proof.
  intros Hnd Hone.
  assert (NoDup (filter P l)) as Hf by by apply NoDup_filter.
  destruct (filter P l) as [|x [|y m]] eqn:E; simpl; [lia|lia|].
  exfalso.
  assert (x ∈ filter P l) as Hx by (rewrite E; left).
  assert (y ∈ filter P l) as Hy by (rewrite E; right; left).
  apply list_elem_of_filter in Hx as [? ?].
  apply list_elem_of_filter in Hy as [? ?].
  assert (x = y) as -> by by apply Hone.
  apply NoDup_cons in Hf as [Hn _]. apply Hn. left.
Qed.

Lemma left_join_functional {L R} (on : L → R → bool) (left : list L)
    (right : list R) :
  NoDup right →
  (∀ l r1 r2, l ∈ left → r1 ∈ right → r2 ∈ right →
              on l r1 = true → on l r2 = true → r1 = r2) →
  fst <$> left_join on left right = left.
Proof.
  intros Hnd Hone. unfold left_join.
  induction left as [|l left IH]; [done|].
  rewrite bind_cons, fmap_app, IH.
  2: { intros l' r1 r2 Hl'. apply Hone. by right. }
  assert (length (filter (λ r, on l r = true) right) ≤ 1) as Hlen.
  { apply filter_at_most_one; [done|].
    intros x y Hx Hy. apply Hone; [left|done|done]. }
  destruct (filter (λ r, on l r = true) right) as [|m [|m' ms]];
    simpl in *; [done|done|lia].
Qed.

(** ** Identity dimensions *)

Lemma create_dim_patient_cols df :
  dim_patient_cols <$> create_dim_patient df
  = dropDuplicates_on patient_id (patient <$> df).
Proof.
  unfold create_dim_patient. rewrite <- list_fmap_compose.
  rewrite <- (left_join_functional
    (λ p s, sql_eq (patient_id p) (status_patient_id s))
    (dropDuplicates_on patient_id (patient <$> df))
    (derive_patient_status df)) at 2.
  - done.
  - eapply NoDup_fmap_1, derive_patient_status_NoDup.
  - intros p s1 s2 _ Hs1 Hs2 H1 H2.
    apply (NoDup_fmap_eq status_patient_id (derive_patient_status df));
      [apply derive_patient_status_NoDup|done|done|].
    unfold sql_eq in *.
    destruct (patient_id p), (status_patient_id s1), (status_patient_id s2);
      try done.
    apply bool_decide_eq_true in H1, H2. congruence.
Qed.

Lemma create_dim_prescription_keys df :
  keeps_non_null_keys prescription_id
    ((λ r, prescription_id (prescription r)) <$> df)
    (create_dim_prescription df).
Proof.
  split; [apply dropDuplicates_on_NoDup|]. intros k.
  unfold create_dim_prescription.
  rewrite dropDuplicates_on_keys, !list_elem_of_fmap. split.
  - intros (c & -> & Hc). apply list_elem_of_filter in Hc as [Hnn Hc].
    apply list_elem_of_fmap in Hc as (r & -> & Hr).
    split; [by exists r|]. by destruct (prescription_id (prescription r)).
  - intros [(r & -> & Hr) Hnn]. exists (prescription r). split; [done|].
    apply list_elem_of_filter. split; [|by apply list_elem_of_fmap_2].
    by destruct (prescription_id (prescription r)).
Qed.

Lemma create_dim_lab_order_keys df :
  keeps_non_null_keys lab_order_id
    ((λ r, lab_order_id (lab_order r)) <$> df) (create_dim_lab_order df).
Proof.
  split; [apply dropDuplicates_on_NoDup|]. intros k.
  unfold create_dim_lab_order.
  rewrite dropDuplicates_on_keys, !list_elem_of_fmap. split.
  - intros (c & -> & Hc). apply list_elem_of_filter in Hc as [Hnn Hc].
    apply list_elem_of_fmap in Hc as (r & -> & Hr).
    split; [by exists r|]. by destruct (lab_order_id (lab_order r)).
  - intros [(r & -> & Hr) Hnn]. exists (lab_order r). split; [done|].
    apply list_elem_of_filter. split; [|by apply list_elem_of_fmap_2].
    by destruct (lab_order_id (lab_order r)).
Qed.

Lemma create_dim_patient_keys df :
  keeps_keys (λ d, patient_id (dim_patient_cols d))
    ((λ r, patient_id (patient r)) <$> df) (create_dim_patient df).
Proof.
  unfold keeps_keys.
  rewrite (list_fmap_compose dim_patient_cols patient_id).
  rewrite create_dim_patient_cols.
  split; [apply dropDuplicates_on_NoDup|]. intros k.
  by rewrite dropDuplicates_on_keys, <- list_fmap_compose.
Qed.

Lemma create_dim_insurance_keys df :
  keeps_keys (λ d, insurance_id (dim_insurance_cols d))
    ((λ r, insurance_id (insurance r)) <$> df) (create_dim_insurance df).
Proof.
  split; [apply dropDuplicates_on_NoDup|]. intros k.
  unfold create_dim_insurance.
  by rewrite dropDuplicates_on_keys, <- list_fmap_compose.
Qed.

Lemma create_dim_billing_keys df :
  keeps_keys (λ d, billing_id (dim_billing_cols d))
    ((λ r, billing_id (billing r)) <$> df) (create_dim_billing df).
Proof.
  split; [apply dropDuplicates_on_NoDup|]. intros k.
  unfold create_dim_billing.
  by rewrite dropDuplicates_on_keys, <- list_fmap_compose.
Qed.

(** C10: Prescription and LabOrder drop the rows with a NULL identifier
    before deduplicating, so each non-NULL identifier of the source appears
    exactly once and NULL never; Patient, Insurance and Billing filter
    nothing, so each identifier value of the source appears exactly once,
    NULL included when the source has a row without identifier. *)
Theorem identity_dimensions_keys df :
  keeps_non_null_keys prescription_id
    ((λ r, prescription_id (prescription r)) <$> df)
    (create_dim_prescription df)
  ∧ keeps_non_null_keys lab_order_id
      ((λ r, lab_order_id (lab_order r)) <$> df) (create_dim_lab_order df)
  ∧ keeps_keys (λ d, patient_id (dim_patient_cols d))
      ((λ r, patient_id (patient r)) <$> df) (create_dim_patient df)
  ∧ keeps_keys (λ d, insurance_id (dim_insurance_cols d))
      ((λ r, insurance_id (insurance r)) <$> df) (create_dim_insurance df)
  ∧ keeps_keys (λ d, billing_id (dim_billing_cols d))
      ((λ r, billing_id (billing r)) <$> df) (create_dim_billing df).
Proof.
  split; [apply create_dim_prescription_keys|].
  split; [apply create_dim_lab_order_keys|].
  split; [apply create_dim_patient_keys|].
  split; [apply create_dim_insurance_keys|apply create_dim_billing_keys].
Qed.

(** A source row without identifiers leaves one row with a NULL key in
    Patient, Insurance and Billing, and none in Prescription and LabOrder. *)
Example anonymous_visit_dimensions :
  create_dim_prescription anonymous_visit = []
  ∧ create_dim_lab_order anonymous_visit = []
  ∧ (λ d, patient_id (dim_patient_cols d))
      <$> create_dim_patient anonymous_visit = [None]
  ∧ (λ d, insurance_id (dim_insurance_cols d))
      <$> create_dim_insurance anonymous_visit = [None]
  ∧ (λ d, billing_id (dim_billing_cols d))
      <$> create_dim_billing anonymous_visit = [None].
Proof. repeat split; vm_compute; reflexivity. Qed.

(** ** ReconciliationEngine *)

Lemma sql_ne_true (a b : Value) : sql_ne a b = Some true ↔ conflict a b.
Proof.
  unfold sql_ne, conflict. destruct a as [x|], b as [y|].
  - destruct (decide (x = y)) as [->|Hne].
    + rewrite bool_decide_eq_true_2 by done. simpl.
      split; [done|]. intros (x' & y' & [= ->] & [= ->] & Hne). done.
    + rewrite bool_decide_eq_false_2 by done. simpl.
      split; [|done]. intros _. by exists x, y.
  - split; [done|]. by intros (? & ? & _ & ? & _).
  - split; [done|]. by intros (? & ? & ? & _).
  - split; [done|]. by intros (? & ? & ? & _).
Qed.

Lemma sql_or_true (a b : option bool) :
  sql_or a b = Some true ↔ a = Some true ∨ b = Some true.
Proof.
  split.
  - destruct a as [[]|], b as [[]|]; simpl; intros Hor; try done; auto.
  - intros [-> | ->]; [done|]. by destruct a as [[]|].
Qed.

Lemma is_true3_true (c : option bool) : is_true3 c ↔ c = Some true.
Proof. destruct c as [[]|]; simpl; split; intros Hc; done. Qed.

Lemma provider_condition_true (x : ProviderCheck) :
  is_true3 (provider_condition x) ↔ provider_conflicts x.
Proof.
  unfold provider_condition, provider_conflicts.
  rewrite is_true3_true, !sql_or_true, !sql_ne_true. tauto.
Qed.

Lemma diagnosis_condition_true (x : DiagnosisCheck) :
  is_true3 (diagnosis_condition x) ↔ diagnosis_conflicts x.
Proof.
  unfold diagnosis_condition, diagnosis_conflicts.
  rewrite is_true3_true, !sql_or_true, !sql_ne_true. tauto.
Qed.

Lemma location_condition_true (x : LocationCheck) :
  is_true3 (location_condition x) ↔ location_conflicts x.
Proof.
  unfold location_condition, location_conflicts.
  rewrite is_true3_true, !sql_or_true, !sql_ne_true. tauto.
Qed.

Lemma treatment_condition_true (x : TreatmentCheck) :
  is_true3 (treatment_condition x) ↔ treatment_conflicts x.
Proof.
  unfold treatment_condition, treatment_conflicts.
  rewrite is_true3_true, !sql_or_true, !sql_ne_true. tauto.
Qed.

(** What each check counts. *)
Lemma mismatches_are_conflicts df fact_df dim_provider dim_primary
    dim_secondary dim_location dim_treatment :
  (∀ x, x ∈ provider_mismatches df fact_df dim_provider ↔
        x ∈ provider_joined df fact_df dim_provider ∧ provider_conflicts x)
  ∧ (∀ x, x ∈ diagnosis_mismatches df fact_df dim_primary dim_secondary ↔
          x ∈ diagnosis_joined df fact_df dim_primary dim_secondary
          ∧ diagnosis_conflicts x)
  ∧ (∀ x, x ∈ location_mismatches df fact_df dim_location ↔
          x ∈ location_joined df fact_df dim_location
          ∧ location_conflicts x)
  ∧ (∀ x, x ∈ treatment_mismatches df fact_df dim_treatment ↔
          x ∈ treatment_joined df fact_df dim_treatment
          ∧ treatment_conflicts x).
Proof.
  unfold provider_mismatches, diagnosis_mismatches, location_mismatches,
    treatment_mismatches.
  split; [|split; [|split]]; intros x; rewrite list_elem_of_filter.
  - rewrite provider_condition_true. tauto.
  - rewrite diagnosis_condition_true. tauto.
  - rewrite location_condition_true. tauto.
  - rewrite treatment_condition_true. tauto.
Qed.

Lemma untitled_doctor_check :
  create_dim_provider [] untitled_doctor = []
  ∧ create_fact_visit untitled_doctor []
      (create_dim_location [] untitled_doctor)
      (create_dim_primary_diagnosis [] untitled_doctor)
      (create_dim_secondary_diagnosis [] untitled_doctor)
      (create_dim_treatment [] untitled_doctor)
    = [untitled_doctor_fact]
  ∧ provider_joined untitled_doctor [untitled_doctor_fact] []
    = [ (untitled_doctor_fact, None,
         Some (Some "V5", {| doctor_name := Some "Ann"; doctor_title := None;
                             doctor_department := Some "Cardiology" |})) ]
  ∧ provider_mismatches untitled_doctor [untitled_doctor_fact] [] = [].
Proof. repeat split; vm_compute; reflexivity. Qed.

(** C8, as stated, fails when one path yields NULL and the other a value:
    a visit whose doctor has no title meets no provider, so the dimension
    path is all NULL while the source path names the doctor, and the check
    reports no mismatch. *)
Lemma null_side_is_not_reported :
  ¬ provider_check_reports_differences untitled_doctor
      (create_fact_visit untitled_doctor
         (create_dim_provider [] untitled_doctor)
         (create_dim_location [] untitled_doctor)
         (create_dim_primary_diagnosis [] untitled_doctor)
         (create_dim_secondary_diagnosis [] untitled_doctor)
         (create_dim_treatment [] untitled_doctor))
      (create_dim_provider [] untitled_doctor).
Proof.
  destruct untitled_doctor_check as (-> & -> & Hjoined & Hnone).
  intros Hall. eapply elem_of_nil. rewrite <- Hnone.
  apply Hall; [rewrite Hjoined; left|].
  left. unfold differ. done.
Qed.

(** ** Sort order *)

Lemma ascii_compare_lt_trans (a b c : ascii) :
  Ascii.compare a b = Lt → Ascii.compare b c = Lt → Ascii.compare a c = Lt.
Proof.
  unfold Ascii.compare. rewrite !N.compare_lt_iff. lia.
Qed.

#[global] Instance string_cmp_ok : ComparatorOk string.
Proof.
  split.
  - apply String.compare_antisym.
  - apply String.compare_eq_iff.
  - unfold cmp, string_cmp.
    induction a as [|x a IH]; intros [|y b] [|z c]; simpl; try done.
    destruct (Ascii.compare x y) eqn:Exy; try done;
      destruct (Ascii.compare y z) eqn:Eyz; try done.
    + apply Ascii.compare_eq_iff in Exy as ->.
      apply Ascii.compare_eq_iff in Eyz as ->.
      rewrite (proj2 (N.compare_eq_iff _ _) eq_refl : Ascii.compare z z = Eq).
      apply IH.
    + apply Ascii.compare_eq_iff in Exy as ->. by rewrite Eyz.
    + apply Ascii.compare_eq_iff in Eyz as <-. by rewrite Exy.
    + by rewrite (ascii_compare_lt_trans x y z).
Qed.

Section ComparatorFacts.
Context {A : Type} `{ComparatorOk A}.

Lemma cmp_refl (a : A) : cmp a a = Eq.
Proof.
  pose proof (cmp_antisym a a) as Hanti.
  destruct (cmp a a); simpl in Hanti; congruence.
Qed.

Lemma cmp_gt_lt (a b : A) : cmp a b = Gt ↔ cmp b a = Lt.
Proof.
  rewrite (cmp_antisym a b). destruct (cmp b a); simpl; split; congruence.
Qed.

Lemma cmp_eq_iff (a b : A) : cmp a b = Eq ↔ a = b.
Proof. split; [apply cmp_eq|intros ->; apply cmp_refl]. Qed.
End ComparatorFacts.

#[global] Instance option_cmp_ok {A} `{ComparatorOk A}
    : ComparatorOk (option A).
Proof.
  split.
  - intros [a|] [b|]; try done. apply (cmp_antisym a b).
  - intros [a|] [b|]; try done. intros Hab.
    f_equal. apply (cmp_eq a b Hab).
  - intros [a|] [b|] [c|]; try done. apply (cmp_lt_trans a b c).
Qed.

#[global] Instance prod_cmp_ok {A B} `{ComparatorOk A, ComparatorOk B}
    : ComparatorOk (A * B).
Proof.
  split.
  - intros [a1 b1] [a2 b2]. unfold cmp, prod_cmp. simpl.
    rewrite (cmp_antisym a1 a2). destruct (cmp a2 a1); simpl; try done.
    apply cmp_antisym.
  - intros [a1 b1] [a2 b2]. unfold cmp at 1, prod_cmp. simpl.
    destruct (cmp a1 a2) eqn:Ea; try done.
    intros Eb. apply cmp_eq in Ea, Eb. congruence.
  - intros [a1 b1] [a2 b2] [a3 b3]. unfold cmp, prod_cmp. simpl.
    destruct (cmp a1 a2) eqn:E12; try done;
      destruct (cmp a2 a3) eqn:E23; try done.
    + apply cmp_eq in E12 as ->. apply cmp_eq in E23 as ->.
      rewrite cmp_refl. apply cmp_lt_trans.
    + apply cmp_eq in E12 as ->. by rewrite E23.
    + apply cmp_eq in E23 as <-. by rewrite E12.
    + by rewrite (cmp_lt_trans a1 a2 a3).
Qed.

Section OrderBy.
Context {A K : Type} `{ComparatorOk K} (f : A → K).

#[global] Instance le_by_total : Total (le_by f).
Proof.
  intros a b. unfold le_by.
  destruct (cmp (f a) (f b)) eqn:E; [by left|by left|right].
  apply cmp_gt_lt in E. by rewrite E.
Qed.

#[global] Instance le_by_trans : Transitive (le_by f).
Proof.
  intros a b c. unfold le_by. intros Hab Hbc.
  destruct (cmp (f a) (f b)) eqn:E1; [|clear Hab|done].
  - apply cmp_eq in E1. by rewrite E1.
  - destruct (cmp (f b) (f c)) eqn:E2; [| |done].
    + apply cmp_eq in E2. by rewrite <- E2, E1.
    + by rewrite (cmp_lt_trans _ _ _ E1 E2).
Qed.

Lemma orderBy_sorted (l : list A) : StronglySorted (le_by f) (orderBy f l).
Proof. apply StronglySorted_merge_sort; apply _. Qed.


Lemma orderBy_strict `{!Inj (=) (=) f} (l : list A) :
  NoDup l → StronglySorted (lt_by f) (orderBy f l).
Proof.
  intros Hnd.
  assert (NoDup (orderBy f l)) as Hnd' by by rewrite orderBy_Permutation.
  pose proof (orderBy_sorted l) as Hs.
  induction Hs as [|a m Hs IH Hall]; [constructor|].
  apply NoDup_cons in Hnd' as [Hn Hnd']. constructor; [by apply IH|].
  rewrite Forall_forall in Hall |- *. intros b Hb.
  specialize (Hall b Hb). unfold le_by in Hall. unfold lt_by.
  destruct (cmp (f a) (f b)) eqn:E; [exfalso|done|done].
  apply cmp_eq, (inj f) in E as ->. done.
Qed.
End OrderBy.

(** ** Order of the rows before numbering *)

#[global] Instance location_key_inj :
  Inj (=) (=) (λ c : LocationCols, (clinic_name c, room_number c)).
Proof. intros [c1 r1] [c2 r2]. simpl. congruence. Qed.








(** ** Joins against dimensions with distinct business keys *)

Lemma sql_eq_true {A} `{EqDecision A} (a b : option A) :
  sql_eq a b = true ↔ a = b ∧ a ≠ None.
Proof.
  unfold sql_eq. destruct a as [x|], b as [y|]; try (split; [done|]).
  - rewrite bool_decide_eq_true. split; [by intros ->|by intros [[= ->] _]].
  - by intros [? _].
  - by intros [? _].
  - by intros [_ ?].
Qed.

Lemma on_provider_true s d :
  on_provider s d = true ↔ s = dim_provider_cols d ∧ None ∉ provider_key s.
Proof.
  unfold on_provider, provider_key.
  rewrite !andb_true_iff, !sql_eq_true, !not_elem_of_cons.
  destruct s as [a b c], (dim_provider_cols d) as [a' b' c']. simpl.
  split.
  - intros [[[-> ?] [-> ?]] [-> ?]]. repeat split; try done.
    apply not_elem_of_nil.
  - intros [[= -> -> ->] (? & ? & ? & _)]. repeat split; congruence.
Qed.

Lemma on_location_true s d :
  on_location s d = true ↔ s = dim_location_cols d ∧ None ∉ location_key s.
Proof.
  unfold on_location, location_key.
  rewrite !andb_true_iff, !sql_eq_true, !not_elem_of_cons.
  destruct s as [a b], (dim_location_cols d) as [a' b']. simpl.
  split.
  - intros [[-> ?] [-> ?]]. repeat split; try done. apply not_elem_of_nil.
  - intros [[= -> ->] (? & ? & _)]. repeat split; congruence.
Qed.

Lemma on_primary_diagnosis_true s d :
  on_primary_diagnosis s d = true ↔
  s = dim_primary_diagnosis_cols d ∧ None ∉ primary_diagnosis_key s.
Proof.
  unfold on_primary_diagnosis, primary_diagnosis_key.
  rewrite !andb_true_iff, !sql_eq_true, !not_elem_of_cons.
  destruct s as [a b], (dim_primary_diagnosis_cols d) as [a' b']. simpl.
  split.
  - intros [[-> ?] [-> ?]]. repeat split; try done. apply not_elem_of_nil.
  - intros [[= -> ->] (? & ? & _)]. repeat split; congruence.
Qed.

Lemma on_secondary_diagnosis_true s d :
  on_secondary_diagnosis s d = true ↔
  s = dim_secondary_diagnosis_cols d ∧ None ∉ secondary_diagnosis_key s.
Proof.
  unfold on_secondary_diagnosis, secondary_diagnosis_key.
  rewrite !andb_true_iff, !sql_eq_true, !not_elem_of_cons.
  destruct s as [a b], (dim_secondary_diagnosis_cols d) as [a' b']. simpl.
  split.
  - intros [[-> ?] [-> ?]]. repeat split; try done. apply not_elem_of_nil.
  - intros [[= -> ->] (? & ? & _)]. repeat split; congruence.
Qed.

Lemma on_treatment_true s d :
  on_treatment s d = true ↔
  s = dim_treatment_cols d ∧ None ∉ treatment_key s.
Proof.
  unfold on_treatment, treatment_key.
  rewrite !andb_true_iff, !sql_eq_true, !not_elem_of_cons.
  destruct s as [a b], (dim_treatment_cols d) as [a' b']. simpl.
  split.
  - intros [[-> ?] [-> ?]]. repeat split; try done. apply not_elem_of_nil.
  - intros [[= -> ->] (? & ? & _)]. repeat split; congruence.
Qed.

(** A left join on the business key of a dimension whose keys are pairwise
    distinct neither drops nor repeats a left row. *)
Lemma left_join_on_key {L D C} (on : L → D → bool) (sel : L → C)
    (cols : D → C) (left : list L) (dim : list D) :
  (∀ l d, on l d = true → sel l = cols d) →
  NoDup (cols <$> dim) →
  fst <$> left_join on left dim = left.
Proof.
  intros Hon Hnd. apply left_join_functional; [by eapply NoDup_fmap_1|].
  intros l d1 d2 _ Hd1 Hd2 H1 H2.
  apply (NoDup_fmap_eq cols dim); [done..|].
  by rewrite <- (Hon l d1), <- (Hon l d2).
Qed.

Lemma join_dimensions_sources df dp dl dpd dsd dt :
  NoDup (dim_provider_cols <$> dp) →
  NoDup (dim_location_cols <$> dl) →
  NoDup (dim_primary_diagnosis_cols <$> dpd) →
  NoDup (dim_secondary_diagnosis_cols <$> dsd) →
  NoDup (dim_treatment_cols <$> dt) →
  joined_source <$> join_dimensions df dp dl dpd dsd dt = df.
Proof.
  intros Hp Hl Hpd Hsd Ht. unfold join_dimensions.
  set (j1 := left_join (λ s, on_provider (provider s)) df dp).
  set (j2 := left_join (λ x, on_location (location x.1)) j1 dl).
  set (j3 := left_join
    (λ x, on_primary_diagnosis (primary_diagnosis x.1.1)) j2 dpd).
  set (j4 := left_join
    (λ x, on_secondary_diagnosis (secondary_diagnosis x.1.1.1)) j3 dsd).
  transitivity (fst <$> (fst <$> (fst <$> (fst <$> (fst <$>
    left_join (λ x, on_treatment (treatment x.1.1.1.1)) j4 dt))))).
  { by rewrite <- !list_fmap_compose. }
  rewrite (left_join_on_key _ (λ x, treatment x.1.1.1.1) dim_treatment_cols);
    [|by intros ? ? [? _]%on_treatment_true|done].
  unfold j4.
  rewrite (left_join_on_key _ (λ x, secondary_diagnosis x.1.1.1)
             dim_secondary_diagnosis_cols);
    [|by intros ? ? [? _]%on_secondary_diagnosis_true|done].
  unfold j3.
  rewrite (left_join_on_key _ (λ x, primary_diagnosis x.1.1)
             dim_primary_diagnosis_cols);
    [|by intros ? ? [? _]%on_primary_diagnosis_true|done].
  unfold j2.
  rewrite (left_join_on_key _ (λ x, location x.1) dim_location_cols);
    [|by intros ? ? [? _]%on_location_true|done].
  by apply (left_join_on_key _ provider dim_provider_cols);
    [intros ? ? [? _]%on_provider_true|].
Qed.



(** ** Two runs on one source *)

Lemma dim_provider_cols_NoDup layout df :
  NoDup (dim_provider_cols <$> create_dim_provider layout df).
Proof.
  rewrite dim_provider_rows.
  destruct (provider_rows_spec df) as [Hnd _]. by rewrite list_fmap_id in Hnd.
Qed.

Lemma dim_location_cols_NoDup layout df :
  NoDup (dim_location_cols <$> create_dim_location layout df).
Proof.
  rewrite dim_location_rows.
  destruct (location_rows_spec df) as [Hnd _]. by rewrite list_fmap_id in Hnd.
Qed.

Lemma dim_primary_diagnosis_cols_NoDup layout df :
  NoDup (dim_primary_diagnosis_cols
           <$> create_dim_primary_diagnosis layout df).
Proof.
  rewrite dim_primary_diagnosis_rows.
  destruct (primary_diagnosis_rows_spec df) as [Hnd _].
  by rewrite list_fmap_id in Hnd.
Qed.

Lemma dim_secondary_diagnosis_cols_NoDup layout df :
  NoDup (dim_secondary_diagnosis_cols
           <$> create_dim_secondary_diagnosis layout df).
Proof.
  rewrite dim_secondary_diagnosis_rows.
  destruct (secondary_diagnosis_rows_spec df) as [Hnd _].
  by rewrite list_fmap_id in Hnd.
Qed.

Lemma dim_treatment_cols_NoDup layout df :
  NoDup (dim_treatment_cols <$> create_dim_treatment layout df).
Proof.
  rewrite dim_treatment_rows.
  destruct (treatment_rows_spec df) as [Hnd _]. by rewrite list_fmap_id in Hnd.
Qed.






(** ** Reconciliation as a lookup

    When the identifiers of the dimension and the visit ids of the source
    are pairwise distinct, the two left joins of a check pair every fact
    row with the one row each of them meets. *)

Lemma filter_ext_in {A} (P Q : A → Prop) `{∀ x, Decision (P x)}
    `{∀ x, Decision (Q x)} (l : list A) :
  (∀ x, x ∈ l → P x ↔ Q x) → filter P l = filter Q l.
Proof.
  induction l as [|a l IH]; intros Hext; [done|].
  rewrite !filter_cons.
  rewrite IH by (intros x Hx; apply Hext; by right).
  destruct (decide (P a)) as [HP|HP], (decide (Q a)) as [HQ|HQ]; try done.
  - exfalso. apply HQ, Hext; [left|done].
  - exfalso. apply HP, Hext; [left|done].
Qed.

Lemma fmap_filter_fmap {A B} (g : B → A) (h : A → B) (P : B → Prop)
    `{∀ x, Decision (P x)} (l : list A) :
  (∀ a, g (h a) = a) →
  g <$> filter P (h <$> l) = filter (λ a, P (h a)) l.
Proof.
  intros Hgh. induction l as [|a l IH]; [done|].
  rewrite fmap_cons, !filter_cons.
  destruct (decide (P (h a))); [rewrite fmap_cons, Hgh|]; by rewrite IH.
Qed.

Lemma left_join_head {L R} (on : L → R → bool) (left : list L)
    (right : list R) :
  NoDup right →
  (∀ l r1 r2, l ∈ left → r1 ∈ right → r2 ∈ right →
              on l r1 = true → on l r2 = true → r1 = r2) →
  left_join on left right
  = (λ l, (l, head (filter (λ r, on l r = true) right))) <$> left.
Proof.
  intros Hnd Hone. unfold left_join.
  induction left as [|l left IH]; [done|].
  rewrite bind_cons, fmap_cons, IH.
  2: { intros l' r1 r2 Hl'. apply Hone. by right. }
  assert (length (filter (λ r, on l r = true) right) ≤ 1) as Hlen.
  { apply filter_at_most_one; [done|].
    intros x y Hx Hy. apply Hone; [left|done|done]. }
  destruct (filter (λ r, on l r = true) right) as [|m [|m' ms]];
    simpl in *; [done|done|lia].
Qed.

Lemma left_join_the_match {L R K} `{EqDecision K} (kl : L → option K)
    (kr : R → option K) (left : list L) (right : list R) :
  NoDup (kr <$> right) →
  left_join (λ l r, sql_eq (kl l) (kr r)) left right
  = (λ l, (l, the_match kr (kl l) right)) <$> left.
Proof.
  intros Hnd. apply left_join_head; [by eapply NoDup_fmap_1|].
  intros l r1 r2 _ Hr1 Hr2 [E1 _]%sql_eq_true [E2 _]%sql_eq_true.
  apply (NoDup_fmap_eq kr right); [done..|congruence].
Qed.

Lemma the_match_None {A K} `{EqDecision K} (key : A → option K)
    (l : list A) :
  the_match key None l = None.
Proof.
  unfold the_match. induction l as [|a l IH]; [done|].
  by rewrite filter_cons_False.
Qed.

Lemma the_match_Some {A K} `{EqDecision K} (key : A → option K)
    (l : list A) (a : A) (k : K) :
  NoDup (key <$> l) → a ∈ l → key a = Some k →
  the_match key (Some k) l = Some a.
Proof.
  intros Hnd Ha Hk. unfold the_match.
  assert (a ∈ filter (λ a, sql_eq (Some k) (key a) = true) l) as Hin.
  { apply list_elem_of_filter. split; [|done]. rewrite Hk.
    apply sql_eq_true. done. }
  destruct (filter (λ a, sql_eq (Some k) (key a) = true) l) as [|b m] eqn:E;
    [by apply elem_of_nil in Hin|].
  simpl. f_equal.
  assert (b ∈ filter (λ a, sql_eq (Some k) (key a) = true) l) as Hb
    by (rewrite E; left).
  apply list_elem_of_filter in Hb as [[Hkb _]%sql_eq_true Hb].
  apply (NoDup_fmap_eq key l); [done..|congruence].
Qed.

Section Overwrite.
Context {D C : Type} (id : D → Z) (cols : D → C) (mk : Z → C → D).
Context (id_mk : ∀ z c, id (mk z c) = z).

Lemma overwrite_ids k c (dim : list D) :
  id <$> overwrite id mk k c dim = id <$> dim.
Proof.
  unfold overwrite. rewrite <- list_fmap_compose. apply list_fmap_ext.
  intros _ d _. simpl. destruct (decide (id d = k)); [|done].
  by rewrite id_mk.
Qed.

(** The row numbered [i] after the overwrite. *)
Lemma the_match_overwrite k c (dim : list D) (d : D) :
  NoDup (id <$> dim) → d ∈ dim →
  the_match (λ d, Some (id d)) (Some (id d)) (overwrite id mk k c dim)
  = Some (if decide (id d = k) then mk k c else d).
Proof.
  intros Hnd Hd. apply the_match_Some.
  - rewrite (list_fmap_compose id Some), overwrite_ids.
    by apply (NoDup_fmap_2 Some).
  - unfold overwrite. apply list_elem_of_fmap. by exists d.
  - destruct (decide (id d = k)) as [->|]; [by rewrite id_mk|done].
Qed.
End Overwrite.

Lemma conflict_irrefl (a : Value) : ¬ conflict a a.
Proof. intros (x & y & -> & [= ->] & Hne). done. Qed.

Lemma conflict_None_l (b : Value) : ¬ conflict None b.
Proof. by intros (x & y & ? & _). Qed.

(** Where a fact row comes from. *)
Lemma fact_row_origin df dp dl dpd dsd dt f :
  f ∈ create_fact_visit df dp dl dpd dsd dt →
  ∃ s p l pd sd t,
    f = select_fact (s, p, l, pd, sd, t)
    ∧ s ∈ df
    ∧ met on_provider (provider s) dp p
    ∧ met on_location (location s) dl l
    ∧ met on_primary_diagnosis (primary_diagnosis s) dpd pd
    ∧ met on_secondary_diagnosis (secondary_diagnosis s) dsd sd
    ∧ met on_treatment (treatment s) dt t.
Proof.
  intros Hf.
  apply dropDuplicates_on_elem_of, list_elem_of_fmap in Hf as (x & -> & Hx).
  destruct x as [[[[[s p] l] pd] sd] t].
  apply elem_of_join_dimensions in Hx. by exists s, p, l, pd, sd, t.
Qed.

(** The source columns a fact row is compared with. *)
Lemma source_path {X} (pack : SourceRecord → X) (key : X → Value) df
    (s : SourceRecord) :
  (∀ r, key (pack r) = visit_id (visit r)) →
  visits_identified df → s ∈ df →
  the_match key (visit_id (visit s)) (pack <$> df) = Some (pack s).
Proof.
  intros Hkey [Hnd Hnn] Hs.
  destruct (visit_id (visit s)) as [v|] eqn:E; [|by apply Hnn in Hs].
  apply the_match_Some.
  - rewrite <- list_fmap_compose.
    erewrite list_fmap_ext; [exact Hnd|]. intros i r _. apply Hkey.
  - by apply list_elem_of_fmap_2.
  - by rewrite Hkey.
Qed.

Lemma source_ids_NoDup {X} (pack : SourceRecord → X) (key : X → Value) df :
  (∀ r, key (pack r) = visit_id (visit r)) →
  visits_identified df → NoDup (key <$> (pack <$> df)).
Proof.
  intros Hkey [Hnd _]. rewrite <- list_fmap_compose.
  erewrite list_fmap_ext; [exact Hnd|]. intros i r _. apply Hkey.
Qed.

Lemma ids_NoDup {D} (id : D → Z) (dim : list D) :
  NoDup (id <$> dim) → NoDup ((λ d, Some (id d)) <$> dim).
Proof.
  intros Hnd. rewrite (list_fmap_compose id Some). by apply (NoDup_fmap_2 Some).
Qed.

(** *** Provider *)

Lemma provider_joined_rows df fact_df dim :
  visits_identified df → NoDup (provider_id <$> dim) →
  provider_joined df fact_df dim
  = (λ f, (f, the_match (λ d, Some (provider_id d)) (fact_provider_id f) dim,
           the_match fst (fact_visit_id f)
             ((λ r, (visit_id (visit r), provider r)) <$> df))) <$> fact_df.
Proof.
  intros Hdf Hnd. unfold provider_joined.
  rewrite (left_join_the_match fact_provider_id (λ d, Some (provider_id d)))
    by by apply ids_NoDup.
  rewrite (left_join_the_match (λ x, fact_visit_id x.1) fst)
    by by apply source_ids_NoDup.
  by rewrite <- list_fmap_compose.
Qed.

Lemma provider_overwrite_reported df dp dl dpd dsd dt k c d0 :
  visits_identified df → NoDup (provider_id <$> dp) →
  d0 ∈ dp → provider_id d0 = k →
  provider_key_conflicts c (dim_provider_cols d0) →
  (λ x, x.1.1)
    <$> provider_mismatches df (create_fact_visit df dp dl dpd dsd dt)
          (overwrite provider_id Build_DimProvider k c dp)
  = filter (λ f, fact_provider_id f = Some k)
      (create_fact_visit df dp dl dpd dsd dt).
Proof.
  intros Hdf Hnd Hd0 Hk Hconf. unfold provider_mismatches.
  rewrite provider_joined_rows;
    [|done|by rewrite (overwrite_ids provider_id Build_DimProvider)].
  rewrite (fmap_filter_fmap (λ x : ProviderCheck, x.1.1)) by done.
  apply filter_ext_in. intros f Hf.
  apply fact_row_origin in Hf
    as (s & p & l & pd & sd & t & -> & Hs & Hp & _).
  rewrite provider_condition_true. unfold provider_conflicts,
    dim_doctor_name, dim_doctor_title, dim_doctor_department,
    src_doctor_name, src_doctor_title, src_doctor_department.
  simpl.
  rewrite (source_path (λ r, (visit_id (visit r), provider r)) fst df s)
    by done.
  simpl.
  destruct p as [d|]; simpl.
  - destruct Hp as [Hd [Hcols _]%on_provider_true].
    rewrite (the_match_overwrite provider_id Build_DimProvider) by done.
    destruct (decide (provider_id d = k)) as [Hdk|Hdk]; simpl.
    + assert (d = d0) as -> by
        (apply (NoDup_fmap_eq provider_id dp); [done..|congruence]).
      rewrite Hcols. split; [by rewrite Hdk|by intros _].
    + rewrite Hcols. split; [|by intros [= ?]].
      intros [?%conflict_irrefl|[?%conflict_irrefl|?%conflict_irrefl]]; done.
  - rewrite the_match_None. simpl. split; [|done].
    intros [?%conflict_None_l|[?%conflict_None_l|?%conflict_None_l]]; done.
Qed.

(** *** Location *)

Lemma location_joined_rows df fact_df dim :
  visits_identified df → NoDup (location_id <$> dim) →
  location_joined df fact_df dim
  = (λ f, (f, the_match (λ d, Some (location_id d)) (fact_location_id f) dim,
           the_match fst (fact_visit_id f)
             ((λ r, (visit_id (visit r), location r)) <$> df))) <$> fact_df.
Proof.
  intros Hdf Hnd. unfold location_joined.
  rewrite (left_join_the_match fact_location_id (λ d, Some (location_id d)))
    by by apply ids_NoDup.
  rewrite (left_join_the_match (λ x, fact_visit_id x.1) fst)
    by by apply source_ids_NoDup.
  by rewrite <- list_fmap_compose.
Qed.

Lemma location_overwrite_reported df dp dl dpd dsd dt k c d0 :
  visits_identified df → NoDup (location_id <$> dl) →
  d0 ∈ dl → location_id d0 = k →
  location_key_conflicts c (dim_location_cols d0) →
  (λ x, x.1.1)
    <$> location_mismatches df (create_fact_visit df dp dl dpd dsd dt)
          (overwrite location_id Build_DimLocation k c dl)
  = filter (λ f, fact_location_id f = Some k)
      (create_fact_visit df dp dl dpd dsd dt).
Proof.
  intros Hdf Hnd Hd0 Hk Hconf. unfold location_mismatches.
  rewrite location_joined_rows;
    [|done|by rewrite (overwrite_ids location_id Build_DimLocation)].
  rewrite (fmap_filter_fmap (λ x : LocationCheck, x.1.1)) by done.
  apply filter_ext_in. intros f Hf.
  apply fact_row_origin in Hf
    as (s & p & l & pd & sd & t & -> & Hs & _ & Hl & _).
  rewrite location_condition_true. unfold location_conflicts,
    dim_clinic_name, dim_room_number, src_clinic_name, src_room_number.
  simpl.
  rewrite (source_path (λ r, (visit_id (visit r), location r)) fst df s)
    by done.
  simpl.
  destruct l as [d|]; simpl.
  - destruct Hl as [Hd [Hcols _]%on_location_true].
    rewrite (the_match_overwrite location_id Build_DimLocation) by done.
    destruct (decide (location_id d = k)) as [Hdk|Hdk]; simpl.
    + assert (d = d0) as -> by
        (apply (NoDup_fmap_eq location_id dl); [done..|congruence]).
      rewrite Hcols. split; [by rewrite Hdk|by intros _].
    + rewrite Hcols. split; [|by intros [= ?]].
      intros [?%conflict_irrefl|?%conflict_irrefl]; done.
  - rewrite the_match_None. simpl. split; [|done].
    intros [?%conflict_None_l|?%conflict_None_l]; done.
Qed.

(** *** Treatment *)

Lemma treatment_joined_rows df fact_df dim :
  visits_identified df → NoDup (treatment_id <$> dim) →
  treatment_joined df fact_df dim
  = (λ f, (f, the_match (λ d, Some (treatment_id d)) (fact_treatment_id f) dim,
           the_match fst (fact_visit_id f)
             ((λ r, (visit_id (visit r), treatment r)) <$> df))) <$> fact_df.
Proof.
  intros Hdf Hnd. unfold treatment_joined.
  rewrite (left_join_the_match fact_treatment_id (λ d, Some (treatment_id d)))
    by by apply ids_NoDup.
  rewrite (left_join_the_match (λ x, fact_visit_id x.1) fst)
    by by apply source_ids_NoDup.
  by rewrite <- list_fmap_compose.
Qed.

Lemma treatment_overwrite_reported df dp dl dpd dsd dt k c d0 :
  visits_identified df → NoDup (treatment_id <$> dt) →
  d0 ∈ dt → treatment_id d0 = k →
  treatment_key_conflicts c (dim_treatment_cols d0) →
  (λ x, x.1.1)
    <$> treatment_mismatches df (create_fact_visit df dp dl dpd dsd dt)
          (overwrite treatment_id Build_DimTreatment k c dt)
  = filter (λ f, fact_treatment_id f = Some k)
      (create_fact_visit df dp dl dpd dsd dt).
Proof.
  intros Hdf Hnd Hd0 Hk Hconf. unfold treatment_mismatches.
  rewrite treatment_joined_rows;
    [|done|by rewrite (overwrite_ids treatment_id Build_DimTreatment)].
  rewrite (fmap_filter_fmap (λ x : TreatmentCheck, x.1.1)) by done.
  apply filter_ext_in. intros f Hf.
  apply fact_row_origin in Hf
    as (s & p & l & pd & sd & t & -> & Hs & _ & _ & _ & _ & Ht).
  rewrite treatment_condition_true. unfold treatment_conflicts,
    dim_treatment_code, dim_treatment_desc, src_treatment_code,
    src_treatment_desc.
  simpl.
  rewrite (source_path (λ r, (visit_id (visit r), treatment r)) fst df s)
    by done.
  simpl.
  destruct t as [d|]; simpl.
  - destruct Ht as [Hd [Hcols _]%on_treatment_true].
    rewrite (the_match_overwrite treatment_id Build_DimTreatment) by done.
    destruct (decide (treatment_id d = k)) as [Hdk|Hdk]; simpl.
    + assert (d = d0) as -> by
        (apply (NoDup_fmap_eq treatment_id dt); [done..|congruence]).
      rewrite Hcols. split; [by rewrite Hdk|by intros _].
    + rewrite Hcols. split; [|by intros [= ?]].
      intros [?%conflict_irrefl|?%conflict_irrefl]; done.
  - rewrite the_match_None. simpl. split; [|done].
    intros [?%conflict_None_l|?%conflict_None_l]; done.
Qed.

(** *** Diagnoses *)

Lemma diagnosis_joined_rows df fact_df dim1 dim2 :
  visits_identified df →
  NoDup (primary_diagnosis_id <$> dim1) →
  NoDup (secondary_diagnosis_id <$> dim2) →
  diagnosis_joined df fact_df dim1 dim2
  = (λ f, (f,
           the_match (λ d, Some (primary_diagnosis_id d))
             (fact_primary_diagnosis_id f) dim1,
           the_match (λ d, Some (secondary_diagnosis_id d))
             (fact_secondary_diagnosis_id f) dim2,
           the_match (λ s, s.1.1) (fact_visit_id f)
             ((λ r, (visit_id (visit r), primary_diagnosis r,
                     secondary_diagnosis r)) <$> df))) <$> fact_df.
Proof.
  intros Hdf Hnd1 Hnd2. unfold diagnosis_joined.
  rewrite (left_join_the_match fact_primary_diagnosis_id
             (λ d, Some (primary_diagnosis_id d))) by by apply ids_NoDup.
  rewrite (left_join_the_match (λ x, fact_secondary_diagnosis_id x.1)
             (λ d, Some (secondary_diagnosis_id d))) by by apply ids_NoDup.
  rewrite (left_join_the_match (λ x, fact_visit_id x.1.1) (λ s, s.1.1))
    by by apply source_ids_NoDup.
  by rewrite <- !list_fmap_compose.
Qed.

Lemma primary_overwrite_reported df dp dl dpd dsd dt k c d0 :
  visits_identified df →
  NoDup (primary_diagnosis_id <$> dpd) →
  NoDup (secondary_diagnosis_id <$> dsd) →
  d0 ∈ dpd → primary_diagnosis_id d0 = k →
  primary_key_conflicts c (dim_primary_diagnosis_cols d0) →
  (λ x, x.1.1.1)
    <$> diagnosis_mismatches df (create_fact_visit df dp dl dpd dsd dt)
          (overwrite primary_diagnosis_id Build_DimPrimaryDiagnosis k c dpd)
          dsd
  = filter (λ f, fact_primary_diagnosis_id f = Some k)
      (create_fact_visit df dp dl dpd dsd dt).
Proof.
  intros Hdf Hnd1 Hnd2 Hd0 Hk Hconf. unfold diagnosis_mismatches.
  rewrite diagnosis_joined_rows; [|done| |done].
  2: by rewrite (overwrite_ids primary_diagnosis_id
                   Build_DimPrimaryDiagnosis).
  rewrite (fmap_filter_fmap (λ x : DiagnosisCheck, x.1.1.1)) by done.
  apply filter_ext_in. intros f Hf.
  apply fact_row_origin in Hf
    as (s & p & l & pd & sd & t & -> & Hs & _ & _ & Hpd & Hsd & _).
  rewrite diagnosis_condition_true. unfold diagnosis_conflicts,
    dim_primary_code, dim_primary_desc, dim_secondary_code,
    dim_secondary_desc, src_primary_code, src_primary_desc,
    src_secondary_code, src_secondary_desc.
  simpl.
  rewrite (source_path
    (λ r, (visit_id (visit r), primary_diagnosis r, secondary_diagnosis r))
    (λ s, s.1.1) df s) by done.
  simpl.
  assert (¬ (conflict
               (the_match (λ d, Some (secondary_diagnosis_id d))
                  (secondary_diagnosis_id <$> sd) dsd
                ≫= λ d, secondary_diagnosis_code
                           (dim_secondary_diagnosis_cols d))
               (secondary_diagnosis_code (secondary_diagnosis s))
             ∨ conflict
                 (the_match (λ d, Some (secondary_diagnosis_id d))
                    (secondary_diagnosis_id <$> sd) dsd
                  ≫= λ d, secondary_diagnosis_desc
                             (dim_secondary_diagnosis_cols d))
                 (secondary_diagnosis_desc (secondary_diagnosis s))))
    as Hsec.
  { destruct sd as [d2|]; simpl.
    - destruct Hsd as [Hd2 [Hcols _]%on_secondary_diagnosis_true].
      rewrite (the_match_Some _ dsd d2) by (done || by apply ids_NoDup).
      simpl. rewrite Hcols.
      intros [?%conflict_irrefl|?%conflict_irrefl]; done.
    - rewrite the_match_None. simpl.
      intros [?%conflict_None_l|?%conflict_None_l]; done. }
  destruct pd as [d|]; simpl.
  - destruct Hpd as [Hd [Hcols _]%on_primary_diagnosis_true].
    rewrite (the_match_overwrite primary_diagnosis_id
               Build_DimPrimaryDiagnosis) by done.
    destruct (decide (primary_diagnosis_id d = k)) as [Hdk|Hdk]; simpl.
    + assert (d = d0) as -> by
        (apply (NoDup_fmap_eq primary_diagnosis_id dpd); [done..|congruence]).
      rewrite Hcols. split; [by rewrite Hdk|intros _].
      destruct Hconf as [?|?]; tauto.
    + rewrite Hcols. split; [|by intros [= ?]].
      intros [?%conflict_irrefl|[?%conflict_irrefl|?]]; tauto.
  - rewrite the_match_None. simpl. split; [|done].
    intros [?%conflict_None_l|[?%conflict_None_l|?]]; tauto.
Qed.

Lemma secondary_overwrite_reported df dp dl dpd dsd dt k c d0 :
  visits_identified df →
  NoDup (primary_diagnosis_id <$> dpd) →
  NoDup (secondary_diagnosis_id <$> dsd) →
  d0 ∈ dsd → secondary_diagnosis_id d0 = k →
  secondary_key_conflicts c (dim_secondary_diagnosis_cols d0) →
  (λ x, x.1.1.1)
    <$> diagnosis_mismatches df (create_fact_visit df dp dl dpd dsd dt) dpd
          (overwrite secondary_diagnosis_id Build_DimSecondaryDiagnosis
             k c dsd)
  = filter (λ f, fact_secondary_diagnosis_id f = Some k)
      (create_fact_visit df dp dl dpd dsd dt).
Proof.
  intros Hdf Hnd1 Hnd2 Hd0 Hk Hconf. unfold diagnosis_mismatches.
  rewrite diagnosis_joined_rows; [|done|done|].
  2: by rewrite (overwrite_ids secondary_diagnosis_id
                   Build_DimSecondaryDiagnosis).
  rewrite (fmap_filter_fmap (λ x : DiagnosisCheck, x.1.1.1)) by done.
  apply filter_ext_in. intros f Hf.
  apply fact_row_origin in Hf
    as (s & p & l & pd & sd & t & -> & Hs & _ & _ & Hpd & Hsd & _).
  rewrite diagnosis_condition_true. unfold diagnosis_conflicts,
    dim_primary_code, dim_primary_desc, dim_secondary_code,
    dim_secondary_desc, src_primary_code, src_primary_desc,
    src_secondary_code, src_secondary_desc.
  simpl.
  rewrite (source_path
    (λ r, (visit_id (visit r), primary_diagnosis r, secondary_diagnosis r))
    (λ s, s.1.1) df s) by done.
  simpl.
  assert (¬ (conflict
               (the_match (λ d, Some (primary_diagnosis_id d))
                  (primary_diagnosis_id <$> pd) dpd
                ≫= λ d, primary_diagnosis_code
                           (dim_primary_diagnosis_cols d))
               (primary_diagnosis_code (primary_diagnosis s))))
    as Hcode.
  { destruct pd as [d1|]; simpl.
    - destruct Hpd as [Hd1 [Hcols _]%on_primary_diagnosis_true].
      rewrite (the_match_Some _ dpd d1) by (done || by apply ids_NoDup).
      simpl. rewrite Hcols. apply conflict_irrefl.
    - rewrite the_match_None. apply conflict_None_l. }
  assert (¬ (conflict
               (the_match (λ d, Some (primary_diagnosis_id d))
                  (primary_diagnosis_id <$> pd) dpd
                ≫= λ d, primary_diagnosis_desc
                           (dim_primary_diagnosis_cols d))
               (primary_diagnosis_desc (primary_diagnosis s))))
    as Hdesc.
  { destruct pd as [d1|]; simpl.
    - destruct Hpd as [Hd1 [Hcols _]%on_primary_diagnosis_true].
      rewrite (the_match_Some _ dpd d1) by (done || by apply ids_NoDup).
      simpl. rewrite Hcols. apply conflict_irrefl.
    - rewrite the_match_None. apply conflict_None_l. }
  destruct sd as [d|]; simpl.
  - destruct Hsd as [Hd [Hcols _]%on_secondary_diagnosis_true].
    rewrite (the_match_overwrite secondary_diagnosis_id
               Build_DimSecondaryDiagnosis) by done.
    destruct (decide (secondary_diagnosis_id d = k)) as [Hdk|Hdk]; simpl.
    + assert (d = d0) as -> by
        (apply (NoDup_fmap_eq secondary_diagnosis_id dsd);
           [done..|congruence]).
      rewrite Hcols. split; [by rewrite Hdk|intros _].
      destruct Hconf as [?|?]; tauto.
    + rewrite Hcols. split; [|by intros [= ?]].
      intros [?|[?|[?%conflict_irrefl|?%conflict_irrefl]]]; tauto.
  - rewrite the_match_None. simpl. split; [|done].
    intros [?|[?|[?%conflict_None_l|?%conflict_None_l]]]; tauto.
Qed.

(** C8 (amended): a checked row is counted as a mismatch exactly when, in
    some compared column, the dimension path and the source path both hold
    a value and the two values differ; a NULL on either side of a column
    never counts by itself.  In particular, when every source visit has its
    own non-NULL [visit_id] and the dimension's identifiers are pairwise
    distinct, overwriting the business key of one dimension row, after the
    fact table is built, with a key that conflicts with the old one makes
    the check report exactly the fact rows that reference this row. *)
Theorem reconciliation_reports_conflicts :
  (∀ df fact_df dim_provider dim_primary dim_secondary dim_location
     dim_treatment,
     (∀ x, x ∈ provider_mismatches df fact_df dim_provider ↔
           x ∈ provider_joined df fact_df dim_provider
           ∧ provider_conflicts x)
     ∧ (∀ x, x ∈ diagnosis_mismatches df fact_df dim_primary dim_secondary ↔
             x ∈ diagnosis_joined df fact_df dim_primary dim_secondary
             ∧ diagnosis_conflicts x)
     ∧ (∀ x, x ∈ location_mismatches df fact_df dim_location ↔
             x ∈ location_joined df fact_df dim_location
             ∧ location_conflicts x)
     ∧ (∀ x, x ∈ treatment_mismatches df fact_df dim_treatment ↔
             x ∈ treatment_joined df fact_df dim_treatment
             ∧ treatment_conflicts x))
  ∧ (∀ df dp dl dpd dsd dt,
       visits_identified df →
       (∀ c d0,
          NoDup (provider_id <$> dp) → d0 ∈ dp →
          provider_key_conflicts c (dim_provider_cols d0) →
          (λ x, x.1.1)
            <$> provider_mismatches df
                  (create_fact_visit df dp dl dpd dsd dt)
                  (overwrite provider_id Build_DimProvider
                     (provider_id d0) c dp)
          = filter (λ f, fact_provider_id f = Some (provider_id d0))
              (create_fact_visit df dp dl dpd dsd dt))
       ∧ (∀ c d0,
            NoDup (location_id <$> dl) → d0 ∈ dl →
            location_key_conflicts c (dim_location_cols d0) →
            (λ x, x.1.1)
              <$> location_mismatches df
                    (create_fact_visit df dp dl dpd dsd dt)
                    (overwrite location_id Build_DimLocation
                       (location_id d0) c dl)
            = filter (λ f, fact_location_id f = Some (location_id d0))
                (create_fact_visit df dp dl dpd dsd dt))
       ∧ (∀ c d0,
            NoDup (treatment_id <$> dt) → d0 ∈ dt →
            treatment_key_conflicts c (dim_treatment_cols d0) →
            (λ x, x.1.1)
              <$> treatment_mismatches df
                    (create_fact_visit df dp dl dpd dsd dt)
                    (overwrite treatment_id Build_DimTreatment
                       (treatment_id d0) c dt)
            = filter (λ f, fact_treatment_id f = Some (treatment_id d0))
                (create_fact_visit df dp dl dpd dsd dt))
       ∧ (∀ c d0,
            NoDup (primary_diagnosis_id <$> dpd) →
            NoDup (secondary_diagnosis_id <$> dsd) → d0 ∈ dpd →
            primary_key_conflicts c (dim_primary_diagnosis_cols d0) →
            (λ x, x.1.1.1)
              <$> diagnosis_mismatches df
                    (create_fact_visit df dp dl dpd dsd dt)
                    (overwrite primary_diagnosis_id Build_DimPrimaryDiagnosis
                       (primary_diagnosis_id d0) c dpd) dsd
            = filter (λ f, fact_primary_diagnosis_id f
                           = Some (primary_diagnosis_id d0))
                (create_fact_visit df dp dl dpd dsd dt))
       ∧ (∀ c d0,
            NoDup (primary_diagnosis_id <$> dpd) →
            NoDup (secondary_diagnosis_id <$> dsd) → d0 ∈ dsd →
            secondary_key_conflicts c (dim_secondary_diagnosis_cols d0) →
            (λ x, x.1.1.1)
              <$> diagnosis_mismatches df
                    (create_fact_visit df dp dl dpd dsd dt) dpd
                    (overwrite secondary_diagnosis_id
                       Build_DimSecondaryDiagnosis
                       (secondary_diagnosis_id d0) c dsd)
            = filter (λ f, fact_secondary_diagnosis_id f
                           = Some (secondary_diagnosis_id d0))
                (create_fact_visit df dp dl dpd dsd dt))).
Proof.
  split.
  - intros. apply mismatches_are_conflicts.
  - intros df dp dl dpd dsd dt Hdf.
    split; [|split; [|split; [|split]]]; intros c d0.
    + intros. by apply provider_overwrite_reported with (d0 := d0).
    + intros. by apply location_overwrite_reported with (d0 := d0).
    + intros. by apply treatment_overwrite_reported with (d0 := d0).
    + intros. by apply primary_overwrite_reported with (d0 := d0).
    + intros. by apply secondary_overwrite_reported with (d0 := d0).
Qed.

Lemma two_visits_identified : visits_identified two_visits.
Proof.
  split.
  - refine (bool_decide_unpack _ _). vm_compute. exact I.
  - intros r Hr. apply elem_of_cons in Hr as [->|Hr]; [done|].
    apply list_elem_of_singleton in Hr as ->. done.
Qed.

Lemma reconciliation_reports_conflicts_witness :
  visits_identified two_visits
  ∧ NoDup (provider_id <$> two_visits_providers)
  ∧ provider_ann ∈ two_visits_providers
  ∧ provider_key_conflicts renamed_doctor (dim_provider_cols provider_ann)
  ∧ (λ x : ProviderCheck, x.1.1)
      <$> provider_mismatches two_visits
            (create_fact_visit two_visits two_visits_providers [] [] [] [])
            (overwrite provider_id Build_DimProvider
               (provider_id provider_ann) renamed_doctor
               two_visits_providers)
    = filter (λ f, fact_provider_id f = Some (provider_id provider_ann))
        (create_fact_visit two_visits two_visits_providers [] [] [] []).
Proof.
  assert (NoDup (provider_id <$> two_visits_providers)) as Hnd
    by (refine (bool_decide_unpack _ _); vm_compute; exact I).
  assert (provider_ann ∈ two_visits_providers) as Hin
    by (refine (bool_decide_unpack _ _); vm_compute; exact I).
  assert (provider_key_conflicts renamed_doctor
            (dim_provider_cols provider_ann)) as Hconf.
  { left. exists "Bob", "Ann". done. }
  split; [exact two_visits_identified|]. split; [exact Hnd|].
  split; [exact Hin|]. split; [exact Hconf|].
  exact (proj1 (proj2 reconciliation_reports_conflicts
                  two_visits two_visits_providers [] [] [] []
                  two_visits_identified)
           renamed_doctor provider_ann Hnd Hin Hconf).
Defined.

(** The stale provider row is reported for the visit that references it,
    and for no other. *)
Example renamed_doctor_is_reported :
  (λ x : ProviderCheck, fact_visit_id x.1.1)
    <$> provider_mismatches two_visits
          (create_fact_visit two_visits two_visits_providers [] [] [] [])
          (overwrite provider_id Build_DimProvider 1 renamed_doctor
             two_visits_providers)
  = [Some "V1"].
Proof. vm_compute. reflexivity. Qed.

(** * Further properties of the pipeline *)

(** ** What a fact row holds *)

Lemma select_fact_copies s p l pd sd t :
  copies_visit s (select_fact (s, p, l, pd, sd, t)).
Proof. by repeat split. Qed.

(** A business key without NULL component has its row in the dimension
    built from the same source. *)
Lemma provider_key_enters layout df s :
  s ∈ df → None ∉ provider_key (provider s) →
  ∃ d, d ∈ create_dim_provider layout df
       ∧ on_provider (provider s) d = true.
Proof.
  intros Hs Hkey.
  assert (provider s ∈ dim_provider_cols <$> create_dim_provider layout df)
    as Hin.
  { rewrite dim_provider_rows.
    destruct (provider_rows_spec df) as (_ & Hin & _).
    rewrite list_fmap_id in Hin. apply Hin.
    split; [by apply list_elem_of_fmap_2|done]. }
  apply list_elem_of_fmap in Hin as (d & Hd & Hin). exists d.
  split; [done|]. by apply on_provider_true.
Qed.

Lemma location_key_enters layout df s :
  s ∈ df → None ∉ location_key (location s) →
  ∃ d, d ∈ create_dim_location layout df
       ∧ on_location (location s) d = true.
Proof.
  intros Hs Hkey.
  assert (location s ∈ dim_location_cols <$> create_dim_location layout df)
    as Hin.
  { rewrite dim_location_rows.
    destruct (location_rows_spec df) as (_ & Hin & _).
    rewrite list_fmap_id in Hin. apply Hin.
    split; [by apply list_elem_of_fmap_2|done]. }
  apply list_elem_of_fmap in Hin as (d & Hd & Hin). exists d.
  split; [done|]. by apply on_location_true.
Qed.

Lemma primary_diagnosis_key_enters layout df s :
  s ∈ df → None ∉ primary_diagnosis_key (primary_diagnosis s) →
  ∃ d, d ∈ create_dim_primary_diagnosis layout df
       ∧ on_primary_diagnosis (primary_diagnosis s) d = true.
Proof.
  intros Hs Hkey.
  assert (primary_diagnosis s ∈ dim_primary_diagnosis_cols
            <$> create_dim_primary_diagnosis layout df) as Hin.
  { rewrite dim_primary_diagnosis_rows.
    destruct (primary_diagnosis_rows_spec df) as (_ & Hin & _).
    rewrite list_fmap_id in Hin. apply Hin.
    split; [by apply list_elem_of_fmap_2|done]. }
  apply list_elem_of_fmap in Hin as (d & Hd & Hin). exists d.
  split; [done|]. by apply on_primary_diagnosis_true.
Qed.

Lemma secondary_diagnosis_key_enters layout df s :
  s ∈ df → None ∉ secondary_diagnosis_key (secondary_diagnosis s) →
  ∃ d, d ∈ create_dim_secondary_diagnosis layout df
       ∧ on_secondary_diagnosis (secondary_diagnosis s) d = true.
Proof.
  intros Hs Hkey.
  assert (secondary_diagnosis s ∈ dim_secondary_diagnosis_cols
            <$> create_dim_secondary_diagnosis layout df) as Hin.
  { rewrite dim_secondary_diagnosis_rows.
    destruct (secondary_diagnosis_rows_spec df) as (_ & Hin & _).
    rewrite list_fmap_id in Hin. apply Hin.
    split; [by apply list_elem_of_fmap_2|done]. }
  apply list_elem_of_fmap in Hin as (d & Hd & Hin). exists d.
  split; [done|]. by apply on_secondary_diagnosis_true.
Qed.

Lemma treatment_key_enters layout df s :
  s ∈ df → None ∉ treatment_key (treatment s) →
  ∃ d, d ∈ create_dim_treatment layout df
       ∧ on_treatment (treatment s) d = true.
Proof.
  intros Hs Hkey.
  assert (treatment s ∈ dim_treatment_cols <$> create_dim_treatment layout df)
    as Hin.
  { rewrite dim_treatment_rows.
    destruct (treatment_rows_spec df) as (_ & Hin & _).
    rewrite list_fmap_id in Hin. apply Hin.
    split; [by apply list_elem_of_fmap_2|done]. }
  apply list_elem_of_fmap in Hin as (d & Hd & Hin). exists d.
  split; [done|]. by apply on_treatment_true.
Qed.

(** From what a join met to what the foreign key resolves to. *)
Lemma met_resolved {D C} (id : D → Z) (cols : D → C) (key : C → list Value)
    (on : C → D → bool) (dim : list D) (c : C) (o : option D) :
  (∀ d, on c d = true ↔ c = cols d ∧ None ∉ key c) →
  (None ∉ key c → ∃ d, d ∈ dim ∧ on c d = true) →
  met on c dim o →
  resolved id cols key dim c (id <$> o).
Proof.
  intros Hon Henters Hmet. destruct o as [d|]; simpl.
  - destruct Hmet as [Hd [Hc Hk]%Hon]. split; [done|]. by exists d.
  - destruct (decide (None ∈ key c)) as [|Hk]; [done|].
    destruct (Henters Hk) as (d & Hd & Hond).
    rewrite (Hmet d Hd) in Hond. done.
Qed.

(** X1: every fact row of a run stems from a source row whose visit columns
    and pre-existing identifiers it copies; each of its five surrogate
    foreign keys is NULL exactly when the source row's business key has a
    NULL component, and otherwise is the identifier of the dimension row that
    carries this very business key. *)
Theorem fact_rows_resolve engine df f :
  f ∈ fact_visit (main engine df) →
  ∃ s, s ∈ df
    ∧ copies_visit s f
    ∧ resolved provider_id dim_provider_cols provider_key
        (dim_provider (main engine df)) (provider s) (fact_provider_id f)
    ∧ resolved location_id dim_location_cols location_key
        (dim_location (main engine df)) (location s) (fact_location_id f)
    ∧ resolved primary_diagnosis_id dim_primary_diagnosis_cols
        primary_diagnosis_key (dim_primary_diag (main engine df))
        (primary_diagnosis s) (fact_primary_diagnosis_id f)
    ∧ resolved secondary_diagnosis_id dim_secondary_diagnosis_cols
        secondary_diagnosis_key (dim_secondary_diag (main engine df))
        (secondary_diagnosis s) (fact_secondary_diagnosis_id f)
    ∧ resolved treatment_id dim_treatment_cols treatment_key
        (dim_treatment (main engine df)) (treatment s)
        (fact_treatment_id f).
Proof.
  simpl. intros Hf.
  apply fact_row_origin in Hf
    as (s & p & l & pd & sd & t & -> & Hs & Hp & Hl & Hpd & Hsd & Ht).
  exists s. split; [done|]. split; [apply select_fact_copies|].
  simpl. split; [|split; [|split; [|split]]].
  - eapply met_resolved; [apply on_provider_true| |done].
    intros Hk. by apply provider_key_enters.
  - eapply met_resolved; [apply on_location_true| |done].
    intros Hk. by apply location_key_enters.
  - eapply met_resolved; [apply on_primary_diagnosis_true| |done].
    intros Hk. by apply primary_diagnosis_key_enters.
  - eapply met_resolved; [apply on_secondary_diagnosis_true| |done].
    intros Hk. by apply secondary_diagnosis_key_enters.
  - eapply met_resolved; [apply on_treatment_true| |done].
    intros Hk. by apply treatment_key_enters.
Qed.

Lemma visit1_fact_in_run :
  visit1_fact ∈ fact_visit (main one_partition two_visits).
Proof. refine (bool_decide_unpack _ _). vm_compute. exact I. Qed.

Lemma fact_rows_resolve_witness :
  visit1_fact ∈ fact_visit (main one_partition two_visits)
  ∧ ∃ s, s ∈ two_visits
      ∧ copies_visit s visit1_fact
      ∧ resolved provider_id dim_provider_cols provider_key
          (dim_provider (main one_partition two_visits)) (provider s)
          (fact_provider_id visit1_fact)
      ∧ resolved location_id dim_location_cols location_key
          (dim_location (main one_partition two_visits)) (location s)
          (fact_location_id visit1_fact)
      ∧ resolved primary_diagnosis_id dim_primary_diagnosis_cols
          primary_diagnosis_key
          (dim_primary_diag (main one_partition two_visits))
          (primary_diagnosis s) (fact_primary_diagnosis_id visit1_fact)
      ∧ resolved secondary_diagnosis_id dim_secondary_diagnosis_cols
          secondary_diagnosis_key
          (dim_secondary_diag (main one_partition two_visits))
          (secondary_diagnosis s) (fact_secondary_diagnosis_id visit1_fact)
      ∧ resolved treatment_id dim_treatment_cols treatment_key
          (dim_treatment (main one_partition two_visits)) (treatment s)
          (fact_treatment_id visit1_fact).
Proof.
  split; [exact visit1_fact_in_run|].
  exact (fact_rows_resolve one_partition two_visits visit1_fact
           visit1_fact_in_run).
Defined.

(** ** Referential integrity *)

(** X2: every pre-existing identifier a fact row carries has its row in the
    corresponding identity dimension: always for Patient, Insurance and
    Billing (a NULL identifier included, these dimensions keeping a
    NULL-key row), and whenever it is not NULL for Prescription and
    LabOrder. *)
Theorem fact_identifiers_have_rows engine df f :
  f ∈ fact_visit (main engine df) →
  fact_patient_id f
    ∈ (λ d, patient_id (dim_patient_cols d)) <$> dim_patient (main engine df)
  ∧ fact_insurance_id f
    ∈ (λ d, insurance_id (dim_insurance_cols d))
        <$> dim_insurance (main engine df)
  ∧ fact_billing_id f
    ∈ (λ d, billing_id (dim_billing_cols d)) <$> dim_billing (main engine df)
  ∧ (fact_prescription_id f ≠ None →
     fact_prescription_id f
       ∈ prescription_id <$> dim_prescription (main engine df))
  ∧ (fact_lab_order_id f ≠ None →
     fact_lab_order_id f ∈ lab_order_id <$> dim_lab_order (main engine df)).
Proof.
  simpl. intros Hf.
  apply fact_row_origin in Hf as (s & p & l & pd & sd & t & -> & Hs & _).
  simpl. split; [|split; [|split; [|split]]].
  - apply (proj2 (create_dim_patient_keys df)).
    by apply (list_elem_of_fmap_2 (λ r, patient_id (patient r))).
  - apply (proj2 (create_dim_insurance_keys df)).
    by apply (list_elem_of_fmap_2 (λ r, insurance_id (insurance r))).
  - apply (proj2 (create_dim_billing_keys df)).
    by apply (list_elem_of_fmap_2 (λ r, billing_id (billing r))).
  - intros Hnn. apply (proj2 (create_dim_prescription_keys df)).
    split; [|done].
    by apply (list_elem_of_fmap_2 (λ r, prescription_id (prescription r))).
  - intros Hnn. apply (proj2 (create_dim_lab_order_keys df)).
    split; [|done].
    by apply (list_elem_of_fmap_2 (λ r, lab_order_id (lab_order r))).
Qed.

Lemma fact_identifiers_have_rows_witness :
  visit1_fact ∈ fact_visit (main one_partition two_visits)
  ∧ fact_patient_id visit1_fact
    ∈ (λ d, patient_id (dim_patient_cols d))
        <$> dim_patient (main one_partition two_visits).
Proof.
  split; [exact visit1_fact_in_run|].
  exact (proj1 (fact_identifiers_have_rows one_partition two_visits
                  visit1_fact visit1_fact_in_run)).
Defined.

(** ** The checks on a consistent run *)

Lemma conflict_None_r (a : Value) : ¬ conflict a None.
Proof. by intros (x & y & _ & ? & _). Qed.

Lemma filter_none {A} (P : A → Prop) `{∀ x, Decision (P x)} (l : list A) :
  (∀ x, x ∈ l → ¬ P x) → filter P l = [].
Proof.
  intros Hnone. induction l as [|a l IH]; [done|].
  rewrite filter_cons_False by (apply Hnone; left).
  apply IH. intros x Hx. apply Hnone. by right.
Qed.

Lemma source_keys_NoDup {X} (pack : SourceRecord → X) (key : X → Value) df :
  (∀ r, key (pack r) = visit_id (visit r)) →
  NoDup ((λ r, visit_id (visit r)) <$> df) →
  NoDup (key <$> (pack <$> df)).
Proof.
  intros Hkey Hnd. rewrite <- list_fmap_compose.
  erewrite list_fmap_ext; [exact Hnd|]. intros i r _. apply Hkey.
Qed.

(** The source columns met on [visit_id]: those of the visit itself, or
    NULLs for a visit without id. *)
Lemma source_path_opt {X} (pack : SourceRecord → X) (key : X → Value) df
    (s : SourceRecord) :
  (∀ r, key (pack r) = visit_id (visit r)) →
  NoDup ((λ r, visit_id (visit r)) <$> df) → s ∈ df →
  the_match key (visit_id (visit s)) (pack <$> df)
  = (visit_id (visit s)) ≫= λ _, Some (pack s).
Proof.
  intros Hkey Hnd Hs.
  destruct (visit_id (visit s)) as [v|] eqn:E; simpl.
  - apply the_match_Some.
    + by apply source_keys_NoDup.
    + by apply list_elem_of_fmap_2.
    + by rewrite Hkey.
  - apply the_match_None.
Qed.

Lemma surrogate_keys_NoDup {A} (layout : list nat) (rows : list A) :
  (Z.of_nat (length layout) < 2 ^ 30)%Z →
  (Z.of_nat (length rows) < 2 ^ 33)%Z →
  NoDup (surrogate_keys (chunks layout rows)).
Proof.
  intros Hp Hn. apply StronglySorted_lt_NoDup.
  by destruct (keys_as_assigned_chunks layout rows Hp Hn) as [? _].
Qed.

Lemma dim_provider_ids_NoDup layout df :
  (Z.of_nat (length layout) < 2 ^ 30)%Z →
  (Z.of_nat (length df) < 2 ^ 33)%Z →
  NoDup (provider_id <$> create_dim_provider layout df).
Proof.
  intros Hp Hn. rewrite dim_provider_keys.
  apply surrogate_keys_NoDup; [done|].
  pose proof (length_provider_rows df). lia.
Qed.

Lemma dim_location_ids_NoDup layout df :
  (Z.of_nat (length layout) < 2 ^ 30)%Z →
  (Z.of_nat (length df) < 2 ^ 33)%Z →
  NoDup (location_id <$> create_dim_location layout df).
Proof.
  intros Hp Hn. rewrite dim_location_keys.
  apply surrogate_keys_NoDup; [done|].
  pose proof (length_location_rows df). lia.
Qed.

Lemma dim_primary_diagnosis_ids_NoDup layout df :
  (Z.of_nat (length layout) < 2 ^ 30)%Z →
  (Z.of_nat (length df) < 2 ^ 33)%Z →
  NoDup (primary_diagnosis_id <$> create_dim_primary_diagnosis layout df).
Proof.
  intros Hp Hn. rewrite dim_primary_diagnosis_keys.
  apply surrogate_keys_NoDup; [done|].
  pose proof (length_primary_diagnosis_rows df). lia.
Qed.

Lemma dim_secondary_diagnosis_ids_NoDup layout df :
  (Z.of_nat (length layout) < 2 ^ 30)%Z →
  (Z.of_nat (length df) < 2 ^ 33)%Z →
  NoDup (secondary_diagnosis_id
           <$> create_dim_secondary_diagnosis layout df).
Proof.
  intros Hp Hn. rewrite dim_secondary_diagnosis_keys.
  apply surrogate_keys_NoDup; [done|].
  pose proof (length_secondary_diagnosis_rows df). lia.
Qed.

Lemma dim_treatment_ids_NoDup layout df :
  (Z.of_nat (length layout) < 2 ^ 30)%Z →
  (Z.of_nat (length df) < 2 ^ 33)%Z →
  NoDup (treatment_id <$> create_dim_treatment layout df).
Proof.
  intros Hp Hn. rewrite dim_treatment_keys.
  apply surrogate_keys_NoDup; [done|].
  pose proof (length_treatment_rows df). lia.
Qed.

(** With one source row per visit id and dimensions with distinct business
    keys, the fact relation has one row per source row, in source order. *)
Lemma fact_of_distinct_visits df dp dl dpd dsd dt :
  NoDup ((λ r, visit_id (visit r)) <$> df) →
  NoDup (dim_provider_cols <$> dp) →
  NoDup (dim_location_cols <$> dl) →
  NoDup (dim_primary_diagnosis_cols <$> dpd) →
  NoDup (dim_secondary_diagnosis_cols <$> dsd) →
  NoDup (dim_treatment_cols <$> dt) →
  create_fact_visit df dp dl dpd dsd dt
  = select_fact <$> join_dimensions df dp dl dpd dsd dt
  ∧ fact_visit_id <$> create_fact_visit df dp dl dpd dsd dt
    = (λ r, visit_id (visit r)) <$> df.
Proof.
  intros Hv Hp Hl Hpd Hsd Ht.
  assert (fact_visit_id <$> (select_fact
            <$> join_dimensions df dp dl dpd dsd dt)
          = (λ r, visit_id (visit r)) <$> df) as Hids.
  { rewrite <- (join_dimensions_sources df dp dl dpd dsd dt) at 2 by done.
    rewrite <- !list_fmap_compose. apply list_fmap_ext.
    intros _ x _. apply select_fact_visit_id. }
  assert (create_fact_visit df dp dl dpd dsd dt
          = select_fact <$> join_dimensions df dp dl dpd dsd dt) as Hfact.
  { unfold create_fact_visit. apply dropDuplicates_on_id. by rewrite Hids. }
  split; [done|]. by rewrite Hfact.
Qed.

Lemma length_fact_of_distinct_visits df dp dl dpd dsd dt :
  NoDup ((λ r, visit_id (visit r)) <$> df) →
  NoDup (dim_provider_cols <$> dp) →
  NoDup (dim_location_cols <$> dl) →
  NoDup (dim_primary_diagnosis_cols <$> dpd) →
  NoDup (dim_secondary_diagnosis_cols <$> dsd) →
  NoDup (dim_treatment_cols <$> dt) →
  length (create_fact_visit df dp dl dpd dsd dt) = length df.
Proof.
  intros Hv Hp Hl Hpd Hsd Ht.
  destruct (fact_of_distinct_visits df dp dl dpd dsd dt) as [_ Hids];
    [done..|].
  by rewrite <- (length_fmap fact_visit_id), Hids, length_fmap.
Qed.

Lemma provider_joined_lookup df fact_df dim :
  NoDup ((λ r, visit_id (visit r)) <$> df) →
  NoDup (provider_id <$> dim) →
  provider_joined df fact_df dim
  = (λ f, (f, the_match (λ d, Some (provider_id d)) (fact_provider_id f) dim,
           the_match fst (fact_visit_id f)
             ((λ r, (visit_id (visit r), provider r)) <$> df))) <$> fact_df.
Proof.
  intros Hdf Hnd. unfold provider_joined.
  rewrite (left_join_the_match fact_provider_id (λ d, Some (provider_id d)))
    by by apply ids_NoDup.
  rewrite (left_join_the_match (λ x, fact_visit_id x.1) fst)
    by by apply source_keys_NoDup.
  by rewrite <- list_fmap_compose.
Qed.

Lemma location_joined_lookup df fact_df dim :
  NoDup ((λ r, visit_id (visit r)) <$> df) →
  NoDup (location_id <$> dim) →
  location_joined df fact_df dim
  = (λ f, (f, the_match (λ d, Some (location_id d)) (fact_location_id f) dim,
           the_match fst (fact_visit_id f)
             ((λ r, (visit_id (visit r), location r)) <$> df))) <$> fact_df.
Proof.
  intros Hdf Hnd. unfold location_joined.
  rewrite (left_join_the_match fact_location_id (λ d, Some (location_id d)))
    by by apply ids_NoDup.
  rewrite (left_join_the_match (λ x, fact_visit_id x.1) fst)
    by by apply source_keys_NoDup.
  by rewrite <- list_fmap_compose.
Qed.

Lemma treatment_joined_lookup df fact_df dim :
  NoDup ((λ r, visit_id (visit r)) <$> df) →
  NoDup (treatment_id <$> dim) →
  treatment_joined df fact_df dim
  = (λ f, (f, the_match (λ d, Some (treatment_id d)) (fact_treatment_id f) dim,
           the_match fst (fact_visit_id f)
             ((λ r, (visit_id (visit r), treatment r)) <$> df))) <$> fact_df.
Proof.
  intros Hdf Hnd. unfold treatment_joined.
  rewrite (left_join_the_match fact_treatment_id (λ d, Some (treatment_id d)))
    by by apply ids_NoDup.
  rewrite (left_join_the_match (λ x, fact_visit_id x.1) fst)
    by by apply source_keys_NoDup.
  by rewrite <- list_fmap_compose.
Qed.

Lemma diagnosis_joined_lookup df fact_df dim1 dim2 :
  NoDup ((λ r, visit_id (visit r)) <$> df) →
  NoDup (primary_diagnosis_id <$> dim1) →
  NoDup (secondary_diagnosis_id <$> dim2) →
  diagnosis_joined df fact_df dim1 dim2
  = (λ f, (f,
           the_match (λ d, Some (primary_diagnosis_id d))
             (fact_primary_diagnosis_id f) dim1,
           the_match (λ d, Some (secondary_diagnosis_id d))
             (fact_secondary_diagnosis_id f) dim2,
           the_match (λ s, s.1.1) (fact_visit_id f)
             ((λ r, (visit_id (visit r), primary_diagnosis r,
                     secondary_diagnosis r)) <$> df))) <$> fact_df.
Proof.
  intros Hdf Hnd1 Hnd2. unfold diagnosis_joined.
  rewrite (left_join_the_match fact_primary_diagnosis_id
             (λ d, Some (primary_diagnosis_id d))) by by apply ids_NoDup.
  rewrite (left_join_the_match (λ x, fact_secondary_diagnosis_id x.1)
             (λ d, Some (secondary_diagnosis_id d))) by by apply ids_NoDup.
  rewrite (left_join_the_match (λ x, fact_visit_id x.1.1) (λ s, s.1.1))
    by by apply source_keys_NoDup.
  by rewrite <- !list_fmap_compose.
Qed.

(** A column read along both paths of a consistent row: the dimension row
    met, if any, carries the source row's own value. *)
Lemma no_conflict_on_own_value {D S} (o : option D) (get : D → Value)
    (src : option S) (gets : S → Value) (v : Value) :
  (∀ d, o = Some d → get d = v) →
  (∀ x, src = Some x → gets x = v) →
  ¬ conflict (o ≫= get) (src ≫= gets).
Proof.
  intros Hget Hsrc. destruct o as [d|]; simpl; [|apply conflict_None_l].
  rewrite (Hget d eq_refl).
  destruct src as [x|]; simpl; [|apply conflict_None_r].
  rewrite (Hsrc x eq_refl). apply conflict_irrefl.
Qed.

Ltac own_value Hcols s :=
  let Hc := fresh in
  intros Hc; revert Hc; eapply no_conflict_on_own_value;
  [ let d := fresh in let Hd := fresh in
    intros d Hd; simpl; rewrite (Hcols d Hd); reflexivity
  | let x := fresh in let Hx := fresh in
    intros x Hx; destruct (visit_id (visit s)); simplify_eq/=; reflexivity ].

Lemma provider_check_passes df dp dl dpd dsd dt :
  NoDup ((λ r, visit_id (visit r)) <$> df) →
  NoDup (provider_id <$> dp) →
  provider_mismatches df (create_fact_visit df dp dl dpd dsd dt) dp = []
  ∧ length (provider_joined df (create_fact_visit df dp dl dpd dsd dt) dp)
    = length (create_fact_visit df dp dl dpd dsd dt).
Proof.
  intros Hdf Hnd. unfold provider_mismatches.
  rewrite provider_joined_lookup by done. split; [|by rewrite length_fmap].
  apply filter_none. intros x Hx.
  apply list_elem_of_fmap in Hx as (f & -> & Hf).
  apply fact_row_origin in Hf
    as (s & p & l & pd & sd & t & -> & Hs & Hp & _).
  rewrite provider_condition_true. unfold provider_conflicts,
    dim_doctor_name, dim_doctor_title, dim_doctor_department,
    src_doctor_name, src_doctor_title, src_doctor_department.
  simpl.
  rewrite (source_path_opt (λ r, (visit_id (visit r), provider r)) fst df s)
    by done.
  assert (the_match (λ d, Some (provider_id d)) (provider_id <$> p) dp = p)
    as ->.
  { destruct p as [d|]; simpl; [|apply the_match_None].
    destruct Hp as [Hd _]. apply the_match_Some; [by apply ids_NoDup|done..]. }
  assert (∀ d, p = Some d → dim_provider_cols d = provider s) as Hcols.
  { intros d ->. by destruct Hp as [_ [-> _]%on_provider_true]. }
  intros [Hc|[Hc|Hc]]; revert Hc; own_value Hcols s.
Qed.

Lemma location_check_passes df dp dl dpd dsd dt :
  NoDup ((λ r, visit_id (visit r)) <$> df) →
  NoDup (location_id <$> dl) →
  location_mismatches df (create_fact_visit df dp dl dpd dsd dt) dl = []
  ∧ length (location_joined df (create_fact_visit df dp dl dpd dsd dt) dl)
    = length (create_fact_visit df dp dl dpd dsd dt).
Proof.
  intros Hdf Hnd. unfold location_mismatches.
  rewrite location_joined_lookup by done. split; [|by rewrite length_fmap].
  apply filter_none. intros x Hx.
  apply list_elem_of_fmap in Hx as (f & -> & Hf).
  apply fact_row_origin in Hf
    as (s & p & l & pd & sd & t & -> & Hs & _ & Hl & _).
  rewrite location_condition_true. unfold location_conflicts,
    dim_clinic_name, dim_room_number, src_clinic_name, src_room_number.
  simpl.
  rewrite (source_path_opt (λ r, (visit_id (visit r), location r)) fst df s)
    by done.
  assert (the_match (λ d, Some (location_id d)) (location_id <$> l) dl = l)
    as ->.
  { destruct l as [d|]; simpl; [|apply the_match_None].
    destruct Hl as [Hd _]. apply the_match_Some; [by apply ids_NoDup|done..]. }
  assert (∀ d, l = Some d → dim_location_cols d = location s) as Hcols.
  { intros d ->. by destruct Hl as [_ [-> _]%on_location_true]. }
  intros [Hc|Hc]; revert Hc; own_value Hcols s.
Qed.

Lemma treatment_check_passes df dp dl dpd dsd dt :
  NoDup ((λ r, visit_id (visit r)) <$> df) →
  NoDup (treatment_id <$> dt) →
  treatment_mismatches df (create_fact_visit df dp dl dpd dsd dt) dt = []
  ∧ length (treatment_joined df (create_fact_visit df dp dl dpd dsd dt) dt)
    = length (create_fact_visit df dp dl dpd dsd dt).
Proof.
  intros Hdf Hnd. unfold treatment_mismatches.
  rewrite treatment_joined_lookup by done. split; [|by rewrite length_fmap].
  apply filter_none. intros x Hx.
  apply list_elem_of_fmap in Hx as (f & -> & Hf).
  apply fact_row_origin in Hf
    as (s & p & l & pd & sd & t & -> & Hs & _ & _ & _ & _ & Ht).
  rewrite treatment_condition_true. unfold treatment_conflicts,
    dim_treatment_code, dim_treatment_desc, src_treatment_code,
    src_treatment_desc.
  simpl.
  rewrite (source_path_opt (λ r, (visit_id (visit r), treatment r)) fst df s)
    by done.
  assert (the_match (λ d, Some (treatment_id d)) (treatment_id <$> t) dt = t)
    as ->.
  { destruct t as [d|]; simpl; [|apply the_match_None].
    destruct Ht as [Hd _]. apply the_match_Some; [by apply ids_NoDup|done..]. }
  assert (∀ d, t = Some d → dim_treatment_cols d = treatment s) as Hcols.
  { intros d ->. by destruct Ht as [_ [-> _]%on_treatment_true]. }
  intros [Hc|Hc]; revert Hc; own_value Hcols s.
Qed.

Lemma diagnosis_check_passes df dp dl dpd dsd dt :
  NoDup ((λ r, visit_id (visit r)) <$> df) →
  NoDup (primary_diagnosis_id <$> dpd) →
  NoDup (secondary_diagnosis_id <$> dsd) →
  diagnosis_mismatches df (create_fact_visit df dp dl dpd dsd dt) dpd dsd = []
  ∧ length (diagnosis_joined df (create_fact_visit df dp dl dpd dsd dt)
              dpd dsd)
    = length (create_fact_visit df dp dl dpd dsd dt).
Proof.
  intros Hdf Hnd1 Hnd2. unfold diagnosis_mismatches.
  rewrite diagnosis_joined_lookup by done. split; [|by rewrite length_fmap].
  apply filter_none. intros x Hx.
  apply list_elem_of_fmap in Hx as (f & -> & Hf).
  apply fact_row_origin in Hf
    as (s & p & l & pd & sd & t & -> & Hs & _ & _ & Hpd & Hsd & _).
  rewrite diagnosis_condition_true. unfold diagnosis_conflicts,
    dim_primary_code, dim_primary_desc, dim_secondary_code,
    dim_secondary_desc, src_primary_code, src_primary_desc,
    src_secondary_code, src_secondary_desc.
  simpl.
  rewrite (source_path_opt
             (λ r, (visit_id (visit r), primary_diagnosis r,
                    secondary_diagnosis r)) (λ s, s.1.1) df s) by done.
  assert (the_match (λ d, Some (primary_diagnosis_id d))
            (primary_diagnosis_id <$> pd) dpd = pd) as ->.
  { destruct pd as [d|]; simpl; [|apply the_match_None].
    destruct Hpd as [Hd _].
    apply the_match_Some; [by apply ids_NoDup|done..]. }
  assert (the_match (λ d, Some (secondary_diagnosis_id d))
            (secondary_diagnosis_id <$> sd) dsd = sd) as ->.
  { destruct sd as [d|]; simpl; [|apply the_match_None].
    destruct Hsd as [Hd _].
    apply the_match_Some; [by apply ids_NoDup|done..]. }
  assert (∀ d, pd = Some d →
               dim_primary_diagnosis_cols d = primary_diagnosis s) as Hcols1.
  { intros d ->. by destruct Hpd as [_ [-> _]%on_primary_diagnosis_true]. }
  assert (∀ d, sd = Some d →
               dim_secondary_diagnosis_cols d = secondary_diagnosis s)
    as Hcols2.
  { intros d ->. by destruct Hsd as [_ [-> _]%on_secondary_diagnosis_true]. }
  intros [Hc|[Hc|[Hc|Hc]]]; revert Hc;
    [own_value Hcols1 s|own_value Hcols1 s
    |own_value Hcols2 s|own_value Hcols2 s].
Qed.

(** X3: when every source row has a visit id of its own (no two rows share
    one, at most one row lacks it) and the engine keeps within the documented
    sizes, a run's four join checks each examine one row per source row and
    report no mismatch. *)
Theorem checks_pass_on_distinct_visits engine df :
  NoDup ((λ r, visit_id (visit r)) <$> df) →
  engine_within_limits engine df →
  provider_check (main engine df) = {| total := length df; wrong := 0 |}
  ∧ diagnosis_check (main engine df) = {| total := length df; wrong := 0 |}
  ∧ location_check (main engine df) = {| total := length df; wrong := 0 |}
  ∧ treatment_check (main engine df) = {| total := length df; wrong := 0 |}.
Proof.
  intros Hdf (Hn & Hp & Hl & Hpd & Hsd & Ht).
  pose proof (dim_provider_ids_NoDup (provider_layout engine) df Hp Hn)
    as Hidp.
  pose proof (dim_location_ids_NoDup (location_layout engine) df Hl Hn)
    as Hidl.
  pose proof (dim_primary_diagnosis_ids_NoDup
                (primary_diagnosis_layout engine) df Hpd Hn) as Hidpd.
  pose proof (dim_secondary_diagnosis_ids_NoDup
                (secondary_diagnosis_layout engine) df Hsd Hn) as Hidsd.
  pose proof (dim_treatment_ids_NoDup (treatment_layout engine) df Ht Hn)
    as Hidt.
  pose proof (length_fact_of_distinct_visits df
                (create_dim_provider (provider_layout engine) df)
                (create_dim_location (location_layout engine) df)
                (create_dim_primary_diagnosis
                   (primary_diagnosis_layout engine) df)
                (create_dim_secondary_diagnosis
                   (secondary_diagnosis_layout engine) df)
                (create_dim_treatment (treatment_layout engine) df)
                Hdf (dim_provider_cols_NoDup _ _)
                (dim_location_cols_NoDup _ _)
                (dim_primary_diagnosis_cols_NoDup _ _)
                (dim_secondary_diagnosis_cols_NoDup _ _)
                (dim_treatment_cols_NoDup _ _)) as Hlen.
  unfold main; cbn [provider_check diagnosis_check location_check
                    treatment_check].
  unfold verify_fact_join_accuracy, verify_diagnosis_joins,
    verify_location_join_accuracy, verify_treatment_join_accuracy.
  split; [|split; [|split]].
  - destruct (provider_check_passes df _
                (create_dim_location (location_layout engine) df)
                (create_dim_primary_diagnosis
                   (primary_diagnosis_layout engine) df)
                (create_dim_secondary_diagnosis
                   (secondary_diagnosis_layout engine) df)
                (create_dim_treatment (treatment_layout engine) df)
                Hdf Hidp) as [-> ->].
    by rewrite Hlen.
  - destruct (diagnosis_check_passes df
                (create_dim_provider (provider_layout engine) df)
                (create_dim_location (location_layout engine) df) _ _
                (create_dim_treatment (treatment_layout engine) df)
                Hdf Hidpd Hidsd) as [-> ->].
    by rewrite Hlen.
  - destruct (location_check_passes df
                (create_dim_provider (provider_layout engine) df) _
                (create_dim_primary_diagnosis
                   (primary_diagnosis_layout engine) df)
                (create_dim_secondary_diagnosis
                   (secondary_diagnosis_layout engine) df)
                (create_dim_treatment (treatment_layout engine) df)
                Hdf Hidl) as [-> ->].
    by rewrite Hlen.
  - destruct (treatment_check_passes df
                (create_dim_provider (provider_layout engine) df)
                (create_dim_location (location_layout engine) df)
                (create_dim_primary_diagnosis
                   (primary_diagnosis_layout engine) df)
                (create_dim_secondary_diagnosis
                   (secondary_diagnosis_layout engine) df) _
                Hdf Hidt) as [-> ->].
    by rewrite Hlen.
Qed.

Lemma checks_pass_on_distinct_visits_witness :
  NoDup ((λ r, visit_id (visit r)) <$> two_visits)
  ∧ engine_within_limits split_location two_visits
  ∧ provider_check (main split_location two_visits)
    = {| total := length two_visits; wrong := 0 |}
  ∧ diagnosis_check (main split_location two_visits)
    = {| total := length two_visits; wrong := 0 |}
  ∧ location_check (main split_location two_visits)
    = {| total := length two_visits; wrong := 0 |}
  ∧ treatment_check (main split_location two_visits)
    = {| total := length two_visits; wrong := 0 |}.
Proof.
  assert (NoDup ((λ r, visit_id (visit r)) <$> two_visits)) as Hdf.
  { refine (bool_decide_unpack _ _). vm_compute. exact I. }
  assert (engine_within_limits split_location two_visits) as Hlim.
  { unfold engine_within_limits. vm_compute. repeat split. }
  split; [exact Hdf|]. split; [exact Hlim|].
  exact (checks_pass_on_distinct_visits split_location two_visits Hdf Hlim).
Defined.

(** ** What the checks cannot report *)

Lemma conflict_bind_inv {D S} (o : option D) (get : D → Value)
    (src : option S) (gets : S → Value) :
  conflict (o ≫= get) (src ≫= gets) → is_Some o ∧ is_Some src.
Proof.
  intros (x & y & Hx & Hy & _).
  destruct o, src; done.
Qed.

Lemma met_references {F D} (fk : F → option Z) (id : D → Z) (f : F)
    (dim : list D) (o : option D) :
  met (λ f d, sql_eq (fk f) (Some (id d))) f dim o →
  is_Some o → references id dim (fk f).
Proof.
  intros Hmet [d ->]. destruct Hmet as [Hd [Heq _]%sql_eq_true].
  by exists d.
Qed.

Lemma met_names_visit {L X} (pack : SourceRecord → X) (key : X → Value)
    (v : L → Value) (l : L) df (o : option X) :
  (∀ r, key (pack r) = visit_id (visit r)) →
  met (λ l s, sql_eq (v l) (key s)) l (pack <$> df) o →
  is_Some o → names_visit df (v l).
Proof.
  intros Hkey Hmet [s ->]. destruct Hmet as [Hs [Heq Hnn]%sql_eq_true].
  apply list_elem_of_fmap in Hs as (r & -> & Hr).
  split; [done|]. exists r. by rewrite <- Hkey.
Qed.

Lemma length_left_join {L R} (on : L → R → bool) (left : list L)
    (right : list R) :
  length left ≤ length (left_join on left right).
Proof.
  unfold left_join. induction left as [|l left IH]; [done|].
  rewrite bind_cons, length_app.
  set (rest := left ≫= _) in *.
  destruct (filter (λ r, on l r = true) right) as [|m ms]; simpl; lia.
Qed.

Lemma provider_reported_is_joined df fact_df dim (x : ProviderCheck) :
  x ∈ provider_mismatches df fact_df dim →
  x.1.1 ∈ fact_df
  ∧ references provider_id dim (fact_provider_id x.1.1)
  ∧ names_visit df (fact_visit_id x.1.1).
Proof.
  intros [Hc Hx]%list_elem_of_filter.
  apply provider_condition_true in Hc.
  apply elem_of_left_join in Hx as [Hx Hsrc].
  apply elem_of_left_join in Hx as [Hf Hdim].
  assert (is_Some x.1.2 ∧ is_Some x.2) as [Hd Hs].
  { destruct Hc as [Hc|[Hc|Hc]]; by apply conflict_bind_inv in Hc. }
  split; [done|]. split.
  - by apply (met_references fact_provider_id provider_id _ dim x.1.2).
  - by apply (met_names_visit (λ r, (visit_id (visit r), provider r)) fst
                (λ y : FactVisit * option DimProvider, fact_visit_id y.1)
                x.1 df x.2).
Qed.

Lemma location_reported_is_joined df fact_df dim (x : LocationCheck) :
  x ∈ location_mismatches df fact_df dim →
  x.1.1 ∈ fact_df
  ∧ references location_id dim (fact_location_id x.1.1)
  ∧ names_visit df (fact_visit_id x.1.1).
Proof.
  intros [Hc Hx]%list_elem_of_filter.
  apply location_condition_true in Hc.
  apply elem_of_left_join in Hx as [Hx Hsrc].
  apply elem_of_left_join in Hx as [Hf Hdim].
  assert (is_Some x.1.2 ∧ is_Some x.2) as [Hd Hs].
  { destruct Hc as [Hc|Hc]; by apply conflict_bind_inv in Hc. }
  split; [done|]. split.
  - by apply (met_references fact_location_id location_id _ dim x.1.2).
  - by apply (met_names_visit (λ r, (visit_id (visit r), location r)) fst
                (λ y : FactVisit * option DimLocation, fact_visit_id y.1)
                x.1 df x.2).
Qed.

Lemma treatment_reported_is_joined df fact_df dim (x : TreatmentCheck) :
  x ∈ treatment_mismatches df fact_df dim →
  x.1.1 ∈ fact_df
  ∧ references treatment_id dim (fact_treatment_id x.1.1)
  ∧ names_visit df (fact_visit_id x.1.1).
Proof.
  intros [Hc Hx]%list_elem_of_filter.
  apply treatment_condition_true in Hc.
  apply elem_of_left_join in Hx as [Hx Hsrc].
  apply elem_of_left_join in Hx as [Hf Hdim].
  assert (is_Some x.1.2 ∧ is_Some x.2) as [Hd Hs].
  { destruct Hc as [Hc|Hc]; by apply conflict_bind_inv in Hc. }
  split; [done|]. split.
  - by apply (met_references fact_treatment_id treatment_id _ dim x.1.2).
  - by apply (met_names_visit (λ r, (visit_id (visit r), treatment r)) fst
                (λ y : FactVisit * option DimTreatment, fact_visit_id y.1)
                x.1 df x.2).
Qed.

Lemma diagnosis_reported_is_joined df fact_df dim1 dim2
    (x : DiagnosisCheck) :
  x ∈ diagnosis_mismatches df fact_df dim1 dim2 →
  x.1.1.1 ∈ fact_df
  ∧ (references primary_diagnosis_id dim1
       (fact_primary_diagnosis_id x.1.1.1)
     ∨ references secondary_diagnosis_id dim2
         (fact_secondary_diagnosis_id x.1.1.1))
  ∧ names_visit df (fact_visit_id x.1.1.1).
Proof.
  intros [Hc Hx]%list_elem_of_filter.
  apply diagnosis_condition_true in Hc.
  apply elem_of_left_join in Hx as [Hx Hsrc].
  apply elem_of_left_join in Hx as [Hx Hdim2].
  apply elem_of_left_join in Hx as [Hf Hdim1].
  assert ((is_Some x.1.1.2 ∨ is_Some x.1.2) ∧ is_Some x.2) as [Hd Hs].
  { destruct Hc as [Hc|[Hc|[Hc|Hc]]];
      apply conflict_bind_inv in Hc as [? ?]; auto. }
  split; [done|]. split.
  - destruct Hd as [Hd|Hd]; [left|right].
    + by apply (met_references fact_primary_diagnosis_id
                  primary_diagnosis_id _ dim1 x.1.1.2).
    + by apply (met_references (λ y : FactVisit * option DimPrimaryDiagnosis,
                                  fact_secondary_diagnosis_id y.1)
                  secondary_diagnosis_id x.1.1 dim2 x.1.2).
  - by apply (met_names_visit
                (λ r, (visit_id (visit r), primary_diagnosis r,
                       secondary_diagnosis r)) (λ s, s.1.1)
                (λ y : FactVisit * option DimPrimaryDiagnosis
                       * option DimSecondaryDiagnosis, fact_visit_id y.1.1)
                x.1 df x.2).
Qed.

(** X4: whatever tables a check is given, it counts every fact row in its
    total, and a row it reports belongs to a fact row whose foreign key is
    the identifier of a row of the dimension (for the diagnosis check: of
    one of the two dimensions) and whose visit id is the non-NULL visit id
    of a source row.  A fact row with a NULL or dangling foreign key, or
    with a NULL or unknown visit id, is never reported. *)
Theorem reported_rows_are_joined df fact_df dim_provider dim_primary
    dim_secondary dim_location dim_treatment :
  (length fact_df
     ≤ total (verify_fact_join_accuracy df fact_df dim_provider)
   ∧ ∀ x, x ∈ provider_mismatches df fact_df dim_provider →
          x.1.1 ∈ fact_df
          ∧ references provider_id dim_provider (fact_provider_id x.1.1)
          ∧ names_visit df (fact_visit_id x.1.1))
  ∧ (length fact_df
       ≤ total (verify_diagnosis_joins df fact_df dim_primary dim_secondary)
     ∧ ∀ x, x ∈ diagnosis_mismatches df fact_df dim_primary dim_secondary →
            x.1.1.1 ∈ fact_df
            ∧ (references primary_diagnosis_id dim_primary
                 (fact_primary_diagnosis_id x.1.1.1)
               ∨ references secondary_diagnosis_id dim_secondary
                   (fact_secondary_diagnosis_id x.1.1.1))
            ∧ names_visit df (fact_visit_id x.1.1.1))
  ∧ (length fact_df
       ≤ total (verify_location_join_accuracy df fact_df dim_location)
     ∧ ∀ x, x ∈ location_mismatches df fact_df dim_location →
            x.1.1 ∈ fact_df
            ∧ references location_id dim_location (fact_location_id x.1.1)
            ∧ names_visit df (fact_visit_id x.1.1))
  ∧ (length fact_df
       ≤ total (verify_treatment_join_accuracy df fact_df dim_treatment)
     ∧ ∀ x, x ∈ treatment_mismatches df fact_df dim_treatment →
            x.1.1 ∈ fact_df
            ∧ references treatment_id dim_treatment (fact_treatment_id x.1.1)
            ∧ names_visit df (fact_visit_id x.1.1)).
Proof.
  split; [split; [|apply provider_reported_is_joined]|].
  { simpl. unfold provider_joined.
    etrans; [|apply length_left_join]. apply length_left_join. }
  split; [split; [|apply diagnosis_reported_is_joined]|].
  { simpl. unfold diagnosis_joined.
    etrans; [|apply length_left_join].
    etrans; [|apply length_left_join]. apply length_left_join. }
  split; [split; [|apply location_reported_is_joined]|].
  { simpl. unfold location_joined.
    etrans; [|apply length_left_join]. apply length_left_join. }
  split; [|apply treatment_reported_is_joined].
  simpl. unfold treatment_joined.
  etrans; [|apply length_left_join]. apply length_left_join.
Qed.

Lemma stale_provider_row_reported :
  stale_provider_row
  ∈ provider_mismatches two_visits (fact_visit (main one_partition two_visits))
      stale_providers.
Proof. refine (bool_decide_unpack _ _). vm_compute. exact I. Qed.

Lemma reported_rows_are_joined_witness :
  stale_provider_row
  ∈ provider_mismatches two_visits (fact_visit (main one_partition two_visits))
      stale_providers
  ∧ stale_provider_row.1.1 ∈ fact_visit (main one_partition two_visits)
  ∧ references provider_id stale_providers
      (fact_provider_id stale_provider_row.1.1)
  ∧ names_visit two_visits (fact_visit_id stale_provider_row.1.1).
Proof.
  split; [exact stale_provider_row_reported|].
  exact (proj2 (proj1 (reported_rows_are_joined two_visits
                         (fact_visit (main one_partition two_visits))
                         stale_providers [] [] [] []))
           stale_provider_row stale_provider_row_reported).
Defined.

(** ** The completeness check on any fact table *)

Lemma elem_of_subtract {A} `{EqDecision A} (a b : list A) (x : A) :
  x ∈ subtract a b ↔ x ∈ a ∧ x ∉ b.
Proof.
  unfold subtract. rewrite list_elem_of_filter, elem_of_dropDuplicates. tauto.
Qed.

Lemma subtract_NoDup {A} `{EqDecision A} (a b : list A) :
  NoDup (subtract a b).
Proof. apply NoDup_filter, dropDuplicates_NoDup. Qed.

Lemma distinct_counts {A} `{EqDecision A} (a b : list A) :
  b ⊆ a →
  length (dropDuplicates b) ≤ length (dropDuplicates a)
  ∧ (length (dropDuplicates a) = length (dropDuplicates b) ↔ a ⊆ b).
Proof.
  intros Hsub.
  assert (dropDuplicates b ⊆+ dropDuplicates a) as Hms.
  { apply NoDup_submseteq; [apply dropDuplicates_NoDup|].
    intros x. rewrite !elem_of_dropDuplicates. apply Hsub. }
  split; [by apply submseteq_length|]. split.
  - intros Hlen x Hx.
    apply submseteq_length_Permutation in Hms; [|lia].
    apply elem_of_dropDuplicates. rewrite Hms.
    by apply elem_of_dropDuplicates.
  - intros Hsup. apply length_dropDuplicates_ext. intros x. split; auto.
Qed.

(** X5: for a fact table whose visit ids all occur in the source, the
    completeness check counts no more distinct visit ids in the fact table
    than in the source, finds the two counts equal exactly when every
    source visit id occurs in the fact table, and lists as missing exactly
    the source visit ids absent from the fact table, each once. *)
Theorem completeness_check_finds_missing df fact_df :
  fact_visit_id <$> fact_df ⊆ (λ r, visit_id (visit r)) <$> df →
  let c := verify_data_completeness df fact_df in
  normalized_visits c ≤ original_visits c
  ∧ (original_visits c = normalized_visits c ↔
     (λ r, visit_id (visit r)) <$> df ⊆ fact_visit_id <$> fact_df)
  ∧ NoDup (missing c)
  ∧ ∀ v, v ∈ missing c ↔
         v ∈ (λ r, visit_id (visit r)) <$> df
         ∧ v ∉ fact_visit_id <$> fact_df.
Proof.
  intros Hsub c.
  destruct (distinct_counts _ _ Hsub) as [Hle Heq].
  split; [exact Hle|]. split; [exact Heq|].
  unfold c, verify_data_completeness. cbn [missing].
  destruct (decide _) as [Hlen|Hlen].
  - split; [constructor|]. intros v. split; [by intros ?%elem_of_nil|].
    intros [Hv Hnv]. destruct Hnv. by apply Heq.
  - split; [apply subtract_NoDup|]. intros v.
    by rewrite elem_of_subtract, elem_of_dropDuplicates.
Qed.

Lemma completeness_check_finds_missing_witness :
  fact_visit_id <$> [visit1_fact] ⊆ (λ r, visit_id (visit r)) <$> two_visits
  ∧ let c := verify_data_completeness two_visits [visit1_fact] in
    normalized_visits c ≤ original_visits c
    ∧ (original_visits c = normalized_visits c ↔
       (λ r, visit_id (visit r)) <$> two_visits
       ⊆ fact_visit_id <$> [visit1_fact])
    ∧ NoDup (missing c)
    ∧ ∀ v, v ∈ missing c ↔
           v ∈ (λ r, visit_id (visit r)) <$> two_visits
           ∧ v ∉ fact_visit_id <$> [visit1_fact].
Proof.
  assert (fact_visit_id <$> [visit1_fact]
          ⊆ (λ r, visit_id (visit r)) <$> two_visits) as Hsub.
  { refine (bool_decide_unpack _ _). vm_compute. exact I. }
  split; [exact Hsub|].
  exact (completeness_check_finds_missing two_visits [visit1_fact] Hsub).
Defined.

(** ** The status of a patient *)

Lemma derived_status_lapsed df (row : PatientStatus) :
  row ∈ derive_patient_status df →
  (lapsed df (status_patient_id row) → derived_status row = Some "Inactive")
  ∧ (¬ lapsed df (status_patient_id row) →
     derived_status row = Some "Active").
Proof.
  intros Hrow.
  pose proof (proj1 (elem_of_derive_patient_status df row) Hrow)
    as (_ & Hlv & _).
  destruct (last_visit row) as [m|] eqn:E.
  - symmetry in Hlv. apply spark_max_Some in Hlv as [Hm _].
    apply list_elem_of_fmap in Hm as (r & Hd & Hr).
    apply list_elem_of_filter in Hr as [Hpid Hr].
    destruct (dated_group_status df row Hrow) as (m' & [Hex Hmax] & _ & Hst).
    { exists r. split; [done|]. split; [done|]. by rewrite <- Hd. }
    rewrite Hst. destruct Hex as (r' & Hr' & Hpid' & Hd').
    destruct cutoff_instant as [Hcut _].
    split.
    + intros [_ Hall]. rewrite decide_True; [done|].
      rewrite Hcut. by eapply Hall.
    + intros Hnot. rewrite decide_False; [done|]. intros Hle.
      apply Hnot. split.
      * exists r'. by rewrite Hd'.
      * intros r0 d Hr0 Hp0 Hd0. specialize (Hmax r0 d Hr0 Hp0 Hd0). lia.
  - symmetry in Hlv.
    pose proof (proj1 (spark_max_None _) Hlv) as Hnone.
    assert (∀ r, r ∈ df → patient_id (patient r) = status_patient_id row →
                 visit_date (visit r) = None) as Hundated.
    { intros r Hr Hpid. apply Hnone. apply list_elem_of_fmap. exists r.
      split; [done|]. by apply list_elem_of_filter. }
    destruct (undated_group_status df row Hrow Hundated) as [_ Hst].
    split; [|done].
    intros [(r & Hr & Hpid & Hd) _].
    rewrite (Hundated r Hr Hpid) in Hd. by destruct Hd.
Qed.

(** X6: in the Patient dimension, the row of a patient without
    [patient_id] has no status (NULL); the row of any other patient is
    "Inactive" when the patient has a dated visit and none later than the
    instant 2021-12-31 00:00:00 (a visit later on that day counts as
    later), and "Active" otherwise. *)
Theorem patient_dimension_status df (d : DimPatient) :
  d ∈ create_dim_patient df →
  (patient_id (dim_patient_cols d) = None → patient_status d = None)
  ∧ (patient_id (dim_patient_cols d) ≠ None →
     (lapsed df (patient_id (dim_patient_cols d)) →
      patient_status d = Some "Inactive")
     ∧ (¬ lapsed df (patient_id (dim_patient_cols d)) →
        patient_status d = Some "Active")).
Proof.
  intros Hd. unfold create_dim_patient in Hd.
  apply list_elem_of_fmap in Hd as ([p o] & -> & Hx).
  apply elem_of_left_join in Hx as [Hp Hmet]. simpl in *.
  split.
  - intros Hnull. destruct o as [s|]; [|done].
    destruct Hmet as [_ [_ Hnn]%sql_eq_true]. done.
  - intros Hpid.
    assert (patient_id p ∈ (λ r, patient_id (patient r)) <$> df) as Hin.
    { apply dropDuplicates_on_elem_of in Hp.
      rewrite (list_fmap_compose patient patient_id).
      by apply list_elem_of_fmap_2. }
    destruct o as [s|]; simpl.
    + destruct Hmet as [Hs [Heq _]%sql_eq_true]. rewrite Heq.
      by apply derived_status_lapsed.
    + exfalso.
      set (row := {| status_patient_id := patient_id p;
                     last_visit := spark_max ((λ r, visit_date (visit r))
                       <$> filter (λ r, patient_id (patient r) = patient_id p)
                             df);
                     derived_status := when_otherwise
                       (sql_le (spark_max ((λ r, visit_date (visit r))
                          <$> filter
                                (λ r, patient_id (patient r) = patient_id p)
                                df)) cutoff)
                       (Some "Inactive") (Some "Active") |}).
      assert (row ∈ derive_patient_status df) as Hrow
        by by apply elem_of_derive_patient_status.
      specialize (Hmet row Hrow). simpl in Hmet.
      assert (sql_eq (patient_id p) (patient_id p) = true) as Htrue
        by by apply sql_eq_true.
      congruence.
Qed.

Lemma patient1_row_in_dimension : patient1_row ∈ create_dim_patient two_visits.
Proof.
  set (rows := create_dim_patient two_visits). vm_compute in rows.
  subst rows. left.
Qed.

Lemma patient_dimension_status_witness :
  patient1_row ∈ create_dim_patient two_visits
  ∧ (patient_id (dim_patient_cols patient1_row) = None →
     patient_status patient1_row = None)
  ∧ (patient_id (dim_patient_cols patient1_row) ≠ None →
     (lapsed two_visits (patient_id (dim_patient_cols patient1_row)) →
      patient_status patient1_row = Some "Inactive")
     ∧ (¬ lapsed two_visits (patient_id (dim_patient_cols patient1_row)) →
        patient_status patient1_row = Some "Active")).
Proof.
  split; [exact patient1_row_in_dimension|].
  exact (patient_dimension_status two_visits patient1_row
           patient1_row_in_dimension).
Defined.

(** ** Links between the identity dimensions *)

(** X7: every Insurance row is taken whole from one source row, and the
    [patient_id] it carries has its row in the Patient dimension; every
    Billing row is taken whole from one source row, and the [insurance_id]
    it carries has its row in the Insurance dimension.  A NULL link is
    included: these dimensions keep a row with a NULL key. *)
Theorem identity_dimension_links df :
  Forall (λ d,
            (∃ r, r ∈ df ∧ dim_insurance_cols d = insurance r
                  ∧ dim_insurance_patient_id d = patient_id (patient r))
            ∧ dim_insurance_patient_id d
              ∈ (λ p, patient_id (dim_patient_cols p))
                  <$> create_dim_patient df)
    (create_dim_insurance df)
  ∧ Forall (λ d,
              (∃ r, r ∈ df ∧ dim_billing_cols d = billing r
                    ∧ dim_billing_insurance_id d
                      = insurance_id (insurance r))
              ∧ dim_billing_insurance_id d
                ∈ (λ i, insurance_id (dim_insurance_cols i))
                    <$> create_dim_insurance df)
      (create_dim_billing df).
Proof.
  split; apply Forall_forall; intros d Hd.
  - unfold create_dim_insurance in Hd.
    apply dropDuplicates_on_elem_of, list_elem_of_fmap in Hd
      as (r & -> & Hr).
    simpl. split; [by exists r|].
    apply (proj2 (create_dim_patient_keys df)).
    by apply (list_elem_of_fmap_2 (λ r, patient_id (patient r))).
  - unfold create_dim_billing in Hd.
    apply dropDuplicates_on_elem_of, list_elem_of_fmap in Hd
      as (r & -> & Hr).
    simpl. split; [by exists r|].
    apply (proj2 (create_dim_insurance_keys df)).
    by apply (list_elem_of_fmap_2 (λ r, insurance_id (insurance r))).
Qed.

(** ** Keys and sort order *)

(** Two columns of a frame, the first strictly sorted: the second is sorted
    along the first. *)
Lemma sorted_together {C A B} (R : A → A → Prop) (S : B → B → Prop)
    (f : C → A) (g : C → B) (l : list C) :
  (∀ a b, R a b → ¬ R b a) →
  StronglySorted R (f <$> l) → StronglySorted S (g <$> l) →
  ∀ x y, x ∈ l → y ∈ l → R (f x) (f y) → S (g x) (g y).
Proof.
  intros Hasym. induction l as [|a l IH]; intros HR HS x y Hx Hy Hxy.
  { by apply elem_of_nil in Hx. }
  rewrite fmap_cons in HR. rewrite fmap_cons in HS.
  apply StronglySorted_inv in HR as [HR HRa].
  apply StronglySorted_inv in HS as [HS HSa].
  rewrite Forall_fmap, Forall_forall in HRa.
  rewrite Forall_fmap, Forall_forall in HSa.
  apply elem_of_cons in Hx as [->|Hx], Hy as [->|Hy].
  - by destruct (Hasym _ _ Hxy).
  - by apply HSa.
  - destruct (Hasym _ _ Hxy). by apply HRa.
  - by apply IH.
Qed.

Lemma location_rows_strict df :
  StronglySorted (lt_by (λ c : LocationCols, (clinic_name c, room_number c)))
    (location_rows df).
Proof.
  unfold location_rows.
  apply (orderBy_strict (λ c : LocationCols, (clinic_name c, room_number c))).
  apply NoDup_filter, dropDuplicates_NoDup.
Qed.

Lemma lt_by_asym {A K} `{ComparatorOk K} (f : A → K) (a b : A) :
  lt_by f a b → ¬ lt_by f b a.
Proof.
  unfold lt_by. intros Hab Hba. apply cmp_gt_lt in Hba. congruence.
Qed.

(** X8: within the documented sizes, whatever the partitioning, the
    Location identifiers follow the business key: of two Location rows, the
    one with the smaller [location_id] is the one with the smaller
    ([clinic_name], [room_number]); and a Provider row with a smaller
    [provider_id] never has a greater ([doctor_title],
    [doctor_department]). *)
Theorem keys_follow_sort_order provider_layout location_layout df :
  (Z.of_nat (length provider_layout) < 2 ^ 30)%Z →
  (Z.of_nat (length location_layout) < 2 ^ 30)%Z →
  (Z.of_nat (length df) < 2 ^ 33)%Z →
  (∀ d1 d2,
     d1 ∈ create_dim_location location_layout df →
     d2 ∈ create_dim_location location_layout df →
     (location_id d1 < location_id d2)%Z ↔
     lt_by (λ c : LocationCols, (clinic_name c, room_number c))
       (dim_location_cols d1) (dim_location_cols d2))
  ∧ (∀ d1 d2,
       d1 ∈ create_dim_provider provider_layout df →
       d2 ∈ create_dim_provider provider_layout df →
       (provider_id d1 < provider_id d2)%Z →
       le_by (λ c : ProviderCols, (doctor_title c, doctor_department c))
         (dim_provider_cols d1) (dim_provider_cols d2)).
Proof.
  intros Hp Hl Hn. split.
  - intros d1 d2 Hd1 Hd2.
    assert (StronglySorted Z.lt
              (location_id <$> create_dim_location location_layout df))
      as Hids.
    { rewrite dim_location_keys.
      apply keys_as_assigned_chunks; [done|].
      pose proof (length_location_rows df). lia. }
    assert (StronglySorted
              (lt_by (λ c : LocationCols, (clinic_name c, room_number c)))
              (dim_location_cols <$> create_dim_location location_layout df))
      as Hrows by (rewrite dim_location_rows; apply location_rows_strict).
    split.
    + apply (sorted_together Z.lt _ location_id dim_location_cols
               (create_dim_location location_layout df)); try done.
      intros a b. lia.
    + apply (sorted_together _ Z.lt dim_location_cols location_id
               (create_dim_location location_layout df)); try done.
      intros a b. apply lt_by_asym.
  - intros d1 d2 Hd1 Hd2.
    apply (sorted_together Z.lt _ provider_id dim_provider_cols
             (create_dim_provider provider_layout df)); try done.
    + intros a b. lia.
    + rewrite dim_provider_keys.
      apply keys_as_assigned_chunks; [done|].
      pose proof (length_provider_rows df). lia.
    + rewrite dim_provider_rows. apply orderBy_sorted.
Qed.

Lemma rooms_in_split_location :
  room_101 ∈ create_dim_location [1] two_visits
  ∧ room_102 ∈ create_dim_location [1] two_visits.
Proof.
  set (rows := create_dim_location [1] two_visits). vm_compute in rows.
  subst rows. split; [left|right; left].
Qed.

Lemma keys_follow_sort_order_witness :
  (Z.of_nat (length (@nil nat)) < 2 ^ 30)%Z
  ∧ (Z.of_nat (length [1]) < 2 ^ 30)%Z
  ∧ (Z.of_nat (length two_visits) < 2 ^ 33)%Z
  ∧ room_101 ∈ create_dim_location [1] two_visits
  ∧ room_102 ∈ create_dim_location [1] two_visits
  ∧ ((location_id room_101 < location_id room_102)%Z ↔
     lt_by (λ c : LocationCols, (clinic_name c, room_number c))
       (dim_location_cols room_101) (dim_location_cols room_102)).
Proof.
  assert (Z.of_nat (length (@nil nat)) < 2 ^ 30)%Z as Hp by reflexivity.
  assert (Z.of_nat (length [1]) < 2 ^ 30)%Z as Hl by reflexivity.
  assert (Z.of_nat (length two_visits) < 2 ^ 33)%Z as Hn by reflexivity.
  split; [exact Hp|]. split; [exact Hl|]. split; [exact Hn|].
  split; [exact (proj1 rooms_in_split_location)|].
  split; [exact (proj2 rooms_in_split_location)|].
  exact (proj1 (keys_follow_sort_order [] [1] two_visits Hp Hl Hn)
           room_101 room_102 (proj1 rooms_in_split_location)
           (proj2 rooms_in_split_location)).
Defined.

(** ** Reading the source back from the warehouse *)

Lemma met_recover {D C} (id : D → Z) (cols : D → C) (key : C → list Value)
    (on : C → D → bool) (dim : list D) (c : C) (o : option D) :
  (∀ d, on c d = true ↔ c = cols d ∧ None ∉ key c) →
  (None ∉ key c → ∃ d, d ∈ dim ∧ on c d = true) →
  NoDup (id <$> dim) →
  met on c dim o →
  recover id cols dim (id <$> o) = populated key c.
Proof.
  intros Hon Henters Hnd Hmet. unfold recover, populated.
  destruct o as [d|]; simpl.
  - destruct Hmet as [Hd [Hc Hk]%Hon].
    rewrite (the_match_Some (λ d, Some (id d)) dim d (id d));
      [|by apply ids_NoDup|done..].
    simpl. by rewrite decide_False, Hc.
  - rewrite the_match_None. simpl.
    destruct (decide (None ∈ key c)) as [|Hk]; [done|].
    destruct (Henters Hk) as (d & Hd & Hond).
    rewrite (Hmet d Hd) in Hond. done.
Qed.

(** X9: within the documented sizes, joining a fact row of a run back to
    each derived dimension on its surrogate key returns the business
    columns of the visit's own source row when all of them are populated,
    and nothing when one of them is NULL (the fact row then carries no
    key, and these columns cannot be read back from the warehouse). *)
Theorem business_columns_read_back engine df f :
  engine_within_limits engine df →
  f ∈ fact_visit (main engine df) →
  ∃ s, s ∈ df
    ∧ copies_visit s f
    ∧ recover provider_id dim_provider_cols (dim_provider (main engine df))
        (fact_provider_id f)
      = populated provider_key (provider s)
    ∧ recover location_id dim_location_cols (dim_location (main engine df))
        (fact_location_id f)
      = populated location_key (location s)
    ∧ recover primary_diagnosis_id dim_primary_diagnosis_cols
        (dim_primary_diag (main engine df)) (fact_primary_diagnosis_id f)
      = populated primary_diagnosis_key (primary_diagnosis s)
    ∧ recover secondary_diagnosis_id dim_secondary_diagnosis_cols
        (dim_secondary_diag (main engine df)) (fact_secondary_diagnosis_id f)
      = populated secondary_diagnosis_key (secondary_diagnosis s)
    ∧ recover treatment_id dim_treatment_cols (dim_treatment (main engine df))
        (fact_treatment_id f)
      = populated treatment_key (treatment s).
Proof.
  intros (Hn & Hp' & Hl' & Hpd' & Hsd' & Ht') Hf. simpl in Hf |- *.
  apply fact_row_origin in Hf
    as (s & p & l & pd & sd & t & -> & Hs & Hp & Hl & Hpd & Hsd & Ht).
  exists s. split; [done|]. split; [apply select_fact_copies|].
  simpl. split; [|split; [|split; [|split]]].
  - eapply met_recover; [apply on_provider_true| | |done].
    + intros Hk. by apply provider_key_enters.
    + by apply dim_provider_ids_NoDup.
  - eapply met_recover; [apply on_location_true| | |done].
    + intros Hk. by apply location_key_enters.
    + by apply dim_location_ids_NoDup.
  - eapply met_recover; [apply on_primary_diagnosis_true| | |done].
    + intros Hk. by apply primary_diagnosis_key_enters.
    + by apply dim_primary_diagnosis_ids_NoDup.
  - eapply met_recover; [apply on_secondary_diagnosis_true| | |done].
    + intros Hk. by apply secondary_diagnosis_key_enters.
    + by apply dim_secondary_diagnosis_ids_NoDup.
  - eapply met_recover; [apply on_treatment_true| | |done].
    + intros Hk. by apply treatment_key_enters.
    + by apply dim_treatment_ids_NoDup.
Qed.

Lemma one_partition_within_limits :
  engine_within_limits one_partition two_visits.
Proof. unfold engine_within_limits. vm_compute. repeat split. Qed.

Lemma business_columns_read_back_witness :
  engine_within_limits one_partition two_visits
  ∧ visit1_fact ∈ fact_visit (main one_partition two_visits)
  ∧ ∃ s, s ∈ two_visits
      ∧ copies_visit s visit1_fact
      ∧ recover provider_id dim_provider_cols
          (dim_provider (main one_partition two_visits))
          (fact_provider_id visit1_fact)
        = populated provider_key (provider s)
      ∧ recover location_id dim_location_cols
          (dim_location (main one_partition two_visits))
          (fact_location_id visit1_fact)
        = populated location_key (location s)
      ∧ recover primary_diagnosis_id dim_primary_diagnosis_cols
          (dim_primary_diag (main one_partition two_visits))
          (fact_primary_diagnosis_id visit1_fact)
        = populated primary_diagnosis_key (primary_diagnosis s)
      ∧ recover secondary_diagnosis_id dim_secondary_diagnosis_cols
          (dim_secondary_diag (main one_partition two_visits))
          (fact_secondary_diagnosis_id visit1_fact)
        = populated secondary_diagnosis_key (secondary_diagnosis s)
      ∧ recover treatment_id dim_treatment_cols
          (dim_treatment (main one_partition two_visits))
          (fact_treatment_id visit1_fact)
        = populated treatment_key (treatment s).
Proof.
  split; [exact one_partition_within_limits|].
  split; [exact visit1_fact_in_run|].
  exact (business_columns_read_back one_partition two_visits visit1_fact
           one_partition_within_limits visit1_fact_in_run).
Defined.
